(** * Mistica design-system server: heuristic analysis and mapping core

    A shallow embedding of the search engine, the component mapper, the
    typography and colour analysers, the element extractor and the pattern
    detector, followed by the properties their specification states about
    them.

    Conventions of the embedding:
    - a JavaScript string is a [string] of bytes, the UTF-8 encoding of its
      text (lone surrogates are not represented).  Equality, [includes],
      [startsWith] and [endsWith] give on the bytes what they give on the
      UTF-16 code units; [length] is counted in code units by
      [Str.utf16Length]; [trim] removes the white space and the line
      terminators of the language, the ones beyond ASCII included;
    - [String.prototype.toLowerCase] follows the case tables of Unicode.  The
      search engine, the component mapper and the weight resolution of the
      typography analyser, whose results depend on the case of arbitrary
      catalog or style text, take the case mapping as a parameter
      [toLowerCase] and nothing is assumed of it; [Str.toLowerCase] is its
      restriction to the ASCII range, which the examples instantiate it with
      and which the probes over markup use;
    - a pattern literal is kept as its source text and interpreted by the
      matcher of module [Regex], in which a character is a byte and [\s],
      [\w], [\d], [.] and case folding act on the ASCII range; a double
      quote of a pattern is written [\x22];
    - integer scores and counts are [Z]; a score that can be NaN has a type
      of its own; confidences, which the source adds as IEEE doubles, are
      primitive [float]s where they are computed and [Q] where they are
      constants that are only compared;
    - a call that can raise returns a [result];
    - an object literal read with a key taken from the input also answers
      for the property names it inherits from [Object.prototype]. *)

From Stdlib Require Import ZArith List Bool Ascii String DecimalString Lia.
From Stdlib Require Import Sorting.Sorted Sorting.Permutation.
From Stdlib Require Import QArith Lqa.
From Stdlib Require Import Floats.PrimFloat.
From Stdlib Require Import FunctionalExtensionality.
Import ListNotations.

(* Decimal literals such as 0.3 denote the nearest binary64 value, as they
   do in the source. *)
Set Warnings "-inexact-float".

Local Open Scope string_scope.
Local Open Scope list_scope.
Local Open Scope Z_scope.

(** ** Results of calls that may raise *)

Inductive js_error : Type := TypeError.

Inductive result (A : Type) : Type :=
| Ok (a : A)
| Throw (e : js_error).

Arguments Ok {A} a.
Arguments Throw {A} e.

Definition bind {A B : Type} (r : result A) (k : A -> result B) : result B :=
  match r with
  | Ok a => k a
  | Throw e => Throw e
  end.

Notation "x <- r ;; k" := (bind r (fun x => k))
  (at level 61, r at next level, right associativity).

(** [mapM f l] is [l.map(f)] for an [f] that may raise: the first failure
    aborts the traversal. *)
Fixpoint mapM {A B : Type} (f : A -> result B) (l : list A) : result (list B) :=
  match l with
  | [] => Ok []
  | x :: l' => y <- f x ;; ys <- mapM f l' ;; Ok (y :: ys)
  end.

(** ** String primitives *)

Module Str.

Definition isUpper (c : ascii) : bool :=
  let n := nat_of_ascii c in (Nat.leb 65 n && Nat.leb n 90)%bool.

Definition lowerChar (c : ascii) : ascii :=
  if isUpper c then ascii_of_nat (nat_of_ascii c + 32) else c.

Fixpoint toLowerCase (s : string) : string :=
  match s with
  | EmptyString => EmptyString
  | String c s' => String (lowerChar c) (toLowerCase s')
  end.

(** White space of the ASCII range: TAB, LF, VT, FF, CR and SPACE. *)
Definition isSpace (c : ascii) : bool :=
  let n := nat_of_ascii c in
  (Nat.eqb n 32 || (Nat.leb 9 n && Nat.leb n 13))%bool.

(** The white space and line terminators beyond ASCII, as UTF-8 sequences:
    U+00A0 (C2 A0); U+1680 (E1 9A 80); U+2000 to U+200A, U+2028, U+2029 and
    U+202F (E2 80 80..8A, A8, A9, AF); U+205F (E2 81 9F); U+3000 (E3 80 80);
    U+FEFF (EF BB BF). *)
Definition isSpace2 (a b : ascii) : bool :=
  (Nat.eqb (nat_of_ascii a) 194 && Nat.eqb (nat_of_ascii b) 160)%bool.

Definition isSpace3 (a b c : ascii) : bool :=
  let x := nat_of_ascii a in
  let y := nat_of_ascii b in
  let z := nat_of_ascii c in
  ((Nat.eqb x 225 && Nat.eqb y 154 && Nat.eqb z 128)
   || (Nat.eqb x 226 && Nat.eqb y 128
       && ((Nat.leb 128 z && Nat.leb z 138)
           || Nat.eqb z 168 || Nat.eqb z 169 || Nat.eqb z 175))
   || (Nat.eqb x 226 && Nat.eqb y 129 && Nat.eqb z 159)
   || (Nat.eqb x 227 && Nat.eqb y 128 && Nat.eqb z 128)
   || (Nat.eqb x 239 && Nat.eqb y 187 && Nat.eqb z 191))%bool.

Fixpoint trimStart (s : string) : string :=
  match s with
  | EmptyString => EmptyString
  | String a s1 =>
      if isSpace a then trimStart s1
      else
        match s1 with
        | String b s2 =>
            if isSpace2 a b then trimStart s2
            else
              match s2 with
              | String c s3 => if isSpace3 a b c then trimStart s3 else s
              | EmptyString => s
              end
        | EmptyString => s
        end
  end.

(** [trimEnd] drops the trailing run of white space: what is left of the
    string from some position on is dropped when it is all white space. *)
Fixpoint trimEnd (s : string) : string :=
  match s with
  | EmptyString => EmptyString
  | String a s' =>
      match trimStart s with
      | EmptyString => EmptyString
      | _ => String a (trimEnd s')
      end
  end.

Definition trim (s : string) : string := trimEnd (trimStart s).

(** [s.length]: the number of UTF-16 code units, one per character of one
    to three bytes and two per character of four bytes. *)
Fixpoint utf16Length (s : string) : nat :=
  match s with
  | EmptyString => O
  | String c s' =>
      let n := nat_of_ascii c in
      ((if Nat.ltb n 128 then 1
        else if Nat.ltb n 192 then 0
        else if Nat.ltb n 240 then 1
        else 2) + utf16Length s')%nat
  end.

Definition isAscii (s : string) : bool :=
  forallb (fun c => Nat.ltb (nat_of_ascii c) 128) (list_ascii_of_string s).

(** [startsWith s t] is [s.startsWith(t)]. *)
Fixpoint startsWith (s t : string) : bool :=
  match t, s with
  | EmptyString, _ => true
  | String _ _, EmptyString => false
  | String b t', String a s' => (Ascii.eqb a b && startsWith s' t')%bool
  end.

(** [includes s t] is [s.includes(t)]: [t] occurs at some offset of [s]. *)
Fixpoint includes (s t : string) : bool :=
  (startsWith s t ||
   match s with
   | EmptyString => false
   | String _ s' => includes s' t
   end)%bool.

(** [endsWith s t] is [s.endsWith(t)]: [t] is [s] or a suffix of its tail. *)
Fixpoint endsWith (s t : string) : bool :=
  (String.eqb s t ||
   match s with
   | EmptyString => false
   | String _ s' => endsWith s' t
   end)%bool.

(** [splitRuns width s] is [s.split(/[sep]+/)] for a set of separator
    characters: [width t] is the number of bytes of the separator that [t]
    starts with, 0 when it starts with none.  The result lists the pieces
    between maximal runs of separators, with an empty piece where the string
    starts or ends with a separator.  [skip] counts the bytes still to pass
    of the separator being read. *)
Fixpoint splitFrom (width : string -> nat) (s cur : string) (inSep : bool)
    (skip : nat) : list string :=
  match s with
  | EmptyString => [cur]
  | String c s' =>
      match skip with
      | S skip' => splitFrom width s' cur inSep skip'
      | O =>
          match width s with
          | O =>
              splitFrom width s' (String.append cur (String c EmptyString))
                false O
          | S more =>
              if inSep then splitFrom width s' EmptyString true more
              else cur :: splitFrom width s' EmptyString true more
          end
      end
  end.

Definition splitRuns (width : string -> nat) (s : string) : list string :=
  splitFrom width s EmptyString false O.

Definition mem (x : string) (l : list string) : bool :=
  existsb (String.eqb x) l.

(** [uniq l] is [[...new Set(l)]]: the first occurrence of each string, in
    order. *)
Fixpoint uniqFrom (seen l : list string) : list string :=
  match l with
  | [] => []
  | x :: l' =>
      if mem x seen then uniqFrom seen l' else x :: uniqFrom (x :: seen) l'
  end.

Definition uniq (l : list string) : list string := uniqFrom [] l.

End Str.

(** A case mapping acts on ASCII text as [Str.toLowerCase] does; the one of
    the language is such a mapping. *)
Definition agreesOnAscii (toLowerCase : string -> string) : Prop :=
  forall s, Str.isAscii s = true -> toLowerCase s = Str.toLowerCase s.

(** ** Stable descending sort

    [Array.prototype.sort] with the comparator [(a, b) => key(b) - key(a)] is
    a stable sort by descending key.  The result of a stable sort is unique,
    so insertion from the right models it: an element is placed in front of
    the first later element whose key is not greater. *)

Section StableSort.

Context {A : Type}.
Variable geb : A -> A -> bool.   (* [geb x y]: key x >= key y *)

Fixpoint insertDesc (x : A) (l : list A) : list A :=
  match l with
  | [] => [x]
  | y :: l' => if geb x y then x :: l else y :: insertDesc x l'
  end.

Definition sortDesc (l : list A) : list A := fold_right insertDesc [] l.

End StableSort.

(** Sorting by an integer key. *)
Definition sortByKeyDesc {A : Type} (key : A -> Z) : list A -> list A :=
  sortDesc (fun x y => key y <=? key x).

Definition descending {A : Type} (key : A -> Z) (l : list A) : Prop :=
  StronglySorted (fun x y => key y <= key x) l.

(** ** Regular expressions

    The analysers probe their input with JavaScript regular expressions.
    [Regex.parse] reads the source text of a pattern (the dialect the
    analysers use: alternation, groups, character classes, greedy and lazy
    quantifiers, back-references, word boundaries and anchors) and
    [Regex.run] is a backtracking matcher with the priorities of the
    language: alternatives left to right, greedy quantifiers longest first,
    lazy ones shortest first, an iteration that consumes nothing rejected.
    Characters are bytes; [\s], [\w], [\d], [.] and case folding act on the
    ASCII range. *)

Module Regex.

Inductive regex : Type :=
| Empty
| Char (p : ascii -> bool)
| Seq (r1 r2 : regex)
| Alt (r1 r2 : regex)
| Star (greedy : bool) (r : regex)
| Group (n : nat) (r : regex)
| Backref (n : nat)
| WordBoundary (positive : bool)
| InputStart
| InputEnd.

(** *** Character sets *)

Definition code (c : ascii) : nat := nat_of_ascii c.

Definition between (lo hi : nat) (c : ascii) : bool :=
  (Nat.leb lo (code c) && Nat.leb (code c) hi)%bool.

Definition isDigit (c : ascii) : bool := between 48 57 c.

Definition isWordChar (c : ascii) : bool :=
  (between 97 122 c || between 65 90 c || isDigit c || Nat.eqb (code c) 95)%bool.

Definition isLineTerminator (c : ascii) : bool :=
  (Nat.eqb (code c) 10 || Nat.eqb (code c) 13)%bool.

Definition upperChar (c : ascii) : ascii :=
  if between 97 122 c then ascii_of_nat (code c - 32) else c.

(** Under the [i] flag a character belongs to a set when one of its two
    cases does. *)
Definition foldCase (icase : bool) (p : ascii -> bool) : ascii -> bool :=
  if icase then fun c => (p c || p (upperChar c) || p (Str.lowerChar c))%bool
  else p.

Definition sameChar (icase : bool) (a b : ascii) : bool :=
  if icase then Ascii.eqb (upperChar a) (upperChar b) else Ascii.eqb a b.

(** *** Parser *)

Definition hexValue (c : ascii) : option nat :=
  if isDigit c then Some (code c - 48)%nat
  else if between 97 102 c then Some (code c - 87)%nat
  else if between 65 70 c then Some (code c - 55)%nat
  else None.

(** The set a class escape denotes, if [c] is one. *)
Definition classEscape (c : ascii) : option (ascii -> bool) :=
  if Ascii.eqb c "d" then Some isDigit
  else if Ascii.eqb c "D" then Some (fun x => negb (isDigit x))
  else if Ascii.eqb c "w" then Some isWordChar
  else if Ascii.eqb c "W" then Some (fun x => negb (isWordChar x))
  else if Ascii.eqb c "s" then Some Str.isSpace
  else if Ascii.eqb c "S" then Some (fun x => negb (Str.isSpace x))
  else None.

(** The character a control or identity escape denotes. *)
Definition charEscape (c : ascii) : ascii :=
  if Ascii.eqb c "n" then ascii_of_nat 10
  else if Ascii.eqb c "r" then ascii_of_nat 13
  else if Ascii.eqb c "t" then ascii_of_nat 9
  else if Ascii.eqb c "f" then ascii_of_nat 12
  else if Ascii.eqb c "v" then ascii_of_nat 11
  else c.

(** The members of a bracketed class, up to the closing bracket. *)
Fixpoint parseClassItems (s : list ascii)
  : option (list (ascii -> bool) * list ascii) :=
  match s with
  | [] => None
  | "]"%char :: rest => Some ([], rest)
  | "\"%char :: "x"%char :: h1 :: h2 :: rest =>
      match hexValue h1, hexValue h2, parseClassItems rest with
      | Some a, Some b, Some (items, rest') =>
          Some (Ascii.eqb (ascii_of_nat (16 * a + b)) :: items, rest')
      | _, _, _ => None
      end
  | "\"%char :: c :: rest =>
      match parseClassItems rest with
      | Some (items, rest') =>
          Some (match classEscape c with
                | Some set => set
                | None => Ascii.eqb (charEscape c)
                end :: items, rest')
      | None => None
      end
  | lo :: "-"%char :: hi :: rest =>
      if Ascii.eqb hi "]" then
        (* a trailing hyphen is a member *)
        Some ([Ascii.eqb lo; Ascii.eqb "-"], rest)
      else
        match parseClassItems rest with
        | Some (items, rest') => Some (between (code lo) (code hi) :: items, rest')
        | None => None
        end
  | c :: rest =>
      match parseClassItems rest with
      | Some (items, rest') => Some (Ascii.eqb c :: items, rest')
      | None => None
      end
  end.

Definition parseClass (icase : bool) (s : list ascii)
  : option (regex * list ascii) :=
  let '(negated, s) :=
    match s with
    | "^"%char :: s' => (true, s')
    | _ => (false, s)
    end in
  match parseClassItems s with
  | Some (items, rest) =>
      let member := foldCase icase (fun c => existsb (fun item => item c) items) in
      Some (Char (if negated then fun c => negb (member c) else member), rest)
  | None => None
  end.

Fixpoint parseNat (s : list ascii) (acc : option nat)
  : option nat * list ascii :=
  match s with
  | c :: s' =>
      if isDigit c then
        parseNat s' (Some (match acc with
                           | Some a => 10 * a + (code c - 48)
                           | None => code c - 48
                           end)%nat)
      else (acc, s)
  | [] => (acc, s)
  end.

Fixpoint power (r : regex) (n : nat) : regex :=
  match n with
  | O => Empty
  | S n' => Seq r (power r n')
  end.

(** [r{0,n}]: up to [n] further copies, greedy or lazy. *)
Fixpoint upTo (greedy : bool) (r : regex) (n : nat) : regex :=
  match n with
  | O => Empty
  | S n' =>
      let more := Seq r (upTo greedy r n') in
      if greedy then Alt more Empty else Alt Empty more
  end.

(** A quantifier, if one follows the atom. *)
Definition parseQuantifier (atom : regex) (s : list ascii)
  : regex * list ascii :=
  let lazyMark (s : list ascii) : bool * list ascii :=
    match s with
    | "?"%char :: s' => (false, s')
    | _ => (true, s)
    end in
  match s with
  | "*"%char :: s' =>
      let '(greedy, s'') := lazyMark s' in (Star greedy atom, s'')
  | "+"%char :: s' =>
      let '(greedy, s'') := lazyMark s' in (Seq atom (Star greedy atom), s'')
  | "?"%char :: s' =>
      let '(greedy, s'') := lazyMark s' in (upTo greedy atom 1, s'')
  | "{"%char :: s' =>
      match parseNat s' None with
      | (Some lo, "}"%char :: s'') =>
          let '(_, s3) := lazyMark s'' in (power atom lo, s3)
      | (Some lo, ","%char :: "}"%char :: s'') =>
          let '(greedy, s3) := lazyMark s'' in
          (Seq (power atom lo) (Star greedy atom), s3)
      | (Some lo, ","%char :: s'') =>
          match parseNat s'' None with
          | (Some hi, "}"%char :: s3) =>
              let '(greedy, s4) := lazyMark s3 in
              (Seq (power atom lo) (upTo greedy atom (hi - lo)), s4)
          | _ => (atom, s)
          end
      | _ => (atom, s)
      end
  | _ => (atom, s)
  end.

Definition seqOf (atoms : list regex) : regex :=
  fold_right (fun a r => match r with Empty => a | _ => Seq a r end) Empty atoms.

Fixpoint altOf (alternatives : list (list regex)) : regex :=
  match alternatives with
  | [] => Empty
  | [atoms] => seqOf atoms
  | atoms :: rest => Alt (seqOf atoms) (altOf rest)
  end.

(** [parseDisjunction fuel icase s groups] reads alternatives up to a closing
    parenthesis or the end of the pattern; [groups] is the number of capture
    groups opened so far.  The result lists the alternatives, each a list
    of quantified atoms. *)
Fixpoint parseDisjunction (fuel : nat) (icase : bool) (s : list ascii)
    (groups : nat) : option (list (list regex) * list ascii * nat) :=
  match fuel with
  | O => None
  | S fuel' =>
      let continue (atom : regex) (s : list ascii) (groups : nat) :=
        let '(atom, s) := parseQuantifier atom s in
        match parseDisjunction fuel' icase s groups with
        | Some (atoms :: alternatives, rest, groups') =>
            Some ((atom :: atoms) :: alternatives, rest, groups')
        | _ => None
        end in
      match s with
      | [] => Some ([[]], s, groups)
      | ")"%char :: _ => Some ([[]], s, groups)
      | "|"%char :: s' =>
          match parseDisjunction fuel' icase s' groups with
          | Some (alternatives, rest, groups') =>
              Some ([] :: alternatives, rest, groups')
          | None => None
          end
      | "("%char :: "?"%char :: ":"%char :: s' =>
          match parseDisjunction fuel' icase s' groups with
          | Some (inner, ")"%char :: rest, groups') =>
              continue (altOf inner) rest groups'
          | _ => None
          end
      | "("%char :: s' =>
          match parseDisjunction fuel' icase s' (S groups) with
          | Some (inner, ")"%char :: rest, groups') =>
              continue (Group (S groups) (altOf inner)) rest groups'
          | _ => None
          end
      | "["%char :: s' =>
          match parseClass icase s' with
          | Some (atom, rest) => continue atom rest groups
          | None => None
          end
      | "."%char :: s' =>
          continue (Char (fun c => negb (isLineTerminator c))) s' groups
      | "^"%char :: s' => continue InputStart s' groups
      | "$"%char :: s' => continue InputEnd s' groups
      | "\"%char :: "x"%char :: h1 :: h2 :: s' =>
          match hexValue h1, hexValue h2 with
          | Some a, Some b =>
              continue (Char (sameChar icase (ascii_of_nat (16 * a + b)))) s' groups
          | _, _ => None
          end
      | "\"%char :: c :: s' =>
          if Ascii.eqb c "b" then continue (WordBoundary true) s' groups
          else if Ascii.eqb c "B" then continue (WordBoundary false) s' groups
          else if (between 49 57 c) then continue (Backref (code c - 48)) s' groups
          else
            match classEscape c with
            | Some set => continue (Char set) s' groups
            | None => continue (Char (sameChar icase (charEscape c))) s' groups
            end
      | c :: s' => continue (Char (sameChar icase c)) s' groups
      end
  end.

Definition parse (icase : bool) (source : string) : option regex :=
  let s := list_ascii_of_string source in
  match parseDisjunction (S (List.length s)) icase s 0 with
  | Some (alternatives, [], _) => Some (altOf alternatives)
  | _ => None
  end.

(** *** Matcher *)

Record state : Type := mkState {
  before : option ascii;          (* the character in front of the position *)
  rest : list ascii;              (* the input from the position on *)
  captures : list (nat * list ascii);
}.

Definition lookupCapture (n : nat) (caps : list (nat * list ascii))
  : option (list ascii) :=
  match find (fun entry => Nat.eqb (fst entry) n) caps with
  | Some (_, text) => Some text
  | None => None
  end.

Definition setCapture (n : nat) (text : list ascii)
    (caps : list (nat * list ascii)) : list (nat * list ascii) :=
  (n, text) :: filter (fun entry => negb (Nat.eqb (fst entry) n)) caps.

Definition step (s : state) : option (ascii * state) :=
  match rest s with
  | c :: rest' => Some (c, mkState (Some c) rest' (captures s))
  | [] => None
  end.

(** Consume [text], up to case under the [i] flag. *)
Fixpoint consume (icase : bool) (text : list ascii) (s : state) : option state :=
  match text with
  | [] => Some s
  | a :: text' =>
      match step s with
      | Some (c, s') => if sameChar icase a c then consume icase text' s' else None
      | None => None
      end
  end.

Definition isWordAt (c : option ascii) : bool :=
  match c with
  | Some c => isWordChar c
  | None => false
  end.

Definition orElse {A : Type} (x : option A) (y : unit -> option A) : option A :=
  match x with
  | Some _ => x
  | None => y tt
  end.

(** [run icase r s k]: match [r] at [s], then the continuation [k]; the first
    success in priority order is the result. *)
Fixpoint run (icase : bool) (r : regex) (s : state)
    (k : state -> option state) : option state :=
  match r with
  | Empty => k s
  | Char p =>
      match step s with
      | Some (c, s') => if p c then k s' else None
      | None => None
      end
  | Seq r1 r2 => run icase r1 s (fun s' => run icase r2 s' k)
  | Alt r1 r2 => orElse (run icase r1 s k) (fun _ => run icase r2 s k)
  | Star greedy r' =>
      (fix iterate (fuel : nat) (s : state) {struct fuel} : option state :=
         match fuel with
         | O => k s
         | S fuel' =>
             let again (_ : unit) :=
               run icase r' s (fun s' =>
                 if Nat.ltb (List.length (rest s')) (List.length (rest s))
                 then iterate fuel' s' else None) in
             if greedy then orElse (again tt) (fun _ => k s)
             else orElse (k s) again
         end) (S (List.length (rest s))) s
  | Group n r' =>
      run icase r' s (fun s' =>
        let consumed := (List.length (rest s) - List.length (rest s'))%nat in
        k (mkState (before s') (rest s')
             (setCapture n (firstn consumed (rest s)) (captures s'))))
  | Backref n =>
      match lookupCapture n (captures s) with
      | Some text =>
          match consume icase text s with
          | Some s' => k s'
          | None => None
          end
      | None => k s
      end
  | WordBoundary positive =>
      let atBoundary :=
        xorb (isWordAt (before s)) (isWordAt (hd_error (rest s))) in
      if Bool.eqb atBoundary positive then k s else None
  | InputStart =>
      match before s with
      | None => k s
      | Some _ => None
      end
  | InputEnd =>
      match rest s with
      | [] => k s
      | _ :: _ => None
      end
  end.

(** *** Searching *)

Record found : Type := mkFound {
  index : nat;                          (* where the match starts *)
  text : list ascii;                    (* the matched text *)
  groups : list (nat * list ascii);     (* the captures *)
  stop : state;                         (* the position after the match *)
}.

(** The leftmost match at or after the position [(previous, input)], which
    is at offset [offset]. *)
Fixpoint searchFrom (icase : bool) (r : regex) (previous : option ascii)
    (input : list ascii) (offset : nat) : option found :=
  match run icase r (mkState previous input []) Some with
  | Some final =>
      let consumed := (List.length input - List.length (rest final))%nat in
      Some (mkFound offset (firstn consumed input) (captures final) final)
  | None =>
      match input with
      | [] => None
      | c :: input' => searchFrom icase r (Some c) input' (S offset)
      end
  end.

(** All the matches a global pattern yields, left to right: the search
    resumes where the previous match stopped (one character further after
    an empty match). *)
Fixpoint matchesFrom (fuel : nat) (icase : bool) (r : regex)
    (previous : option ascii) (input : list ascii) (offset : nat)
  : list found :=
  match fuel with
  | O => []
  | S fuel' =>
      match searchFrom icase r previous input offset with
      | None => []
      | Some m =>
          let next := (index m + List.length (text m))%nat in
          m ::
          match text m, rest (stop m) with
          | [], c :: input' =>
              matchesFrom fuel' icase r (Some c) input' (S next)
          | [], [] => []
          | _ :: _, _ =>
              matchesFrom fuel' icase r (before (stop m)) (rest (stop m)) next
          end
      end
  end.

(** *** The operations the analysers use

    A pattern is given by its source text; [i] tells whether it carries the
    [i] flag.  A source text that does not parse matches nothing. *)

Definition compile (i : bool) (source : string) : regex :=
  match parse i source with
  | Some r => r
  | None => Char (fun _ => false)
  end.

(** [new RegExp(source, flags)] followed by one [exec] from the start. *)
Definition exec (i : bool) (source input : string) : option found :=
  searchFrom i (compile i source) None (list_ascii_of_string input) 0.

(** [/source/.test(input)] on a fresh pattern. *)
Definition test (i : bool) (source input : string) : bool :=
  match exec i source input with
  | Some _ => true
  | None => false
  end.

(** The successive results of [exec] on a global pattern, equally the
    matches [String.prototype.match] collects. *)
Definition matchAll (i : bool) (source input : string) : list found :=
  let s := list_ascii_of_string input in
  matchesFrom (S (List.length s)) i (compile i source) None s 0.

(** [(input.match(/source/g) || []).length] *)
Definition count (i : bool) (source input : string) : Z :=
  Z.of_nat (List.length (matchAll i source input)).

(** [match[n]] as a string; an unset group gives [None] ([undefined]). *)
Definition group (n : nat) (m : found) : option string :=
  match n with
  | O => Some (string_of_list_ascii (text m))
  | _ => option_map string_of_list_ascii (lookupCapture n (groups m))
  end.

(** [input.replace(/source/g, f)] with a replacement computed from the
    match. *)
Fixpoint spliceFrom (input : list ascii) (offset : nat) (ms : list found)
    (f : found -> string) : list ascii :=
  match ms with
  | [] => input
  | m :: ms' =>
      let skip := (index m - offset)%nat in
      let len := List.length (text m) in
      firstn skip input ++ list_ascii_of_string (f m)
      ++ spliceFrom (skipn (skip + len) input) (index m + len) ms' f
  end.

Definition replaceAll (i : bool) (source : string) (f : found -> string)
    (input : string) : string :=
  string_of_list_ascii
    (spliceFrom (list_ascii_of_string input) 0 (matchAll i source input) f).

(** [input.replace(/source/, f)]: the first match only. *)
Definition replaceFirst (i : bool) (source : string) (f : found -> string)
    (input : string) : string :=
  match exec i source input with
  | Some m =>
      string_of_list_ascii
        (spliceFrom (list_ascii_of_string input) 0 [m] f)
  | None => input
  end.

End Regex.

(** ** Element signals (the interfaces of the element extractor)

    One record per family; each lives in a module of its own so that the
    fields keep the names of the source ([found], [count], ...). *)

Record FigmaTextPreset : Type := mkFigmaTextPreset {
  preset : string;
  variant : string;
  originalName : string;
  fontSizeGuess : option Z;
  confidenceScore : Q;
}.

Record DetectedFigmaComponent : Type := mkDetectedFigmaComponent {
  dfc_originalName : string;
  normalizedName : string;
  componentType : string;
  dfc_confidenceScore : Q;
  variations : list string;
}.

Module ButtonElements.
Record t : Type := mk {
  found : bool; count : Z; hasActions : bool;
  variants : list string; positions : list string }.
End ButtonElements.

Module TextElements.
Record t : Type := mk {
  found : bool; count : Z; hasFormatting : bool;
  hierarchy : list string; figmaPresets : list FigmaTextPreset }.
End TextElements.

Module ContainerElements.
Record t : Type := mk {
  found : bool; count : Z; hasLayout : bool; hasPadding : bool;
  types : list string }.
End ContainerElements.

Module ListStructure.
Record t : Type := mk {
  hasIcons : bool; hasActions : bool; hasSubtitle : bool; isNested : bool }.
End ListStructure.

Module ListElements.
Record t : Type := mk {
  found : bool; count : Z; isRepeated : bool; hasNavigation : bool;
  structure : ListStructure.t }.
End ListElements.

Module IconElements.
Record t : Type := mk {
  found : bool; count : Z; hasInteraction : bool; types : list string }.
End IconElements.

Module InputElements.
Record t : Type := mk {
  found : bool; count : Z; types : list string; hasValidation : bool }.
End InputElements.

Module ImageElements.
Record t : Type := mk { found : bool; count : Z; isDecorative : bool }.
End ImageElements.

Module NavigationElements.
Record t : Type := mk {
  found : bool; hasBackButton : bool; hasTitle : bool; hasActions : bool }.
End NavigationElements.

Module LayoutElements.
Record t : Type := mk {
  found : bool; hasFixedFooter : bool; hasFixedHeader : bool;
  hasModal : bool; layoutType : string; containsButtonInFooter : bool }.
End LayoutElements.

Module SecurityElements.
Record t : Type := mk {
  found : bool; hasPinField : bool; hasCodeInput : bool;
  hasOTPInput : bool; securityLevel : string }.
End SecurityElements.

Module FormElements.
Record t : Type := mk {
  found : bool; hasValidation : bool; fieldTypes : list string;
  hasSubmitButton : bool; structure : string }.
End FormElements.

Module SpacingElements.
Record t : Type := mk {
  found : bool; hasExplicitSpacing : bool;
  spacingTypes : list string; spacingValues : list string;
  spacingPatterns : list string; detectedUnits : list string;
  semanticSpacing : list string }.
End SpacingElements.

Module FeedbackElements.
Record t : Type := mk {
  found : bool; type : string; hasScreen : bool; hasIcon : bool;
  hasActions : bool; detectedNames : list string }.
End FeedbackElements.

Module FigmaComponentElements.
Record t : Type := mk {
  found : bool; detectedComponents : list DetectedFigmaComponent }.
End FigmaComponentElements.

Record UIElements : Type := mkUIElements {
  buttons : ButtonElements.t;
  texts : TextElements.t;
  containers : ContainerElements.t;
  lists : ListElements.t;
  icons : IconElements.t;
  inputs : InputElements.t;
  images : ImageElements.t;
  navigation : NavigationElements.t;
  layouts : LayoutElements.t;
  security : SecurityElements.t;
  forms : FormElements.t;
  spacing : SpacingElements.t;
  feedback : FeedbackElements.t;
  figmaComponents : FigmaComponentElements.t;
}.

(** The pattern detector's signals that the mapper consumes
    (src/analyzers/PatternDetector.ts). *)
Record UIPatterns : Type := mkUIPatterns {
  listPattern : bool; cardPattern : bool; formPattern : bool;
  navigationPattern : bool; modalPattern : bool; tablePattern : bool;
  headerPattern : bool; footerPattern : bool;
}.

Record StructuralAnalysis : Type := mkStructuralAnalysis {
  hasNestedElements : bool;
  sa_layoutType : string;
  repetitiveElements : bool;
  interactionElements : list string;
  sa_spacing : string;
  alignment : string;
}.

(** ** Catalog components ([MisticaComponent], the fields the core reads) *)

Record MisticaComponent : Type := mkComponent {
  name : string;
  category : string;
  description : string;
}.

(** Property names every object literal inherits from [Object.prototype]:
    [table[key]] yields a function (or the prototype object) for them. *)
Definition inheritedKeys : list string :=
  [ "constructor"; "__proto__"; "hasOwnProperty"; "isPrototypeOf";
    "propertyIsEnumerable"; "toLocaleString"; "toString"; "valueOf";
    "__defineGetter__"; "__defineSetter__"; "__lookupGetter__";
    "__lookupSetter__" ].

Definition inheritedKey (k : string) : bool := Str.mem k inheritedKeys.

Fixpoint assoc {B : Type} (k : string) (tbl : list (string * B)) : option B :=
  match tbl with
  | [] => None
  | (k', v) :: tbl' => if String.eqb k k' then Some v else assoc k tbl'
  end.

(** ** Search engine (src/search/SearchEngine.ts) *)

Module SearchEngine.

Import Str.

(** The separators of [/[\s\-_]+/]: white space, hyphen and underscore.
    [separatorWidth s] is the number of bytes of the separator [s] starts
    with, 0 when it starts with none. *)
Definition separatorWidth (s : string) : nat :=
  match s with
  | String a s1 =>
      if (isSpace a || Ascii.eqb a "-" || Ascii.eqb a "_")%bool then 1%nat
      else
        match s1 with
        | String b s2 =>
            if isSpace2 a b then 2%nat
            else
              match s2 with
              | String c _ => if isSpace3 a b c then 3%nat else O
              | EmptyString => O
              end
        | EmptyString => O
        end
  | EmptyString => O
  end.

Definition extractSearchTerms (query : string) : list string :=
  let terms :=
    filter (fun term => Nat.ltb 1 (utf16Length term))
           (splitRuns separatorWidth query) in
  uniq (query :: terms).

Definition extractContextualKeywords (query : string) : list string :=
  (if (includes query "fixed" || includes query "footer")%bool
   then ["layout"; "footer"; "fixed"] else []) ++
  (if includes query "header" then ["layout"; "header"; "navigation"] else []) ++
  (if includes query "modal" then ["overlay"; "dialog"; "popup"] else []) ++
  (if includes query "card" then ["container"; "content"; "card"] else []) ++
  (if includes query "form" then ["input"; "field"; "form"; "validation"] else []) ++
  (if includes query "list" then ["list"; "item"; "collection"] else []) ++
  (if includes query "button" then ["action"; "click"; "interactive"] else []) ++
  (if (includes query "input" || includes query "field")%bool
   then ["form"; "data"; "entry"] else []) ++
  (if (includes query "pin" || includes query "security" || includes query "code")%bool
   then ["security"; "authentication"; "input"] else []).

Definition getExpandedTermMappings : list (string * list string) :=
  [ ("pin", ["pinfield"; "code"; "security"; "input"; "verification"]);
    ("pinfield", ["pin"; "code"; "security"; "otp"; "verification"]);
    ("field", ["textfield"; "input"; "form"; "entry"]);
    ("input", ["textfield"; "field"; "entry"; "form"]);
    ("code", ["pin"; "otp"; "verification"; "security"]);
    ("security", ["pin"; "otp"; "verification"; "authentication"]);
    ("footer", ["layout"; "fixed"; "bottom"; "sticky"]);
    ("header", ["layout"; "top"; "navigation"; "navbar"]);
    ("fixed", ["footer"; "header"; "layout"; "sticky"]);
    ("layout", ["grid"; "stack"; "box"; "container"; "wrapper"]);
    ("modal", ["dialog"; "popup"; "overlay"; "sheet"]);
    ("button", ["action"; "click"; "primary"; "secondary"; "cta"]);
    ("primary", ["button"; "main"; "action"]);
    ("secondary", ["button"; "auxiliary"; "action"]);
    ("navigation", ["navbar"; "menu"; "tabs"; "breadcrumb"]);
    ("navbar", ["navigation"; "menu"; "header"]);
    ("menu", ["navigation"; "dropdown"; "list"]);
    ("card", ["container"; "content"; "box"]);
    ("list", ["item"; "collection"; "menu"]);
    ("text", ["label"; "title"; "heading"; "paragraph"]);
    ("icon", ["symbol"; "graphic"; "visual"]);
    ("loading", ["spinner"; "progress"; "wait"]);
    ("error", ["feedback"; "alert"; "warning"]);
    ("success", ["feedback"; "confirmation"; "check"]);
    ("form", ["input"; "field"; "validation"; "submit"]);
    ("validation", ["error"; "check"; "verify"]);
    ("submit", ["button"; "action"; "send"]);
    ("table", ["data"; "grid"; "list"; "row"]);
    ("chart", ["graph"; "visualization"; "data"]);
    ("mistica", ["telefonica"; "brand"; "design"; "system"]);
    ("telefonica", ["mistica"; "brand"; "company"]) ].

(** [termMappings[term] || []], then iterated by [for ... of]: an own key
    gives its array, an inherited key gives a value that is not iterable (the
    loop raises a TypeError), any other key gives the empty array. *)
Definition mappedTermsOf (term : string) : result (list string) :=
  match assoc term getExpandedTermMappings with
  | Some mappedTerms => Ok mappedTerms
  | None => if inheritedKey term then Throw TypeError else Ok []
  end.

(** The body of the first loop over the search terms: what one term adds for
    its match against the component name. *)
Definition nameMatchBonus (name term : string) : Z :=
  (if String.eqb name term then 90 else 0) +
  (if includes name term then
     if startsWith name term then 80
     else if endsWith name term then 70
     else 60
   else 0).

Definition mappedTermBonus (name description mappedTerm : string) : Z :=
  (if includes name mappedTerm then 50 else 0) +
  (if includes description mappedTerm then 30 else 0).

Definition keywordBonus (name description category keyword : string) : Z :=
  (if includes name keyword then 40 else 0) +
  (if includes description keyword then 25 else 0) +
  (if includes category keyword then 20 else 0).

Definition categoryBonus (category term : string) : Z :=
  if (String.eqb category term
      || String.eqb category (String.append term "s")
      || String.eqb term (String.append category "s"))%bool
  then 35 else 0.

(** One iteration of the [switch] of [getFunctionalityScore]. *)
Definition functionalityCase (name description term : string) : Z :=
  if mem term ["pinfield"; "pin field"; "pin code"; "security"] then
    (if (includes name "pin" || includes name "code" || includes name "security")%bool
     then 60 else 0) +
    (if (includes description "código" || includes description "pin"
         || includes description "segurança")%bool
     then 40 else 0)
  else if mem term ["fixed footer"; "footer layout"; "button fixed footer"] then
    (if (includes name "footer" || includes name "layout" || includes name "fixed")%bool
     then 60 else 0) +
    (if (includes description "footer" || includes description "rodapé"
         || includes description "fixo")%bool
     then 40 else 0)
  else if mem term ["input"; "field"] then
    (if (includes name "input" || includes name "field" || includes name "textfield")%bool
     then 50 else 0)
  else if mem term ["text"; "label"] then
    (if (includes name "text" || includes name "label" || includes name "title")%bool
     then 45 else 0)
  else 0.

(** The functions below lower-case the fields of the component and the
    query with the case mapping of the language, a parameter here. *)
Section CaseMapping.

Variable toLowerCase : string -> string.

Definition getFunctionalityScore (component : MisticaComponent)
    (originalQuery : string) (searchTerms : list string) : Z :=
  let name := toLowerCase (name component) in
  let description := toLowerCase (description component) in
  fold_left (fun functionalScore term =>
               functionalScore + functionalityCase name description term)
            (searchTerms ++ [originalQuery]) 0.

(** The second loop: term expansion; it raises where [mappedTermsOf] does. *)
Fixpoint expansionLoop (name description : string) (searchTerms : list string)
    (score : Z) : result Z :=
  match searchTerms with
  | [] => Ok score
  | term :: rest =>
      mappedTerms <- mappedTermsOf term ;;
      expansionLoop name description rest
        (fold_left (fun score mappedTerm =>
                      score + mappedTermBonus name description mappedTerm)
                   mappedTerms score)
  end.

Definition calculateRelevanceScore (component : MisticaComponent)
    (originalQuery : string) (searchTerms contextualKeywords : list string)
  : result Z :=
  let name := toLowerCase (name component) in
  let category := toLowerCase (category component) in
  let description := toLowerCase (description component) in
  if String.eqb name originalQuery then Ok 100
  else
    let score :=
      fold_left (fun score term => score + nameMatchBonus name term)
                searchTerms 0 in
    score <- expansionLoop name description searchTerms score ;;
    let score :=
      fold_left (fun score keyword =>
                   score + keywordBonus name description category keyword)
                contextualKeywords score in
    let score :=
      fold_left (fun score term => score + categoryBonus category term)
                searchTerms score in
    Ok (score + getFunctionalityScore component originalQuery searchTerms).

(** The scored, filtered and sorted items of [smartSearchComponents], before
    the final [.map((item) => item.component)]. *)
Definition scoredComponents (components : list MisticaComponent)
    (normalizedQuery : string) : result (list (MisticaComponent * Z)) :=
  let searchTerms := extractSearchTerms normalizedQuery in
  let contextualKeywords := extractContextualKeywords normalizedQuery in
  scored <- mapM (fun component =>
                    score <- calculateRelevanceScore component normalizedQuery
                               searchTerms contextualKeywords ;;
                    Ok (component, score))
                 components ;;
  Ok (sortByKeyDesc snd (filter (fun item => 0 <? snd item) scored)).

Definition smartSearchComponents (components : list MisticaComponent)
    (query : string) : result (list MisticaComponent) :=
  if String.eqb (trim query) "" then Ok components
  else
    let normalizedQuery := trim (toLowerCase query) in
    scored <- scoredComponents components normalizedQuery ;;
    Ok (map fst scored).

End CaseMapping.

(** The name bonus as the specification words it: one bonus per term, [+90]
    on equality and otherwise the first of prefix, suffix, containment. *)
Definition spec_nameMatchBonus (name term : string) : Z :=
  if String.eqb name term then 90
  else if startsWith name term then 80
  else if endsWith name term then 70
  else if includes name term then 60
  else 0.

(** What the loops after the first one add to the score: term expansion,
    contextual keywords, category and functionality. *)
Definition remainingBonuses (toLowerCase : string -> string)
    (component : MisticaComponent) (originalQuery : string)
    (searchTerms contextualKeywords : list string) : result Z :=
  let name := toLowerCase (name component) in
  let category := toLowerCase (category component) in
  let description := toLowerCase (description component) in
  score <- expansionLoop name description searchTerms 0 ;;
  let score :=
    fold_left (fun score keyword =>
                 score + keywordBonus name description category keyword)
              contextualKeywords score in
  let score :=
    fold_left (fun score term => score + categoryBonus category term)
              searchTerms score in
  Ok (score + getFunctionalityScore toLowerCase component originalQuery
                searchTerms).

(** The sum of a per-term bonus over the search terms. *)
Definition sumOverTerms (bonus : string -> Z) (searchTerms : list string) : Z :=
  fold_right (fun term total => bonus term + total) 0 searchTerms.

End SearchEngine.

(** ** Component mapper (mappers/ComponentMapper.ts) *)

Fixpoint findIndex {A : Type} (p : A -> bool) (l : list A) : option nat :=
  match l with
  | [] => None
  | x :: l' => if p x then Some 0%nat else option_map S (findIndex p l')
  end.

(** [filterIndexed p 0 l] is [l.filter((x, index) => p(index, x))]. *)
Fixpoint filterIndexed {A : Type} (p : nat -> A -> bool) (index : nat)
    (l : list A) : list A :=
  match l with
  | [] => []
  | x :: l' =>
      if p index x then x :: filterIndexed p (S index) l'
      else filterIndexed p (S index) l'
  end.

Module ElementMapping.
Record t : Type := mk {
  detected : bool; misticaComponents : list string;
  reason : string; priority : Z }.
End ElementMapping.

Module ComponentMapper.

Import Str.

(** A score: a number or NaN. *)
Inductive Score : Type :=
| Points (n : Z)
| NotANumber.

Record ComponentSuggestion : Type := mkSuggestion {
  component : MisticaComponent;
  reason : string;
  score : Score;
}.

Inductive Complexity : Type := low | medium | high.

(** The catalog argument: [None] is [null] or [undefined].  Calling an array
    method on it raises a TypeError. *)
Definition Catalog : Type := option (list MisticaComponent).

Definition catalogFilter (allComponents : Catalog)
    (p : MisticaComponent -> bool) : result (list MisticaComponent) :=
  match allComponents with
  | Some components => Ok (filter p components)
  | None => Throw TypeError
  end.

Definition catalogFind (allComponents : Catalog)
    (p : MisticaComponent -> bool) : result (option MisticaComponent) :=
  match allComponents with
  | Some components => Ok (find p components)
  | None => Throw TypeError
  end.

(** *** Candidate component names per family *)

Definition nonEmptyOr (components fallback : list string) : list string :=
  match components with [] => fallback | _ => components end.

Definition getButtonComponents (buttons : ButtonElements.t) : list string :=
  let components :=
    (if ButtonElements.hasActions buttons
     then ["ButtonPrimary"; "ButtonSecondary"; "Touchable"] else []) ++
    (if mem "icon" (ButtonElements.variants buttons) then ["IconButton"] else []) ++
    (if mem "link" (ButtonElements.variants buttons) then ["TextLink"] else []) ++
    (if mem "danger" (ButtonElements.variants buttons) then ["ButtonDanger"] else [])
  in nonEmptyOr components ["ButtonPrimary"; "Touchable"].

Definition getButtonReason (buttons : ButtonElements.t) : string :=
  if ButtonElements.hasActions buttons
  then "Para elementos interativos com ações (clique, toque)"
  else "Para componentes de ação básicos".

Definition getTextComponents (texts : TextElements.t) : list string :=
  let hierarchy := TextElements.hierarchy texts in
  let components :=
    (if mem "h1" hierarchy then ["Title1"] else []) ++
    (if mem "h2" hierarchy then ["Title2"] else []) ++
    (if mem "h3" hierarchy then ["Title3"] else []) ++
    (if mem "subtitle" hierarchy then ["Title2"; "Title3"] else []) ++
    (if mem "body" hierarchy then ["Text"] else [])
  in nonEmptyOr components ["Text"; "Title1"].

Definition getTextReason (texts : TextElements.t) : string :=
  if TextElements.hasFormatting texts
  then "Para textos com hierarquia e formatação específica"
  else "Para conteúdo textual e títulos".

Definition getListComponents (lists : ListElements.t) : list string :=
  let structure := ListElements.structure lists in
  let components :=
    (if (ListElements.hasNavigation lists && ListStructure.hasIcons structure)%bool
     then ["BoxedRowList"; "BoxedRow"]
     else if ListElements.hasNavigation lists then ["RowList"; "BoxedRow"]
     else if ListElements.isRepeated lists then ["RowList"; "BoxedRowList"]
     else []) ++
    (if ListStructure.hasActions structure then ["BoxedRow"; "Menu"] else [])
  in nonEmptyOr components ["RowList"].

Definition getListReason (lists : ListElements.t) : string :=
  if (ListElements.hasNavigation lists
      && ListStructure.hasIcons (ListElements.structure lists))%bool
  then "Para listas interativas com ícones e navegação - IDEAL: BoxedRowList + BoxedRow"
  else if ListElements.isRepeated lists
  then "Para listas de elementos repetitivos estruturados"
  else "Para organização de conteúdo em lista".

Definition misticaValues : list string := ["8px"; "16px"; "24px"; "32px"].

Definition getContainerComponents (containers : ContainerElements.t)
    (structure : StructuralAnalysis) (spacing : SpacingElements.t)
  : list string :=
  let layoutType := sa_layoutType structure in
  let components :=
    (if String.eqb layoutType "vertical" then ["Stack"] else []) ++
    (if String.eqb layoutType "horizontal" then ["Inline"] else []) ++
    (if String.eqb layoutType "grid" then ["Grid"; "GridLayout"] else []) ++
    (if ContainerElements.hasPadding containers then ["Box"] else []) in
  let components :=
    if SpacingElements.found spacing then
      let components :=
        if mem "design-system-aligned" (SpacingElements.spacingPatterns spacing)
        then
          let components := "Stack" :: components in
          if existsb (fun value => mem value misticaValues)
                     (SpacingElements.spacingValues spacing)
          then "Box" :: components else components
        else components in
      let components :=
        if mem "gap" (SpacingElements.spacingTypes spacing)
        then components ++ ["Inline"] else components in
      if Nat.ltb 2 (List.length (SpacingElements.spacingTypes spacing))
      then components ++ ["Grid"] else components
    else components in
  let components :=
    if mem "card" (ContainerElements.types containers)
    then components ++ ["DataCard"; "MediaCard"] else components in
  match components with
  | [] => ["Box"; "Stack"]
  | _ => uniq components
  end.

Definition getContainerReason (structure : StructuralAnalysis)
    (spacing : SpacingElements.t) : string :=
  let patterns := SpacingElements.spacingPatterns spacing in
  if (SpacingElements.found spacing && mem "design-system-aligned" patterns)%bool
  then "Para layout com espaçamento alinhado ao design system Mística"
  else if (SpacingElements.found spacing && mem "consistent" patterns)%bool
  then "Para layout com espaçamento consistente e controlado"
  else if (SpacingElements.found spacing && mem "mixed" patterns)%bool
  then "Para normalizar espaçamento inconsistente usando padrões Mística"
  else if String.eqb (sa_layoutType structure) "vertical"
  then "Para layout vertical com espaçamento controlado"
  else if String.eqb (sa_layoutType structure) "grid"
  then "Para layouts em grade organizados"
  else "Para organização e espaçamento de elementos".

Definition getIconComponents (icons : IconElements.t) : list string :=
  if IconElements.hasInteraction icons then ["IconButton"] else ["Logo"].

Definition getIconReason (icons : IconElements.t) : string :=
  if IconElements.hasInteraction icons
  then "Para ícones interativos com ações (botões de ícone)"
  else "Para ícones decorativos e identidade visual".

Definition inputComponentsOf (type : string) : list string :=
  if String.eqb type "email" then ["EmailField"]
  else if String.eqb type "password" then ["PasswordField"]
  else if String.eqb type "number" then ["IntegerField"; "DecimalField"]
  else if String.eqb type "search" then ["SearchField"]
  else if String.eqb type "date" then ["DateField"; "DateTimeField"]
  else if String.eqb type "textarea" then ["TextField"]
  else ["TextField"].

Definition getInputComponents (inputs : InputElements.t) : list string :=
  let components :=
    flat_map inputComponentsOf (InputElements.types inputs) ++
    (if InputElements.hasValidation inputs then ["Form"] else [])
  in nonEmptyOr components ["TextField"].

Definition getInputReason (inputs : InputElements.t) : string :=
  if InputElements.hasValidation inputs
  then "Para campos de entrada com validação e formulários estruturados"
  else "Para entrada de dados do usuário".

Definition getNavigationComponents (navigation : NavigationElements.t)
  : list string :=
  ["NavigationBar"] ++
  (if (NavigationElements.hasTitle navigation
       && negb (NavigationElements.hasBackButton navigation))%bool
   then ["Header"] else []) ++
  (if NavigationElements.hasActions navigation then ["Header"] else []).

Definition getNavigationReason (navigation : NavigationElements.t) : string :=
  if NavigationElements.hasBackButton navigation
  then "Para navegação com botão de voltar e título"
  else if NavigationElements.hasActions navigation
  then "Para cabeçalho com ações e navegação"
  else "Para estrutura de navegação básica".

(** [createElementMappings], as the entries of the returned object in key
    order. *)
Definition createElementMappings (elements : UIElements)
    (structure : StructuralAnalysis) (patterns : UIPatterns)
  : list (string * ElementMapping.t) :=
  [ ("buttons",
     ElementMapping.mk (ButtonElements.found (buttons elements))
       (getButtonComponents (buttons elements))
       (getButtonReason (buttons elements))
       (if ButtonElements.hasActions (buttons elements) then 90 else 70));
    ("texts",
     ElementMapping.mk (TextElements.found (texts elements))
       (getTextComponents (texts elements))
       (getTextReason (texts elements))
       60);
    ("lists",
     ElementMapping.mk (ListElements.found (lists elements))
       (getListComponents (lists elements))
       (getListReason (lists elements))
       (if ListElements.hasNavigation (lists elements) then 95 else 80));
    ("containers",
     ElementMapping.mk (ContainerElements.found (containers elements))
       (getContainerComponents (containers elements) structure (spacing elements))
       (getContainerReason structure (spacing elements))
       50);
    ("icons",
     ElementMapping.mk (IconElements.found (icons elements))
       (getIconComponents (icons elements))
       (getIconReason (icons elements))
       (if IconElements.hasInteraction (icons elements) then 75 else 40));
    ("inputs",
     ElementMapping.mk (InputElements.found (inputs elements))
       (getInputComponents (inputs elements))
       (getInputReason (inputs elements))
       (if InputElements.hasValidation (inputs elements) then 85 else 70));
    ("navigation",
     ElementMapping.mk (NavigationElements.found (navigation elements))
       (getNavigationComponents (navigation elements))
       (getNavigationReason (navigation elements))
       90) ].

(** *** Scoring *)

(** The sum of the [count] fields over the families that carry one. *)
Definition inferComplexity (elements : UIElements) : Complexity :=
  let elementCounts :=
    ButtonElements.count (buttons elements)
    + TextElements.count (texts elements)
    + ContainerElements.count (containers elements)
    + ListElements.count (lists elements)
    + IconElements.count (icons elements)
    + InputElements.count (inputs elements)
    + ImageElements.count (images elements) in
  if 15 <? elementCounts then high
  else if 8 <? elementCounts then medium
  else low.

(** [categoryBoosts[component.category] || 0]: the boost of an own key and 0
    for a key the table does not answer for.  For a property name inherited
    from [Object.prototype] the lookup yields a function (or the prototype
    object), which is truthy, so [|| 0] keeps it: that is [None]. *)
Definition categoryBoost (category : string) : option Z :=
  if String.eqb category "components" then Some 25
  else if String.eqb category "layout" then Some 20
  else if String.eqb category "icons" then Some 15
  else if String.eqb category "utilities" then Some 10
  else if String.eqb category "hooks" then Some 5
  else if inheritedKey category then None
  else Some 0.

Definition complexityBoost (complexity : Complexity) : Z :=
  match complexity with
  | high => 20
  | medium => 15
  | low => 10
  end.

Definition spacingComponents : list string :=
  ["stack"; "box"; "container"; "grid"; "flex"].

(** The functions below lower-case catalog text with the case mapping of
    the language, a parameter here. *)
Section CaseMapping.

Variable toLowerCase : string -> string.

(** When the category boost is not a number, [score += boost] turns the
    score into a string; every later [+=] appends to it and a [-=] makes it
    NaN, so [Math.max(score, 0)] is NaN on every path. *)
Definition calculateIntelligentScore (elementType : string)
    (component : MisticaComponent) (elements : UIElements)
    (mapping : ElementMapping.t) : Score :=
  let score :=
    if ElementMapping.priority mapping =? 0 then 50
    else ElementMapping.priority mapping in
  let componentName := toLowerCase (name component) in
  let score := if includes componentName elementType then score + 30 else score in
  match categoryBoost (category component) with
  | None => NotANumber
  | Some boost =>
      let score := score + boost in
      let spacing := spacing elements in
      let patterns := SpacingElements.spacingPatterns spacing in
      let score :=
        if SpacingElements.found spacing then
          let score :=
            if (mem "design-system-aligned" patterns
                && (String.eqb (category component) "layout"
                    || includes componentName "stack"
                    || includes componentName "box"))%bool
            then score + 25 else score in
          let score := if mem "consistent" patterns then score + 15 else score in
          let score :=
            if existsb (fun type => includes componentName type) spacingComponents
            then score + 20 else score in
          if (mem "mixed" patterns
              && (String.eqb elementType "layout"
                  || String.eqb elementType "containers"))%bool
          then score - 10 else score
        else score in
      let score := score + complexityBoost (inferComplexity elements) in
      let score :=
        if (String.eqb elementType "lists"
            && negb (includes componentName "list")
            && negb (includes componentName "row"))%bool
        then score - 20 else score in
      let score :=
        if (String.eqb elementType "buttons"
            && negb (includes componentName "button")
            && negb (includes componentName "touchable"))%bool
        then score - 15 else score in
      Points (Z.max score 0)
  end.

(** *** The three tiers *)

Definition findComponentsByPattern (components : Catalog)
    (patterns : list string) : result (list MisticaComponent) :=
  catalogFilter components (fun comp =>
    let name := toLowerCase (name comp) in
    let description := toLowerCase (description comp) in
    existsb (fun pattern =>
               (includes name (toLowerCase pattern)
                || includes description (toLowerCase pattern))%bool)
            patterns).

Definition footerLayoutSuggestions (elements : UIElements)
    (allComponents : Catalog) : result (list ComponentSuggestion) :=
  if (LayoutElements.hasFixedFooter (layouts elements)
      && LayoutElements.containsButtonInFooter (layouts elements))%bool
  then
    footerLayoutComponents <-
      findComponentsByPattern allComponents
        ["layout"; "footer"; "fixed"; "button"] ;;
    Ok (map (fun comp =>
               mkSuggestion comp
                 "Componente para layout com botão fixo no footer (Button Fixed Footer Layout)"
                 (Points 95))
            footerLayoutComponents)
  else Ok [].

Definition pinFieldSuggestions (elements : UIElements)
    (allComponents : Catalog) : result (list ComponentSuggestion) :=
  if (SecurityElements.hasPinField (security elements)
      || SecurityElements.hasCodeInput (security elements))%bool
  then
    pinFieldComponents <-
      findComponentsByPattern allComponents
        ["pin"; "code"; "security"; "otp"; "verification"] ;;
    Ok (map (fun comp =>
               mkSuggestion comp
                 "Componente para entrada de código PIN/segurança"
                 (Points 90))
            pinFieldComponents)
  else Ok [].

(** The suggestions one detected family contributes: each candidate name is
    resolved against the catalog, case-insensitively; unresolved names are
    dropped. *)
Definition mappingSuggestions (elements : UIElements) (allComponents : Catalog)
    (entry : string * ElementMapping.t) : result (list ComponentSuggestion) :=
  let '(elementType, mapping) := entry in
  if ElementMapping.detected mapping then
    found <-
      mapM (fun componentName =>
              component <-
                catalogFind allComponents (fun c =>
                  String.eqb (toLowerCase (name c)) (toLowerCase componentName)) ;;
              Ok (match component with
                  | Some component =>
                      [mkSuggestion component (ElementMapping.reason mapping)
                         (calculateIntelligentScore elementType component
                            elements mapping)]
                  | None => []
                  end))
           (ElementMapping.misticaComponents mapping) ;;
    Ok (List.concat found)
  else Ok [].

(** One block of [getPatternBasedSuggestions]: the names are resolved with a
    case-sensitive comparison. *)
Definition patternBlock (flag : bool) (names : list string) (why : string)
    (fixedScore : Z) (allComponents : Catalog)
  : result (list ComponentSuggestion) :=
  if flag then
    found <-
      mapM (fun name' =>
              component <-
                catalogFind allComponents (fun c => String.eqb (name c) name') ;;
              Ok (match component with
                  | Some component =>
                      [mkSuggestion component why (Points fixedScore)]
                  | None => []
                  end))
           names ;;
    Ok (List.concat found)
  else Ok [].

Definition getPatternBasedSuggestions (patterns : UIPatterns)
    (allComponents : Catalog) : result (list ComponentSuggestion) :=
  s1 <- patternBlock (listPattern patterns)
          ["BoxedRowList"; "RowList"; "BoxedRow"]
          "Detectado padrão de lista com elementos repetitivos" 85
          allComponents ;;
  s2 <- patternBlock (cardPattern patterns)
          ["DataCard"; "MediaCard"; "HighlightedCard"; "BoxedRow"]
          "Detectado padrão de card com container estruturado" 80
          allComponents ;;
  s3 <- patternBlock (formPattern patterns)
          ["Form"; "TextField"; "EmailField"; "PasswordField"]
          "Detectado padrão de formulário com múltiplos inputs" 85
          allComponents ;;
  s4 <- patternBlock (navigationPattern patterns)
          ["NavigationBar"; "Header"; "NavigationBreadcrumbs"]
          "Detectado padrão de navegação com cabeçalho" 90
          allComponents ;;
  s5 <- patternBlock (modalPattern patterns)
          ["ActionsSheet"; "Drawer"; "InfoSheet"]
          "Detectado padrão de modal ou overlay" 85
          allComponents ;;
  Ok (s1 ++ s2 ++ s3 ++ s4 ++ s5).

(** The [suggestions] array as it stands before deduplication. *)
Definition collectSuggestions (elements : UIElements)
    (structure : StructuralAnalysis) (patterns : UIPatterns)
    (allComponents : Catalog) : result (list ComponentSuggestion) :=
  footer <- footerLayoutSuggestions elements allComponents ;;
  pin <- pinFieldSuggestions elements allComponents ;;
  mapped <- mapM (mappingSuggestions elements allComponents)
                 (createElementMappings elements structure patterns) ;;
  patternSuggestions <- getPatternBasedSuggestions patterns allComponents ;;
  Ok (footer ++ pin ++ List.concat mapped ++ patternSuggestions).

Definition sameName (a b : ComponentSuggestion) : bool :=
  String.eqb (name (component a)) (name (component b)).

(** [.filter((suggestion, index, self) =>
       index === self.findIndex(s => s.component.name === suggestion.component.name))] *)
Definition dedupeByName (self : list ComponentSuggestion)
  : list ComponentSuggestion :=
  filterIndexed
    (fun index suggestion =>
       match findIndex (fun s => sameName s suggestion) self with
       | Some first => Nat.eqb index first
       | None => false
       end)
    0%nat self.

(** [.sort((a, b) => b.score - a.score)].  [scoreGeb a b] tells whether
    the comparator is at most 0 on [(a, b)], where a NaN difference counts
    as 0, as [sort] reads it.  On numbers this is the stable descending sort.
    With a NaN among several distinct scores the comparator is not
    consistent and the language leaves the order to the implementation:
    [sortByScore] then gives one admissible outcome (the only one when NaN
    makes every comparison 0), and nothing is stated of the order in that
    case. *)
Definition scoreGeb (a b : ComponentSuggestion) : bool :=
  match score a, score b with
  | Points x, Points y => y <=? x
  | _, _ => true
  end.

Definition sortByScore : list ComponentSuggestion -> list ComponentSuggestion :=
  sortDesc scoreGeb.

(** The result of the returned promise: [Throw] is a rejection. *)
Definition findMisticaEquivalents (elements : UIElements)
    (structure : StructuralAnalysis) (patterns : UIPatterns)
    (allComponents : Catalog) : result (list ComponentSuggestion) :=
  suggestions <- collectSuggestions elements structure patterns allComponents ;;
  Ok (firstn 10 (sortByScore (dedupeByName suggestions))).

End CaseMapping.

(** The order of operations the specification calls canonical: sort, then
    deduplicate, then truncate. *)
Definition spec_canonicalOrder (suggestions : list ComponentSuggestion)
  : list ComponentSuggestion :=
  firstn 10 (dedupeByName (sortByScore suggestions)).

(** [a.score >= b.score] as the language compares numbers: false when
    either is NaN. *)
Definition scoreGe (a b : ComponentSuggestion) : Prop :=
  match score a, score b with
  | Points x, Points y => y <= x
  | _, _ => False
  end.

(** A list in descending order of score. *)
Definition descendingScores (l : list ComponentSuggestion) : Prop :=
  StronglySorted scoreGe l.

(** The number a score holds, 0 for NaN. *)
Definition points (s : ComponentSuggestion) : Z :=
  match score s with
  | Points n => n
  | NotANumber => 0
  end.

(** Whether the analysis makes the mapper call a method of the catalog:
    one of the two special cases applies, a family is detected (each has at
    least one candidate name), or a pattern flag of the fallback tier is
    set. *)
Definition consultsCatalog (elements : UIElements) (patterns : UIPatterns)
  : bool :=
  ((LayoutElements.hasFixedFooter (layouts elements)
    && LayoutElements.containsButtonInFooter (layouts elements))
   || (SecurityElements.hasPinField (security elements)
       || SecurityElements.hasCodeInput (security elements))
   || (ButtonElements.found (buttons elements)
       || TextElements.found (texts elements)
       || ListElements.found (lists elements)
       || ContainerElements.found (containers elements)
       || IconElements.found (icons elements)
       || InputElements.found (inputs elements)
       || NavigationElements.found (navigation elements))
   || (listPattern patterns || cardPattern patterns || formPattern patterns
       || navigationPattern patterns || modalPattern patterns))%bool.

(** The signals of a markup in which nothing is detected. *)
Definition noElements : UIElements :=
  mkUIElements
    (ButtonElements.mk false 0 false [] ["inline"])
    (TextElements.mk false 0 false [] [])
    (ContainerElements.mk false 0 false false [])
    (ListElements.mk false 0 false false
       (ListStructure.mk false false false false))
    (IconElements.mk false 0 false [])
    (InputElements.mk false 0 [] false)
    (ImageElements.mk false 0 true)
    (NavigationElements.mk false false false false)
    (LayoutElements.mk false false false false "standard" false)
    (SecurityElements.mk false false false false "none")
    (FormElements.mk false false [] false "simple")
    (SpacingElements.mk false false [] [] ["design-system"] [] [])
    (FeedbackElements.mk false "generic" false false false [])
    (FigmaComponentElements.mk false []).

End ComponentMapper.

(** ** Typography analyser (analyzers/TypographyAnalyzer.ts) *)

(** A JavaScript number used as a size: a finite value (every finite double
    is a rational), an infinity or NaN.  Comparisons with NaN are false. *)
Inductive number : Type :=
| Finite (q : Q)
| PosInfinity
| NegInfinity
| NaN.

Module Num.

(** [x >= n] and [x <= n] for an integer constant [n]. *)
Definition geZ (x : number) (n : Z) : bool :=
  match x with
  | Finite q => Qle_bool (inject_Z n) q
  | PosInfinity => true
  | NegInfinity | NaN => false
  end.

Definition leZ (x : number) (n : Z) : bool :=
  match x with
  | Finite q => Qle_bool q (inject_Z n)
  | NegInfinity => true
  | PosInfinity | NaN => false
  end.

(** [x <= y] on numbers. *)
Definition leb (x y : number) : bool :=
  match x, y with
  | NaN, _ | _, NaN => false
  | NegInfinity, _ => true
  | _, PosInfinity => true
  | Finite p, Finite q => Qle_bool p q
  | _, _ => false
  end.

(** [Math.min] on two doubles (the sign of a zero result is not tracked). *)
Definition Math_min (a b : float) : float :=
  if (PrimFloat.is_nan a || PrimFloat.is_nan b)%bool then PrimFloat.nan
  else if PrimFloat.ltb a b then a else b.

End Num.

Module TypographyAnalyzer.

Import Str.

Inductive TextLevel : Type :=
| text1 | text2 | text3 | text4 | text5
| text6 | text7 | text8 | text9 | text10.

Inductive Weight : Type := light | regular | medium | bold.

Definition Weight_eqb (a b : Weight) : bool :=
  match a, b with
  | light, light | regular, regular | medium, medium | bold, bold => true
  | _, _ => false
  end.

Record LevelConfig : Type := mkLevelConfig {
  minSize : Z;
  maxSize : Z;
  weights : list Weight;
}.

(** [TEXT_SCALE_MAPPING[level]]. *)
Definition TEXT_SCALE_MAPPING (level : TextLevel) : LevelConfig :=
  match level with
  | text1 => mkLevelConfig 56 64 [light; regular; medium]
  | text2 => mkLevelConfig 40 48 [light; regular; medium]
  | text3 => mkLevelConfig 32 40 [light; regular; medium]
  | text4 => mkLevelConfig 28 32 [light; regular; medium]
  | text5 => mkLevelConfig 24 28 [light; regular; medium]
  | text6 => mkLevelConfig 20 24 [regular; medium]
  | text7 => mkLevelConfig 18 20 [regular; medium]
  | text8 => mkLevelConfig 16 18 [regular; medium]
  | text9 => mkLevelConfig 14 16 [regular; medium]
  | text10 => mkLevelConfig 12 14 [regular; medium]
  end.

(** The keys of [TEXT_SCALE_MAPPING] in the order [Object.entries] visits
    them. *)
Definition textLevels : list TextLevel :=
  [text1; text2; text3; text4; text5; text6; text7; text8; text9; text10].

Definition WEIGHT_KEYWORDS : list (Weight * list string) :=
  [ (light, ["light"; "thin"; "300"; "200"; "100"]);
    (regular, ["regular"; "normal"; "400"; "book"]);
    (medium, ["medium"; "500"; "600"; "semibold"]);
    (bold, ["bold"; "700"; "800"; "900"; "black"]) ].

(** [fontSize >= config.minSize && fontSize <= config.maxSize] *)
Definition withinRange (fontSize : number) (config : LevelConfig) : bool :=
  (Num.geZ fontSize (minSize config) && Num.leZ fontSize (maxSize config))%bool.

(** The fallback staircase that follows the loop over the table. *)
Definition fallbackLevel (fontSize : number) : TextLevel :=
  if Num.geZ fontSize 56 then text1
  else if Num.geZ fontSize 40 then text2
  else if Num.geZ fontSize 32 then text3
  else if Num.geZ fontSize 28 then text4
  else if Num.geZ fontSize 24 then text5
  else if Num.geZ fontSize 20 then text6
  else if Num.geZ fontSize 18 then text7
  else if Num.geZ fontSize 16 then text8
  else if Num.geZ fontSize 14 then text9
  else text10.

Definition determineTextLevel (fontSize : number) : TextLevel :=
  match find (fun level => withinRange fontSize (TEXT_SCALE_MAPPING level))
             textLevels with
  | Some level => level
  | None => fallbackLevel fontSize
  end.

(** *** [parseInt] *)

Definition digitValue (radix : Z) (c : ascii) : option Z :=
  let n := Z.of_nat (nat_of_ascii c) in
  let v :=
    if (48 <=? n) && (n <=? 57) then Some (n - 48)
    else if (97 <=? n) && (n <=? 122) then Some (n - 87)
    else if (65 <=? n) && (n <=? 90) then Some (n - 55)
    else None in
  match v with
  | Some d => if d <? radix then Some d else None
  | None => None
  end.

(** The value of the longest prefix of digits, [None] when there is none. *)
Fixpoint parseDigits (radix : Z) (s : string) (acc : option Z) : option Z :=
  match s with
  | EmptyString => acc
  | String c s' =>
      match digitValue radix c with
      | Some d =>
          parseDigits radix s'
            (Some (match acc with Some a => a * radix + d | None => d end))
      | None => acc
      end
  end.

(** [parseInt(s)]: leading white space, an optional sign, an optional [0x]
    prefix, then digits; [None] is NaN. *)
Definition parseInt (s : string) : option Z :=
  let s := trimStart s in
  let '(negative, s) :=
    match s with
    | String "-" s' => (true, s')
    | String "+" s' => (false, s')
    | _ => (false, s)
    end in
  let magnitude :=
    match s with
    | String "0" (String x s') =>
        if (Ascii.eqb x "x" || Ascii.eqb x "X")%bool
        then parseDigits 16 s' None
        else parseDigits 10 s None
    | _ => parseDigits 10 s None
    end in
  option_map (fun m => if negative then - m else m) magnitude.

(** The weight is resolved from the lower-cased weight and style text; the
    case mapping of the language is a parameter. *)
Section CaseMapping.

Variable toLowerCase : string -> string.

Definition determineWeight (fontWeight cssText : string) : Weight :=
  let weightLower := toLowerCase fontWeight in
  match find (fun entry =>
                existsb (fun keyword =>
                           (includes weightLower keyword
                            || includes (toLowerCase cssText) keyword)%bool)
                        (snd entry))
             WEIGHT_KEYWORDS with
  | Some (weight, _) => weight
  | None =>
      match parseInt fontWeight with
      | Some numericWeight =>
          if numericWeight <=? 300 then light
          else if numericWeight <=? 400 then regular
          else if numericWeight <=? 600 then medium
          else bold
      | None => bold
      end
  end.

Definition calculateTypographyConfidence (fontSize : number)
    (fontWeight : string) (textLevel : TextLevel) (weight : Weight) : float :=
  let confidence := 0.5%float in
  let levelConfig := TEXT_SCALE_MAPPING textLevel in
  let confidence :=
    if withinRange fontSize levelConfig then (confidence + 0.3)%float
    else confidence in
  let confidence :=
    if existsb (Weight_eqb weight) (weights levelConfig)
    then (confidence + 0.2)%float else confidence in
  Num.Math_min confidence 1.0%float.

Record TypographyAnalysis : Type := mkTypographyAnalysis {
  textLevel : TextLevel;
  weight : Weight;
  size : number;
  confidence : float;
}.

(** The part of [analyzeTypography] that follows the extraction of the font
    size and weight: [fontSize] and [fontWeight] are the resolved values and
    [styleText] is [cssText + (elementHtml || '')]. *)
Definition analyzeResolved (fontSize : number) (fontWeight styleText : string)
  : TypographyAnalysis :=
  let textLevel := determineTextLevel fontSize in
  let weight := determineWeight fontWeight styleText in
  let confidence :=
    calculateTypographyConfidence fontSize fontWeight textLevel weight in
  mkTypographyAnalysis textLevel weight fontSize confidence.

End CaseMapping.

(** The position of a level on the scale, 1 for [text1]. *)
Definition levelNumber (level : TextLevel) : Z :=
  match level with
  | text1 => 1 | text2 => 2 | text3 => 3 | text4 => 4 | text5 => 5
  | text6 => 6 | text7 => 7 | text8 => 8 | text9 => 9 | text10 => 10
  end.

(** A size outside every range of the table. *)
Definition outsideAllRanges (fontSize : number) : bool :=
  forallb (fun level => negb (withinRange fontSize (TEXT_SCALE_MAPPING level)))
          textLevels.

(** A size strictly inside the range of a level. *)
Definition strictlyInside (fontSize : number) (level : TextLevel) : bool :=
  match fontSize with
  | Finite q =>
      (negb (Qle_bool q (inject_Z (minSize (TEXT_SCALE_MAPPING level))))
       && negb (Qle_bool (inject_Z (maxSize (TEXT_SCALE_MAPPING level))) q))%bool
  | _ => false
  end.

End TypographyAnalyzer.

(** ** Element extractor (analyzers/ElementExtractor.ts) *)

Definition numberToString (n : Z) : string :=
  NilZero.string_of_int (Z.to_int n).

(** [s.split(sep)] for a one-character separator. *)
Fixpoint splitOnFrom (sep : ascii) (s cur : string) : list string :=
  match s with
  | EmptyString => [cur]
  | String c s' =>
      if Ascii.eqb c sep then cur :: splitOnFrom sep s' EmptyString
      else splitOnFrom sep s' (String.append cur (String c EmptyString))
  end.

Definition splitOn (sep : ascii) (s : string) : list string :=
  splitOnFrom sep s EmptyString.

Fixpoint toUpperCase (s : string) : string :=
  match s with
  | EmptyString => EmptyString
  | String c s' => String (Regex.upperChar c) (toUpperCase s')
  end.

(** [a || b] on optional strings: the first that is set and not empty. *)
Definition firstSet (a b : option string) : option string :=
  match a with
  | Some (String _ _) => a
  | _ =>
      match b with
      | Some (String _ _) => b
      | _ => None
      end
  end.

(** A value read through a key inherited from [Object.prototype] is a
    built-in function; where the source stores it in a string-typed field
    the field is modelled by the text the function converts to. *)
Definition nativeText (key : string) : string :=
  if String.eqb key "__proto__" then "[object Object]"
  else if String.eqb key "constructor" then "function Object() { [native code] }"
  else String.append "function " (String.append key "() { [native code] }").

(** [uniqueMap.set(key, value)] on a [Map], whose entries stay in the order
    in which their keys were first inserted. *)
Fixpoint mapSet {V : Type} (key : string) (value : V)
    (entries : list (string * V)) : list (string * V) :=
  match entries with
  | [] => [(key, value)]
  | (k, v) :: entries' =>
      if String.eqb key k then (k, value) :: entries'
      else (k, v) :: mapSet key value entries'
  end.

Module ElementExtractor.

Import Str.

(** A pattern literal with the flags [gi], probed with [test]. *)
Definition probe (source code : string) : bool := Regex.test true source code.

(** [(code.match(/source/gi) || []).length] *)
Definition countOf (source code : string) : Z := Regex.count true source code.

Definition pushIf (cond : bool) (value : string) : list string :=
  if cond then [value] else [].

Definition detectButtonVariants (code : string) : list string :=
  pushIf (probe "primary|Primary" code) "primary" ++
  pushIf (probe "secondary|Secondary" code) "secondary" ++
  pushIf (probe "danger|Danger|error" code) "danger" ++
  pushIf (probe "link|Link" code) "link" ++
  pushIf (probe "icon.*button|IconButton" code) "icon".

Definition detectButtonPositions (code : string) : list string :=
  let positions :=
    pushIf (probe "footer.*button|button.*footer|bottom.*button|fixed.*bottom.*button" code)
           "footer" ++
    pushIf (probe "header.*button|button.*header|top.*button|navigation.*button" code)
           "header" in
  positions ++
  pushIf (match positions with [] => true | _ => false end
          || probe "inline.*button|content.*button" code)%bool
         "inline".

Definition extractButtons (code : string) : ButtonElements.t :=
  let patterns :=
    [ "(?:button|Button|btn|Btn|TouchableOpacity|Pressable)[\s\S]*?(?:onPress|onClick|press)";
      "<button[\s\S]*?>";
      "Button\w*\s*{" ] in
  ButtonElements.mk
    (existsb (fun p => probe p code) patterns)
    (countOf "button|Button|TouchableOpacity|Pressable" code)
    (probe "onPress|onClick|press|tap" code)
    (detectButtonVariants code)
    (detectButtonPositions code).

Definition detectTextHierarchy (code : string) : list string :=
  pushIf (probe "text-preset-1\/|text-preset-1-|title.*1|Title1|heading.*1" code) "text1" ++
  pushIf (probe "text-preset-2\/|text-preset-2-|title.*2|Title2|heading.*2" code) "text2" ++
  pushIf (probe "text-preset-3\/|text-preset-3-|title.*3|Title3|heading.*3" code) "text3" ++
  pushIf (probe "text-preset-4\/|text-preset-4-|title.*4|Title4|heading.*4" code) "text4" ++
  pushIf (probe "text-preset-5\/|text-preset-5-|title.*5|Title5|heading.*5" code) "text5" ++
  pushIf (probe "text-preset-6\/|text-preset-6-|title.*6|Title6|heading.*6" code) "text6" ++
  pushIf (probe "\/regular|text.*regular|-regular" code) "regular" ++
  pushIf (probe "\/medium|text.*medium|-medium" code) "medium" ++
  pushIf (probe "\/bold|text.*bold|-bold" code) "bold" ++
  pushIf (probe "\/light|text.*light|-light" code) "light" ++
  pushIf (probe "h1|title.*1" code) "h1" ++
  pushIf (probe "h2|title.*2" code) "h2" ++
  pushIf (probe "h3|title.*3" code) "h3" ++
  pushIf (probe "subtitle|Subtitle" code) "subtitle" ++
  pushIf (probe "body|Body|paragraph|p>" code) "body".

(** *** Figma text presets *)

(** Strategy 1: explicit names, [text-preset-3/regular] or
    [text-preset-3-regular]. *)
Definition detectPresetsByName (code : string) : list FigmaTextPreset :=
  flat_map
    (fun m =>
       match Regex.group 1 m, Regex.group 3 m, Regex.group 0 m with
       | Some presetNumber, Some variant, Some originalName =>
           [mkFigmaTextPreset (String.append "text" presetNumber) variant
              originalName None 1.0]
       | _, _, _ => []
       end)
    (Regex.matchAll true "text-preset-(\d+)([\/\-])(\w+)" code).

Record PresetRange : Type := mkPresetRange {
  pr_preset : string;
  minFontSize : Z;
  maxFontSize : Z;
  pr_weights : list string;
}.

Definition textPresetMapping : list PresetRange :=
  [ mkPresetRange "text1" 28 40 ["400"; "500"; "600"; "700"];
    mkPresetRange "text2" 20 28 ["400"; "500"; "600"];
    mkPresetRange "text3" 16 20 ["400"; "500"; "600"];
    mkPresetRange "text4" 14 16 ["400"; "500"];
    mkPresetRange "text5" 12 14 ["400"; "500"];
    mkPresetRange "text6" 10 12 ["400"] ].

Definition fontSizePatterns : list string :=
  [ "font-size:\s*(\d+)px";
    "fontSize:\s*['\x22]?(\d+)px['\x22]?";
    "fontSize:\s*\{(\d+)\}";
    "fontSize=\{(\d+)\}";
    "text-(\d+)|size-(\d+)" ].

Definition fontWeightPatterns : list string :=
  [ "font-weight:\s*(\d+)";
    "fontWeight:\s*['\x22]?(\d+)['\x22]?";
    "fontWeight:\s*['\x22]?(normal|bold|medium|light)['\x22]?";
    "fontWeight=\{['\x22]?(\w+)['\x22]?\}" ].

Definition weightMap : list (string * string) :=
  [ ("300", "light"); ("400", "regular"); ("500", "medium");
    ("600", "medium"); ("700", "bold"); ("800", "bold"); ("900", "bold");
    ("normal", "regular"); ("bold", "bold"); ("medium", "medium");
    ("light", "light") ].

(** [weightMap[weight] || 'regular'] *)
Definition guessVariantFromWeight (weight : option string) : string :=
  match weight with
  | None | Some EmptyString => "regular"
  | Some weight =>
      match assoc weight weightMap with
      | Some variant => variant
      | None => if inheritedKey weight then nativeText weight else "regular"
      end
  end.

(** [parseInt] of the digits a font-size pattern captured. *)
Definition capturedSize (m : Regex.found) : option Z :=
  match firstSet (Regex.group 1 m) (Regex.group 2 m) with
  | Some digits => TypographyAnalyzer.parseInt digits
  | None => None
  end.

(** The font sizes found, in pattern order, then match order. *)
Definition detectedFontSizes (code : string) : list Z :=
  flat_map
    (fun pattern =>
       flat_map
         (fun m =>
            match capturedSize m with
            | Some fontSize => if 0 <? fontSize then [fontSize] else []
            | None => []
            end)
         (Regex.matchAll true pattern code))
    fontSizePatterns.

(** The font weights found, in pattern order, then match order. *)
Definition detectedFontWeights (code : string) : list string :=
  flat_map
    (fun pattern =>
       flat_map
         (fun m =>
            match firstSet (Regex.group 1 m) (Regex.group 2 m) with
            | Some weight => [weight]
            | None => []
            end)
         (Regex.matchAll true pattern code))
    fontWeightPatterns.

(** Every weight found is written to the last detected font, so that font
    ends with the last weight and the others have none. *)
Definition detectedFonts (code : string) : list (Z * option string) :=
  let sizes := detectedFontSizes code in
  let lastWeight := last (map Some (detectedFontWeights code)) None in
  match rev sizes with
  | [] => []
  | lastSize :: earlier =>
      map (fun fontSize => (fontSize, None)) (rev earlier)
      ++ [(lastSize, lastWeight)]
  end.

(** Strategy 2: inference from the font sizes and weights in the markup. *)
Definition detectPresetsByCSSProperties (code : string)
  : list FigmaTextPreset :=
  flat_map
    (fun font =>
       let '(fontSize, weight) := font in
       match find (fun range =>
                     (minFontSize range <=? fontSize)
                     && (fontSize <=? maxFontSize range))%bool
                  textPresetMapping with
       | Some matchingPreset =>
           [mkFigmaTextPreset (pr_preset matchingPreset)
              (guessVariantFromWeight weight)
              (String.append "Detectado por CSS: "
                 (String.append (numberToString fontSize)
                    (String.append "px"
                       match weight with
                       | Some (String _ _ as w) => String.append ", peso: " w
                       | _ => ""
                       end)))
              (Some fontSize) 0.7]
       | None => []
       end)
    (detectedFonts code).

Definition semanticRules : list (string * string * Q) :=
  [ ("<h1[\s\S]*?>|<title[\s\S]*?>|class.*title.*main", "text1", 0.6);
    ("<h2[\s\S]*?>|class.*subtitle|class.*heading-2", "text2", 0.6);
    ("<h3[\s\S]*?>|class.*heading-3|class.*section-title", "text3", 0.5);
    ("<p[\s\S]*?>|class.*body|class.*paragraph", "text4", 0.4);
    ("class.*caption|class.*small|class.*footnote", "text5", 0.4) ]%Q.

(** Strategy 3: the semantic context of the texts. *)
Definition detectPresetsBySemanticContext (code : string)
  : list FigmaTextPreset :=
  flat_map
    (fun rule =>
       let '(pattern, preset, confidence) := rule in
       if probe pattern code then
         [mkFigmaTextPreset preset "regular"
            "Detectado por contexto semântico" None confidence]
       else [])
    semanticRules.

(** The key of the consolidation map: [`${preset.preset}-${preset.variant}`]. *)
Definition presetKey (p : FigmaTextPreset) : string :=
  String.append (preset p) (String.append "-" (variant p)).

(** [a > b] on confidences. *)
Definition Qgtb (a b : Q) : bool := negb (Qle_bool a b).

(** The body of the [forEach] of [consolidatePresets]. *)
Definition consolidateStep (uniqueMap : list (string * FigmaTextPreset))
    (p : FigmaTextPreset) : list (string * FigmaTextPreset) :=
  let key := presetKey p in
  match assoc key uniqueMap with
  | None => mapSet key p uniqueMap
  | Some existing =>
      if Qgtb (confidenceScore p) (confidenceScore existing)
      then mapSet key p uniqueMap
      else uniqueMap
  end.

Definition consolidatePresets (presets : list FigmaTextPreset)
  : list FigmaTextPreset :=
  let uniqueMap := fold_left consolidateStep presets [] in
  sortDesc (fun a b => Qle_bool (confidenceScore b) (confidenceScore a))
           (map snd uniqueMap).

(** The presets of the three strategies, in the order in which they are
    pushed. *)
Definition detectedPresets (code : string) : list FigmaTextPreset :=
  detectPresetsByName code
  ++ detectPresetsByCSSProperties code
  ++ detectPresetsBySemanticContext code.

Definition extractFigmaTextPresets (code : string) : list FigmaTextPreset :=
  consolidatePresets (detectedPresets code).

Definition extractTexts (code : string) : TextElements.t :=
  let patterns :=
    [ "<Text[\s\S]*?>"; "<h[1-6][\s\S]*?>"; "<p[\s\S]*?>";
      "Title\d*|Heading|Typography";
      "text-preset-\d+\/\w+"; "text-preset-\d+-\w+" ] in
  TextElements.mk
    (existsb (fun p => probe p code) patterns)
    (countOf "Text|title|heading|h\d|p>|text-preset-\d+" code)
    (probe "bold|italic|font-size|color|weight|\/regular|\/medium|\/bold|\/light" code)
    (detectTextHierarchy code)
    (extractFigmaTextPresets code).

(** *** Containers, lists, icons, inputs, images, navigation *)

Definition detectContainerTypes (code : string) : list string :=
  pushIf (probe "Stack|stack" code) "stack" ++
  pushIf (probe "Box|box" code) "box" ++
  pushIf (probe "Grid|grid" code) "grid" ++
  pushIf (probe "Card|card" code) "card" ++
  pushIf (probe "Container|container" code) "container".

Definition extractContainers (code : string) : ContainerElements.t :=
  ContainerElements.mk
    (probe "div|View|Container|Box|Stack|Grid" code)
    (countOf "div|View|Container|Box|Stack" code)
    (probe "flex|grid|stack|column|row" code)
    (probe "padding|margin|space" code)
    (detectContainerTypes code).

Definition hasRepeatedElements (code : string) : bool :=
  existsb (fun p => probe p code)
    [ "(\w+)[\s\S]*?\1[\s\S]*?\1"; "map\s*\("; "\.map\(";
      "FlatList|ScrollView"; "forEach|for.*in|for.*of" ].

(** The length of the white space a line starts with. *)
Definition leadingSpace (line : string) : nat :=
  match Regex.exec false "^\s+" line with
  | Some m => List.length (Regex.text m)
  | None => O
  end.

Definition hasNestedStructure (code : string) : bool :=
  existsb (fun line => Nat.ltb 8 (leadingSpace line))
          (splitOn (ascii_of_nat 10) code).

Definition isListPattern (code : string) : bool :=
  probe "\.map|FlatList|ScrollView|ListView|VirtualizedList" code.

Definition analyzeListStructure (code : string) : ListStructure.t :=
  ListStructure.mk
    (probe "icon|Icon" code && isListPattern code)
    (probe "chevron|arrow|onPress" code && isListPattern code)
    (probe "subtitle|description" code)
    (hasNestedStructure code && isListPattern code).

Definition extractLists (code : string) : ListElements.t :=
  ListElements.mk
    (probe "FlatList|ScrollView|map\(|Row.*Row|Item.*Item" code)
    (countOf "Row|Item|List" code)
    (hasRepeatedElements code)
    (probe "chevron|arrow|>" code)
    (analyzeListStructure code).

Definition detectIconTypes (code : string) : list string :=
  pushIf (probe "chevron|arrow" code) "navigation" ++
  pushIf (probe "check|tick|cross|x" code) "status" ++
  pushIf (probe "star|heart|bookmark" code) "action" ++
  pushIf (probe "info|warning|error|success" code) "feedback".

Definition extractIcons (code : string) : IconElements.t :=
  IconElements.mk
    (probe "icon|Icon|Image.*?\.(svg|png)|\/>" code)
    (countOf "icon|Icon" code)
    (probe "IconButton|onPress.*icon" code)
    (detectIconTypes code).

Definition detectInputTypes (code : string) : list string :=
  pushIf (probe "email|Email" code) "email" ++
  pushIf (probe "password|Password" code) "password" ++
  pushIf (probe "number|Number|numeric" code) "number" ++
  pushIf (probe "search|Search" code) "search" ++
  pushIf (probe "date|Date|time|Time" code) "date" ++
  pushIf (probe "textarea|TextArea|multiline" code) "textarea".

Definition extractInputs (code : string) : InputElements.t :=
  InputElements.mk
    (probe "input|Input|Field|TextInput" code)
    (countOf "input|Input|Field" code)
    (detectInputTypes code)
    (probe "required|validation|error" code).

Definition extractImages (code : string) : ImageElements.t :=
  ImageElements.mk
    (probe "img|Image|picture|src=" code)
    (countOf "img|Image" code)
    (negb (probe "alt=|aria-label" code)).

Definition extractNavigation (code : string) : NavigationElements.t :=
  NavigationElements.mk
    (probe "Navigation|Header|AppBar|nav" code)
    (probe "back|arrow.*left|<" code)
    (probe "title|heading" code)
    (probe "action|menu|more" code).

(** *** Layouts, security, forms *)

Definition extractLayouts (code : string) : LayoutElements.t :=
  let hasFixedFooter :=
    probe "fixed.*footer|footer.*fixed|sticky.*bottom|position.*fixed.*bottom" code in
  let hasFixedHeader :=
    probe "fixed.*header|header.*fixed|sticky.*top|position.*fixed.*top" code in
  let hasModal := probe "modal|dialog|overlay|popup|sheet|bottomsheet" code in
  let containsButtonInFooter :=
    (hasFixedFooter && probe "footer.*button|button.*footer" code)%bool in
  let layoutType :=
    if (hasFixedFooter && containsButtonInFooter)%bool
    then "fixed-footer-with-button"
    else if hasFixedFooter then "fixed-footer"
    else if hasFixedHeader then "fixed-header"
    else if hasModal then "modal"
    else "standard" in
  LayoutElements.mk
    (hasFixedFooter || hasFixedHeader || hasModal)
    hasFixedFooter hasFixedHeader hasModal layoutType containsButtonInFooter.

Definition extractSecurity (code : string) : SecurityElements.t :=
  let hasPinField := probe "pinfield|pin.*field|pin.*input|code.*input" code in
  let hasCodeInput := probe "code.*input|verification.*code|otp|pin" code in
  let hasOTPInput := probe "otp|one.*time.*password|verification.*code" code in
  let securityLevel :=
    if hasOTPInput then "high"
    else if (hasPinField || hasCodeInput)%bool then "medium"
    else "none" in
  SecurityElements.mk
    (hasPinField || hasCodeInput || hasOTPInput)
    hasPinField hasCodeInput hasOTPInput securityLevel.

Definition extractForms (code : string) : FormElements.t :=
  let hasValidation := probe "validation|error|validate|required|pattern" code in
  let hasSubmitButton := probe "submit|send|save|continue|next|confirm" code in
  let fieldTypes :=
    pushIf (probe "text.*input|textfield" code) "text" ++
    pushIf (probe "email.*input|email.*field" code) "email" ++
    pushIf (probe "password.*input|password.*field" code) "password" ++
    pushIf (probe "number.*input|numeric.*field" code) "number" ++
    pushIf (probe "phone.*input|phone.*field" code) "phone" ++
    pushIf (probe "pin.*input|pin.*field|code.*input" code) "pin" in
  let structure :=
    if Nat.ltb 3 (List.length fieldTypes) then "complex"
    else if Nat.ltb 1 (List.length fieldTypes) then "multi-field"
    else "simple" in
  FormElements.mk
    (Nat.ltb 0 (List.length fieldTypes) || hasSubmitButton)
    hasValidation fieldTypes hasSubmitButton structure.

(** *** Spacing *)

Definition units : string :=
  "(px|rem|em|%|pt|pc|in|cm|mm|ex|ch|vw|vh|vmin|vmax)".

Definition spacingPatterns : list string :=
  [ String.append "padding[:\s]*[\w-]*\s*[:\s]*\s*(['\x22`]?)(\d+(?:\.\d+)?)"
      (String.append units "\1");
    String.append "margin[:\s]*[\w-]*\s*[:\s]*\s*(['\x22`]?)(\d+(?:\.\d+)?)"
      (String.append units "\1");
    String.append "gap[:\s]*\s*(['\x22`]?)(\d+(?:\.\d+)?)"
      (String.append units "\1");
    String.append "space[:\s]*\s*(['\x22`]?)(\d+(?:\.\d+)?)"
      (String.append units "\1");
    "\b(\d+)(px|rem|em|%)\b" ].

Definition semanticPatterns : list string :=
  [ "space[-_]?(xs|sm|md|lg|xl|2xl|3xl)";
    "padding[-_]?(small|medium|large|extra)";
    "margin[-_]?(small|medium|large|extra)";
    "gap[-_]?(tight|normal|loose)" ].

(** The [(value, unit)] pairs the spacing patterns yield: groups 2 and 3 of
    every match, when both are set and not empty. *)
Definition spacingMatches (code : string) : list (string * string) :=
  flat_map
    (fun pattern =>
       flat_map
         (fun m =>
            match Regex.group 2 m, Regex.group 3 m with
            | Some (String _ _ as value), Some (String _ _ as unit) =>
                [(value, unit)]
            | _, _ => []
            end)
         (Regex.matchAll true pattern code))
    spacingPatterns.

Definition commonDesignSystemValues : list string :=
  ["8px"; "16px"; "24px"; "32px"; "4px"; "12px"; "20px"; "40px"].

Definition extractSpacing (code : string) : SpacingElements.t :=
  let spacingTypes :=
    pushIf (probe "padding" code) "padding" ++
    pushIf (probe "margin" code) "margin" ++
    pushIf (probe "gap" code) "gap" ++
    pushIf (probe "space" code) "space" in
  let found := spacingMatches code in
  let spacingValues :=
    map (fun vu => String.append (fst vu) (snd vu)) found in
  let detectedUnits := uniq (map snd found) in
  let hasExplicitSpacing :=
    (match spacingTypes with [] => false | _ => true end
     || match found with [] => false | _ => true end)%bool in
  let semanticSpacing :=
    uniq (flat_map
            (fun pattern =>
               flat_map
                 (fun m =>
                    match Regex.group 1 m with
                    | Some (String _ _ as semantic) => [semantic]
                    | _ => []
                    end)
                 (Regex.matchAll true pattern code))
            semanticPatterns) in
  let uniqueValues := uniq spacingValues in
  let spacingPatterns_result :=
    (if Nat.eqb (List.length uniqueValues) 1 then ["consistent"]
     else if Nat.leb (List.length uniqueValues) 3 then ["design-system"]
     else ["mixed"]) ++
    pushIf (existsb (fun value => mem value commonDesignSystemValues)
                    spacingValues)
           "design-system-aligned" in
  SpacingElements.mk
    hasExplicitSpacing hasExplicitSpacing
    (uniq spacingTypes) (uniq spacingValues) spacingPatterns_result
    (uniq detectedUnits) (uniq semanticSpacing).

(** *** Figma component names and feedback screens *)

Definition componentNamePatterns : list string :=
  [ "data-name=[\x22']([^\x22']+)[\x22']";
    "className=[\x22']([^\x22']*(?:Screen|Feedback|Button|Card|Modal)[^\x22']*)[\x22']";
    "id=[\x22']([^\x22']*(?:Screen|Feedback|Button|Card|Modal)[^\x22']*)[\x22']";
    "\/\*\s*([^*]*(?:Screen|Feedback|Button|Card|Modal)[^*]*)\s*\*\/";
    "\b([A-Z][a-z]*(?:Screen|Feedback|Button|Card|Modal)[A-Z]?[a-z]*)\b" ].

Definition extractFigmaComponentNames (code : string) : list string :=
  uniq
    (flat_map
       (fun pattern =>
          flat_map
            (fun m =>
               match Regex.group 1 m with
               | Some name =>
                   let name := trim name in
                   if Nat.ltb 2 (String.length name) then [name] else []
               | None => []
               end)
            (Regex.matchAll true pattern code))
       componentNamePatterns).

Definition normalizeComponentName (name : string) : string :=
  let name := Regex.replaceAll false "[\s-_]+" (fun _ => "") name in
  let name :=
    Regex.replaceAll false "([a-z])([A-Z])"
      (fun m =>
         match Regex.group 1 m, Regex.group 2 m with
         | Some a, Some b => String.append a b
         | _, _ => ""
         end)
      name in
  Regex.replaceFirst false "^."
    (fun m =>
       match Regex.group 0 m with
       | Some str => toUpperCase str
       | None => ""
       end)
    name.

Definition upperGroup1 (m : Regex.found) : string :=
  match Regex.group 1 m with
  | Some char => toUpperCase char
  | None => ""
  end.

Definition generateNameVariations (originalName : string) : list string :=
  let noSpaces := Regex.replaceAll false "\s+" (fun _ => "") originalName in
  let camelCase := Regex.replaceAll false "\s+(.)" upperGroup1 originalName in
  let pascalCase :=
    Regex.replaceAll false "\s+" (fun _ => "")
      (Regex.replaceAll false "(?:^|\s+)(.)" upperGroup1 originalName) in
  let kebabCase :=
    Regex.replaceAll false "\s+" (fun _ => "-") (toLowerCase originalName) in
  let snakeCase :=
    Regex.replaceAll false "\s+" (fun _ => "_") (toLowerCase originalName) in
  let differing (v : string) :=
    if String.eqb v originalName then [] else [v] in
  uniq ([originalName] ++ differing noSpaces ++ differing camelCase
        ++ differing pascalCase ++ differing kebabCase ++ differing snakeCase).

Definition typePatterns : list (string * string * Q) :=
  [ ("feedback.*screen|screen.*feedback|error.*screen|success.*screen",
     "feedback", 0.9);
    ("button|btn", "button", 0.8);
    ("card", "card", 0.7);
    ("modal|dialog", "modal", 0.8);
    ("text|title|heading", "text", 0.6);
    ("navigation|nav|header", "navigation", 0.7);
    ("input|field|form", "input", 0.7) ]%Q.

Definition analyzeFigmaComponentName (originalName : string)
  : option DetectedFigmaComponent :=
  let normalizedName := normalizeComponentName originalName in
  let variations := generateNameVariations originalName in
  let '(componentType, confidenceScore) :=
    match find (fun typePattern => probe (fst (fst typePattern)) originalName)
               typePatterns with
    | Some (_, type, confidence) => (type, confidence)
    | None => ("unknown", 0.3%Q)
    end in
  if (String.eqb componentType "unknown"
      && Nat.ltb (String.length originalName) 3)%bool
  then None
  else Some (mkDetectedFigmaComponent originalName normalizedName
               componentType confidenceScore variations).

Definition extractFigmaComponents (code : string) : FigmaComponentElements.t :=
  let detectedComponents :=
    flat_map
      (fun originalName =>
         match analyzeFigmaComponentName originalName with
         | Some analysis => [analysis]
         | None => []
         end)
      (extractFigmaComponentNames code) in
  FigmaComponentElements.mk
    (match detectedComponents with [] => false | _ => true end)
    detectedComponents.

Definition extractFeedback (code : string) : FeedbackElements.t :=
  let feedbackPatterns :=
    [ "error.*feedback.*screen|feedback.*error.*screen|error.*screen";
      "success.*feedback.*screen|feedback.*success.*screen|success.*screen";
      "info.*feedback.*screen|feedback.*info.*screen|info.*screen";
      "warning.*feedback.*screen|feedback.*warning.*screen|warning.*screen";
      "feedback.*screen|screen.*feedback" ] in
  let figmaNames := extractFigmaComponentNames code in
  let feedbackNames :=
    filter (fun name => probe "feedback|screen|error|success|info|warning" name)
           figmaNames in
  let detectedNames := feedbackNames in
  let feedbackType :=
    if probe "error" code then "error"
    else if probe "success" code then "success"
    else if probe "info" code then "info"
    else if probe "warning" code then "warning"
    else "generic" in
  let found :=
    (existsb (fun pattern => probe pattern code) feedbackPatterns
     || match feedbackNames with [] => false | _ => true end)%bool in
  FeedbackElements.mk
    found feedbackType
    (probe "screen" code)
    (probe "icon|image.*error|image.*success|image.*info|image.*warning" code)
    (probe "button|action|retry|close|dismiss|ok" code)
    detectedNames.

Definition extractUIElements (code : string) : UIElements :=
  mkUIElements
    (extractButtons code)
    (extractTexts code)
    (extractContainers code)
    (extractLists code)
    (extractIcons code)
    (extractInputs code)
    (extractImages code)
    (extractNavigation code)
    (extractLayouts code)
    (extractSecurity code)
    (extractForms code)
    (extractSpacing code)
    (extractFeedback code)
    (extractFigmaComponents code).

End ElementExtractor.

(** ** Colour analyser (analyzers/SkinVarsAnalyzer.ts) *)

Module SkinVarsAnalyzer.

Import Str.

Definition SKIN_VARS_MAPPING : list (string * list (string * list string)) :=
  [ ("text",
     [ ("primary", ["#000000"; "#1a1a1a"; "#333333"; "#0b2739"; "rgb(0,0,0)"; "black"]);
       ("secondary", ["#666666"; "#777777"; "#999999"; "#6b6c6f"; "rgb(102,102,102)"]);
       ("tertiary", ["#999999"; "#aaaaaa"; "#bbbbbb"; "rgb(153,153,153)"]);
       ("inverse", ["#ffffff"; "#fff"; "white"; "rgb(255,255,255)"]);
       ("brand", ["#0066cc"; "#007acc"; "#0080ff"; "rgb(0,102,204)"]);
       ("success", ["#00aa44"; "#00cc55"; "#22cc66"; "rgb(0,170,68)"]);
       ("warning", ["#ff9900"; "#ffaa00"; "#ffbb33"; "rgb(255,153,0)"]);
       ("error", ["#cc0000"; "#dd1122"; "#ff3344"; "rgb(204,0,0)"]) ]);
    ("background",
     [ ("canvas", ["#ffffff"; "#fff"; "white"; "rgb(255,255,255)"]);
       ("canvasAlternative", ["#f5f5f5"; "#f0f0f0"; "#eeeeee"; "rgb(245,245,245)"]);
       ("container", ["#ffffff"; "#fff"; "white"; "rgb(255,255,255)"]);
       ("containerAlternative", ["#fafafa"; "#f8f8f8"; "rgb(250,250,250)"]);
       ("brand", ["#0066cc"; "#007acc"; "rgb(0,102,204)"]);
       ("brandSecondary", ["#e6f2ff"; "#f0f8ff"; "rgb(230,242,255)"]) ]);
    ("border",
     [ ("primary", ["#dddddd"; "#d0d0d0"; "#cccccc"; "rgb(221,221,221)"]);
       ("secondary", ["#eeeeee"; "#e8e8e8"; "rgb(238,238,238)"]);
       ("brand", ["#0066cc"; "#007acc"; "rgb(0,102,204)"]);
       ("selected", ["#0066cc"; "#007acc"; "rgb(0,102,204)"]) ]);
    ("control",
     [ ("activatedBackground", ["#0066cc"; "#007acc"; "rgb(0,102,204)"]);
       ("deactivatedBackground", ["#f5f5f5"; "#f0f0f0"; "rgb(245,245,245)"]);
       ("activatedText", ["#ffffff"; "#fff"; "white"; "rgb(255,255,255)"]);
       ("deactivatedText", ["#999999"; "#aaaaaa"; "rgb(153,153,153)"]) ]) ].

(** One colour of the table, with the category and sub-role it stands
    under. *)
Record TableEntry : Type := mkTableEntry {
  te_category : string;
  te_subcat : string;
  skinColor : string;
}.

(** The colours of the table in the order the three nested [forEach] visit
    them. *)
Definition tableEntries : list TableEntry :=
  flat_map
    (fun categoryEntry =>
       flat_map
         (fun subEntry =>
            map (mkTableEntry (fst categoryEntry) (fst subEntry)) (snd subEntry))
         (snd categoryEntry))
    SKIN_VARS_MAPPING.

Definition hexDigit (d : Z) : ascii :=
  ascii_of_nat (Z.to_nat (if d <? 10 then 48 + d else 87 + d)).

Fixpoint toHexFrom (fuel : nat) (n : Z) (acc : string) : string :=
  match fuel with
  | O => acc
  | S fuel' =>
      let acc := String (hexDigit (n mod 16)) acc in
      if n <? 16 then acc else toHexFrom fuel' (n / 16) acc
  end.

(** [n.toString(16)] for a non-negative integer. *)
Definition toHex (n : Z) : string :=
  toHexFrom (S (Z.to_nat (Z.log2 n))) n EmptyString.

(** [s.padStart(2, '0')] *)
Definition padStart2 (s : string) : string :=
  match s with
  | EmptyString => "00"
  | String c EmptyString => String "0" s
  | _ => s
  end.

Definition hexComponent (digits : option string) : string :=
  match digits with
  | Some digits =>
      match TypographyAnalyzer.parseInt digits with
      | Some n => padStart2 (toHex n)
      | None => "NaN"
      end
  | None => "NaN"
  end.

Definition normalizeColor (color : string) : string :=
  let color := toLowerCase (trim color) in
  match Regex.exec false "rgb\((\d+),\s*(\d+),\s*(\d+)\)" color with
  | Some rgbMatch =>
      String.append "#"
        (String.append (hexComponent (Regex.group 1 rgbMatch))
           (String.append (hexComponent (Regex.group 2 rgbMatch))
              (hexComponent (Regex.group 3 rgbMatch))))
  | None =>
      match color with
      | String "#" (String c1 (String c2 (String c3 EmptyString))) =>
          String "#" (String c1 (String c1 (String c2 (String c2
            (String c3 (String c3 EmptyString))))))
      | _ => color
      end
  end.

Definition isValidColor (color : string) : bool :=
  Regex.test false "^(#[0-9a-f]{3,8}|rgb|rgba|hsl|hsla|[a-z]+)"
    (toLowerCase color).

Definition colorsMatch (color1 color2 : string) : bool :=
  String.eqb color1 color2.

Definition determineColorContext (property element : string) : string :=
  if includes property "background" then "background"
  else if includes property "border" then "border"
  else if String.eqb property "color" then "text"
  else if includes (toLowerCase element) "button" then "control"
  else if (includes (toLowerCase element) "text"
           || includes (toLowerCase element) "span")%bool then "text"
  else if (includes (toLowerCase element) "div"
           || includes (toLowerCase element) "container")%bool then "background"
  else "text".

Definition calculateColorConfidence (actualColor skinColor context category : string)
  : float :=
  let confidence := 0.7%float in
  let confidence :=
    if String.eqb context category then (confidence + 0.2)%float
    else confidence in
  let confidence :=
    if String.eqb actualColor skinColor then (confidence + 0.1)%float
    else confidence in
  Num.Math_min confidence 1.0%float.

Record SkinVarMatch : Type := mkSkinVarMatch {
  varName : string;
  sv_category : string;
  sv_confidence : float;
}.

(** The body of the innermost [forEach] of [findBestSkinVarMatch], on the
    pair [(bestMatch, highestConfidence)]. *)
Definition matchStep (normalizedColor context : string)
    (state : option SkinVarMatch * float) (entry : TableEntry)
  : option SkinVarMatch * float :=
  let normalizedSkinColor := normalizeColor (skinColor entry) in
  if colorsMatch normalizedColor normalizedSkinColor then
    let confidence :=
      calculateColorConfidence normalizedColor normalizedSkinColor context
        (te_category entry) in
    if PrimFloat.ltb (snd state) confidence then
      (Some (mkSkinVarMatch
               (String.append "skinVars.colors." (te_subcat entry))
               (te_category entry) confidence),
       confidence)
    else state
  else state.

Definition findBestSkinVarMatch (color property element : string)
  : option SkinVarMatch :=
  let normalizedColor := normalizeColor color in
  let context := determineColorContext property element in
  fst (fold_left (matchStep normalizedColor context) tableEntries
         (None, 0%float)).

(** *** Extraction of the colour literals *)

Record ColorProperty : Type := mkColorProperty {
  property : string;
  value : string;
}.

Definition colorRegexes : list (string * string) :=
  [ ("color", "color:\s*([^;]+)");
    ("background-color", "background-color:\s*([^;]+)");
    ("border-color", "border-color:\s*([^;]+)");
    ("background", "background:\s*([^;]+)");
    ("border", "border:\s*[^;]*?([#\w\(\),\s]+)[^;]*?") ].

Definition extractColorProperties (cssText : string) : list ColorProperty :=
  flat_map
    (fun entry =>
       flat_map
         (fun m =>
            match Regex.group 1 m with
            | Some captured =>
                let value := normalizeColor (trim captured) in
                if isValidColor value
                then [mkColorProperty (fst entry) value] else []
            | None => []
            end)
         (Regex.matchAll true (snd entry) cssText))
    colorRegexes.

Definition tailwindColorMap : list (string * ColorProperty) :=
  [ ("text-black", mkColorProperty "color" "#000000");
    ("text-white", mkColorProperty "color" "#ffffff");
    ("text-gray-900", mkColorProperty "color" "#111827");
    ("text-gray-800", mkColorProperty "color" "#1f2937");
    ("text-gray-700", mkColorProperty "color" "#374151");
    ("text-gray-600", mkColorProperty "color" "#4b5563");
    ("text-gray-500", mkColorProperty "color" "#6b7280");
    ("text-gray-400", mkColorProperty "color" "#9ca3af");
    ("text-blue-600", mkColorProperty "color" "#2563eb");
    ("text-blue-500", mkColorProperty "color" "#3b82f6");
    ("bg-white", mkColorProperty "background-color" "#ffffff");
    ("bg-gray-50", mkColorProperty "background-color" "#f9fafb");
    ("bg-gray-100", mkColorProperty "background-color" "#f3f4f6");
    ("bg-blue-500", mkColorProperty "background-color" "#3b82f6") ].

Definition bracketedColor (prefix property elementHtml : string)
  : list ColorProperty :=
  match Regex.exec false
          (String.append prefix "-\[(#[0-9a-fA-F]{6}|#[0-9a-fA-F]{3})\]")
          elementHtml with
  | Some m =>
      match Regex.group 1 m with
      | Some literal => [mkColorProperty property literal]
      | None => []
      end
  | None => []
  end.

Definition extractTailwindColors (elementHtml : string) : list ColorProperty :=
  bracketedColor "text" "color" elementHtml
  ++ bracketedColor "bg" "background-color" elementHtml
  ++ bracketedColor "border" "border-color" elementHtml
  ++ flat_map (fun entry =>
                 if includes elementHtml (fst entry) then [snd entry] else [])
              tailwindColorMap.

Record ColorMapping : Type := mkColorMapping {
  figmaColor : string;
  skinVar : string;
  cm_category : string;
  cm_confidence : float;
}.

(** [elementHtml] is optional: [None] or the empty string adds nothing. *)
Definition analyzeSkinVarsUsage (cssText element : string)
    (elementHtml : option string) : list ColorMapping :=
  let colorProperties :=
    extractColorProperties cssText ++
    match elementHtml with
    | Some (String _ _ as html) => extractTailwindColors html
    | _ => []
    end in
  flat_map
    (fun cp =>
       match findBestSkinVarMatch (value cp) (property cp) element with
       | Some skinVar =>
           [mkColorMapping (value cp) (varName skinVar)
              (sv_category skinVar) (sv_confidence skinVar)]
       | None => []
       end)
    colorProperties.

(** The entries of the table that match a literal after normalization. *)
Definition candidates (color : string) : list TableEntry :=
  filter (fun entry =>
            colorsMatch (normalizeColor color) (normalizeColor (skinColor entry)))
         tableEntries.

Definition matchOf (entry : TableEntry) (confidence : float) : SkinVarMatch :=
  mkSkinVarMatch (String.append "skinVars.colors." (te_subcat entry))
    (te_category entry) confidence.

(** The confidence as the specification words it: the third bonus is for a
    literal identical to the table entry before normalization. *)
Definition spec_colorConfidence (literal : string) (entry : TableEntry)
    (context : string) : float :=
  let confidence := 0.7%float in
  let confidence :=
    if String.eqb context (te_category entry) then (confidence + 0.2)%float
    else confidence in
  let confidence :=
    if String.eqb literal (skinColor entry) then (confidence + 0.1)%float
    else confidence in
  Num.Math_min confidence 1.0%float.

End SkinVarsAnalyzer.

(** ** Pattern detector (analyzers/PatternDetector.ts) *)

Module PatternDetector.

Import Str.

Definition probe (source code : string) : bool := Regex.test true source code.

(** [hasRepeatedElements] and [hasNestedStructure] are the private helpers
    of the same text as in the element extractor. *)
Definition hasRepeatedElements : string -> bool :=
  ElementExtractor.hasRepeatedElements.

Definition hasNestedStructure : string -> bool :=
  ElementExtractor.hasNestedStructure.

Definition isListPattern (code : string) : bool :=
  (hasRepeatedElements code && probe "Row|Item|List" code)%bool.

Definition isCardPattern (code : string) : bool :=
  (probe "Card|card|container.*shadow|elevation" code
   || (hasNestedStructure code && probe "padding|border" code))%bool.

Definition isFormPattern (code : string) : bool :=
  let inputCount := Regex.count true "input|field|textfield" code in
  ((1 <? inputCount) || probe "form|Form|submit" code)%bool.

Definition isNavigationPattern (code : string) : bool :=
  probe "Navigation|Header|AppBar|nav.*bar" code.

Definition isModalPattern (code : string) : bool :=
  probe "Modal|modal|Dialog|dialog|Sheet|sheet|Drawer|drawer|overlay" code.

Definition isTablePattern (code : string) : bool :=
  (probe "table|Table|thead|tbody|tr|td|th" code
   || (hasRepeatedElements code && probe "column|header" code))%bool.

Definition isHeaderPattern (code : string) : bool :=
  probe "header|Header|AppBar|Navigation.*title" code.

Definition isFooterPattern (code : string) : bool :=
  probe "footer|Footer|bottom.*bar|tab.*bar" code.

Definition detectVisualPatterns (code : string) : UIPatterns :=
  mkUIPatterns
    (isListPattern code) (isCardPattern code) (isFormPattern code)
    (isNavigationPattern code) (isModalPattern code) (isTablePattern code)
    (isHeaderPattern code) (isFooterPattern code).

Definition detectLayoutType (code : string) : string :=
  if probe "flex.*column|flex-col|Stack.*vertical" code then "vertical"
  else if probe "flex.*row|flex-row|horizontal" code then "horizontal"
  else if probe "grid|Grid" code then "grid"
  else if probe "absolute|fixed|relative" code then "positioned"
  else "flow".

(** Some opening tag name occurs more than twice. *)
Definition findRepetitivePatterns (code : string) : bool :=
  let elementTypes :=
    map (fun m => string_of_list_ascii (Regex.text m))
        (Regex.matchAll false "<\w+" code) in
  existsb (fun type =>
             Nat.ltb 2 (List.length (filter (String.eqb type) elementTypes)))
          elementTypes.

Definition findInteractiveElements (code : string) : list string :=
  ElementExtractor.pushIf (probe "onPress|onClick|press|tap" code) "buttons" ++
  ElementExtractor.pushIf (probe "scroll|swipe" code) "scrollable" ++
  ElementExtractor.pushIf (probe "input|field" code) "forms" ++
  ElementExtractor.pushIf (probe "modal|sheet|drawer" code) "overlays".

Definition analyzeSpacing (code : string) : string :=
  if probe "gap|space.*\d+|margin.*\d+|padding.*\d+" code then "explicit"
  else if probe "flex.*gap|grid.*gap" code then "flexible"
  else "implicit".

Definition analyzeAlignment (code : string) : string :=
  if probe "center|justify-center|align-center" code then "center"
  else if probe "start|left|justify-start" code then "start"
  else if probe "end|right|justify-end" code then "end"
  else if probe "between|around|evenly" code then "distributed"
  else "default".

Definition analyzeStructure (code : string) : StructuralAnalysis :=
  mkStructuralAnalysis
    (hasNestedStructure code)
    (detectLayoutType code)
    (findRepetitivePatterns code)
    (findInteractiveElements code)
    (analyzeSpacing code)
    (analyzeAlignment code).

End PatternDetector.

(** ** From markup to suggestions

    The steps of the mapping tool: the markup is analysed, then the
    elements, structure and patterns found are mapped against the
    catalog. *)
Definition suggestionsForMarkup (toLowerCase : string -> string)
    (figmaCode : string) (allComponents : ComponentMapper.Catalog)
  : result (list ComponentMapper.ComponentSuggestion) :=
  ComponentMapper.findMisticaEquivalents toLowerCase
    (ElementExtractor.extractUIElements figmaCode)
    (PatternDetector.analyzeStructure figmaCode)
    (PatternDetector.detectVisualPatterns figmaCode)
    allComponents.

(** * Properties *)

(** ** The stable sort *)

Section StableSortFacts.

Context {A : Type}.
Variable geb : A -> A -> bool.

Lemma insertDesc_perm x l : Permutation (x :: l) (insertDesc geb x l).
Proof.
  induction l as [|y l IH]; simpl; [reflexivity|].
  destruct (geb x y); [reflexivity|].
  rewrite perm_swap. now constructor.
Qed.

Lemma sortDesc_perm l : Permutation l (sortDesc geb l).
Proof.
  induction l as [|x l IH]; simpl; [constructor|].
  rewrite <- insertDesc_perm. now constructor.
Qed.

Lemma sortDesc_length l : List.length (sortDesc geb l) = List.length l.
Proof. symmetry. apply Permutation_length, sortDesc_perm. Qed.

Lemma sortDesc_In x l : In x (sortDesc geb l) <-> In x l.
Proof.
  split; intro H.
  - eapply Permutation_in; [symmetry; apply sortDesc_perm | exact H].
  - eapply Permutation_in; [apply sortDesc_perm | exact H].
Qed.

End StableSortFacts.

Section SortByKeyFacts.

Context {A : Type}.
Variable key : A -> Z.

Lemma insertDesc_descending x l :
  descending key l ->
  descending key (insertDesc (fun x y => key y <=? key x) x l).
Proof.
  unfold descending. induction l as [|y l IH]; intro Hs; simpl.
  - constructor; constructor.
  - destruct (Z.leb_spec (key y) (key x)) as [Hle|Hlt].
    + constructor; [exact Hs|].
      inversion Hs as [|? ? Hl Hy]; subst.
      constructor; [exact Hle|].
      eapply Forall_impl; [|exact Hy]. simpl. intros z Hz. lia.
    + inversion Hs as [|? ? Hl Hy]; subst.
      constructor; [now apply IH|].
      rewrite Forall_forall. intros z Hz.
      apply (Permutation_in _ (Permutation_sym (insertDesc_perm _ x l))) in Hz.
      destruct Hz as [<-|Hz]; [lia|].
      rewrite Forall_forall in Hy. now apply Hy.
Qed.

Lemma sortByKeyDesc_descending l : descending key (sortByKeyDesc key l).
Proof.
  unfold sortByKeyDesc, sortDesc.
  induction l as [|x l IH]; simpl; [constructor|].
  now apply insertDesc_descending.
Qed.

(** A descending list splits around any of its elements into a part with
    keys at least as large and a part with keys at most as large. *)
Lemma descending_split l x :
  descending key l -> In x l ->
  exists l1 l2, l = l1 ++ x :: l2 /\
    Forall (fun y => key x <= key y) l1 /\
    Forall (fun y => key y <= key x) l2.
Proof.
  unfold descending. induction l as [|y l IH]; intros Hs Hin; [easy|].
  inversion Hs as [|? ? Hl Hy]; subst.
  destruct Hin as [->|Hin].
  - exists [], l. repeat split; [constructor|exact Hy].
  - destruct (IH Hl Hin) as (l1 & l2 & -> & H1 & H2).
    exists (y :: l1), l2. repeat split; [|exact H2].
    constructor; [|exact H1].
    rewrite Forall_forall in Hy. apply Hy, in_or_app. right. now left.
Qed.

Lemma descending_firstn n l : descending key l -> descending key (firstn n l).
Proof.
  unfold descending. revert n. induction l as [|y l IH]; intros n Hs.
  - now rewrite firstn_nil.
  - destruct n as [|n]; simpl; [constructor|].
    inversion Hs as [|? ? Hl Hy]; subst.
    constructor; [now apply IH|].
    rewrite Forall_forall in *. intros z Hz. apply Hy.
    revert Hz. clear. revert n. induction l as [|a l IHl]; intros n Hz.
    + now rewrite firstn_nil in Hz.
    + destruct n; simpl in Hz; [easy|].
      destruct Hz as [->|Hz]; [now left|right; eapply IHl; eauto].
Qed.

(** The sort is stable: the elements of one key keep their order. *)
Lemma insertDesc_filter k x l :
  filter (fun y => key y =? k) (insertDesc (fun x y => key y <=? key x) x l)
  = if key x =? k then x :: filter (fun y => key y =? k) l
    else filter (fun y => key y =? k) l.
Proof.
  induction l as [|y l IH]; simpl.
  - now destruct (key x =? k).
  - destruct (Z.leb_spec (key y) (key x)) as [Hle|Hlt]; simpl.
    + now destruct (key x =? k).
    + rewrite IH. destruct (Z.eqb_spec (key x) k) as [Hx|Hx];
        [|reflexivity].
      destruct (Z.eqb_spec (key y) k) as [Hy|Hy]; [lia|reflexivity].
Qed.

Lemma sortByKeyDesc_stable k l :
  filter (fun y => key y =? k) (sortByKeyDesc key l)
  = filter (fun y => key y =? k) l.
Proof.
  unfold sortByKeyDesc, sortDesc.
  induction l as [|x l IH]; simpl; [reflexivity|].
  rewrite insertDesc_filter, IH. reflexivity.
Qed.

End SortByKeyFacts.

(** ** Facts about the string primitives and about [mapM] *)

Lemma startsWith_refl s : Str.startsWith s s = true.
Proof.
  induction s as [|c s IH]; simpl; [reflexivity|].
  now rewrite Ascii.eqb_refl, IH.
Qed.

Lemma includes_refl s : Str.includes s s = true.
Proof. destruct s; simpl; [reflexivity|]. now rewrite Ascii.eqb_refl, startsWith_refl. Qed.

Lemma startsWith_includes s t :
  Str.startsWith s t = true -> Str.includes s t = true.
Proof. intro H. destruct s; simpl in *; now rewrite H. Qed.

Lemma endsWith_includes s t :
  Str.endsWith s t = true -> Str.includes s t = true.
Proof.
  induction s as [|c s IH]; intro H.
  - cbn [Str.endsWith] in H. rewrite orb_false_r in H.
    apply String.eqb_eq in H as <-. reflexivity.
  - cbn [Str.endsWith] in H. apply orb_true_iff in H as [H|H].
    + apply String.eqb_eq in H as <-. apply includes_refl.
    + cbn [Str.includes]. rewrite (IH H). apply orb_true_r.
Qed.

Lemma mapM_In {A B : Type} (f : A -> result B) l l' x :
  mapM f l = Ok l' -> In x l -> exists y, f x = Ok y /\ In y l'.
Proof.
  revert l'. induction l as [|a l IH]; intros l' Hm Hin; [easy|].
  simpl in Hm. destruct (f a) as [b|e] eqn:Hfa; simpl in Hm; [|discriminate].
  destruct (mapM f l) as [bs|e] eqn:Hl; simpl in Hm; [|discriminate].
  injection Hm as <-. destruct Hin as [->|Hin].
  - exists b. split; [exact Hfa|now left].
  - destruct (IH bs eq_refl Hin) as (y & Hy & Hiny).
    exists y. split; [exact Hy|now right].
Qed.

Lemma mapM_total {A B : Type} (f : A -> result B) l :
  (forall x, In x l -> exists y, f x = Ok y) -> exists l', mapM f l = Ok l'.
Proof.
  induction l as [|a l IH]; intro H; simpl; [now exists []|].
  destruct (H a (or_introl eq_refl)) as (b & ->).
  destruct IH as (bs & ->); [intros x Hx; apply H; now right|].
  simpl. now exists (b :: bs).
Qed.

(** A case mapping that agrees with [Str.toLowerCase] on ASCII text is, as a
    function, that mapping on ASCII text and itself elsewhere; computing
    with it on ASCII text never consults it. *)
Lemma agreesOnAscii_restrict toLowerCase :
  agreesOnAscii toLowerCase ->
  toLowerCase
  = fun s => if Str.isAscii s then Str.toLowerCase s else toLowerCase s.
Proof.
  intro H. apply functional_extensionality. intro s.
  destruct (Str.isAscii s) eqn:E; [now apply H|reflexivity].
Qed.


(** ** Properties of the search engine *)

Module SearchProps.

Import Str SearchEngine.

Lemma expansionLoop_total name description searchTerms :
  forallb (fun term => negb (inheritedKey term)) searchTerms = true ->
  forall score, exists score',
    expansionLoop name description searchTerms score = Ok score'.
Proof.
  induction searchTerms as [|term rest IH]; intros Hk score; simpl.
  - now exists score.
  - simpl in Hk. apply andb_true_iff in Hk as [Hterm Hrest].
    unfold mappedTermsOf.
    destruct (assoc term getExpandedTermMappings) as [mapped|]; simpl.
    + apply IH, Hrest.
    + apply negb_true_iff in Hterm. rewrite Hterm. simpl. apply IH, Hrest.
Qed.

Section CaseMapping.

Variable toLowerCase : string -> string.

Lemma calculateRelevanceScore_total component originalQuery searchTerms kws :
  forallb (fun term => negb (inheritedKey term)) searchTerms = true ->
  exists score,
    calculateRelevanceScore toLowerCase component originalQuery searchTerms kws
    = Ok score.
Proof.
  intro Hk. unfold calculateRelevanceScore.
  destruct (String.eqb _ originalQuery); [now exists 100|].
  destruct (expansionLoop_total (toLowerCase (name component))
              (toLowerCase (description component)) searchTerms Hk
              (fold_left (fun score term =>
                            score + nameMatchBonus (toLowerCase (name component)) term)
                         searchTerms 0)) as (score' & ->).
  simpl. eexists. reflexivity.
Qed.

Lemma calculateRelevanceScore_exact component originalQuery searchTerms kws :
  toLowerCase (name component) = originalQuery ->
  calculateRelevanceScore toLowerCase component originalQuery searchTerms kws
  = Ok 100.
Proof.
  intro H. unfold calculateRelevanceScore. now rewrite H, String.eqb_refl.
Qed.

(** The reading of the specification: the exact match scores 100 and heads
    the returned list. *)
Definition exactMatchRanksFirst : Prop :=
  forall (components : list MisticaComponent) (query : string)
         (c : MisticaComponent),
    In c components ->
    toLowerCase (name c) = trim (toLowerCase query) ->
    let q := trim (toLowerCase query) in
    calculateRelevanceScore toLowerCase c q (extractSearchTerms q)
      (extractContextualKeywords q) = Ok 100 /\
    exists rest,
      smartSearchComponents toLowerCase components query = Ok (c :: rest).

End CaseMapping.

Definition Button : MisticaComponent :=
  mkComponent "Button" "components" "Generic button".

Definition ButtonPrimary : MisticaComponent :=
  mkComponent "ButtonPrimary" "components" "Main button".

Example ButtonPrimary_scores_130 :
  scoredComponents Str.toLowerCase [Button; ButtonPrimary] "button"
  = Ok [(ButtonPrimary, 130); (Button, 100)].
Proof. vm_compute. reflexivity. Qed.

(** C1, as stated, fails, whatever the case mapping does beyond ASCII: for
    the query "button" the catalog entry "ButtonPrimary" accumulates
    80 (prefix) + 50 (expansion "primary") = 130 and is returned in front of
    the exact match "Button". *)
Lemma exact_match_not_always_first :
  ~ exists toLowerCase,
      agreesOnAscii toLowerCase /\ exactMatchRanksFirst toLowerCase.
Proof.
  intros (toLowerCase & Hascii & H).
  rewrite (agreesOnAscii_restrict _ Hascii) in H.
  destruct (H [Button; ButtonPrimary] "button" Button) as (_ & rest & Hrest).
  - now left.
  - reflexivity.
  - vm_compute in Hrest. discriminate Hrest.
Qed.

(** C1, amended: a component whose lowercased name equals the trimmed,
    lowercased, non-blank query receives score 100 from
    [calculateRelevanceScore]; when no search term is a property name
    inherited from [Object.prototype] the search returns, the component is in
    the returned list, every item ranked before it scores at least 100 and
    every item ranked after it scores at most 100.  The case mapping is
    arbitrary: the statement holds of the one of the language. *)
Theorem exact_match_scores_100_and_rank :
  forall (toLowerCase : string -> string)
         (components : list MisticaComponent) (query : string)
         (c : MisticaComponent),
    String.eqb (trim query) "" = false ->
    forallb (fun term => negb (inheritedKey term))
            (extractSearchTerms (trim (toLowerCase query))) = true ->
    In c components ->
    toLowerCase (name c) = trim (toLowerCase query) ->
    let q := trim (toLowerCase query) in
    calculateRelevanceScore toLowerCase c q (extractSearchTerms q)
      (extractContextualKeywords q) = Ok 100 /\
    exists before after,
      scoredComponents toLowerCase components q
        = Ok (before ++ (c, 100) :: after) /\
      smartSearchComponents toLowerCase components query
        = Ok (map fst before ++ c :: map fst after) /\
      Forall (fun item => 100 <= snd item) before /\
      Forall (fun item => snd item <= 100) after.
Proof.
  intros toLowerCase components query c Hblank Hkeys Hin Hname q.
  assert (Hc : calculateRelevanceScore toLowerCase c q (extractSearchTerms q)
                 (extractContextualKeywords q) = Ok 100)
    by now apply calculateRelevanceScore_exact.
  split; [exact Hc|].
  set (f := fun component =>
              score <- calculateRelevanceScore toLowerCase component q
                         (extractSearchTerms q) (extractContextualKeywords q) ;;
              Ok (component, score)).
  destruct (mapM_total f components) as (scored & Hscored).
  { intros x _. unfold f.
    destruct (calculateRelevanceScore_total toLowerCase x q
                (extractSearchTerms q) (extractContextualKeywords q) Hkeys)
      as (s & ->).
    simpl. now eexists. }
  destruct (mapM_In f components scored c Hscored Hin) as (y & Hy & Hiny).
  unfold f in Hy. rewrite Hc in Hy. simpl in Hy. injection Hy as <-.
  assert (Hsorted : In (c, 100)
            (sortByKeyDesc snd (filter (fun item => 0 <? snd item) scored))).
  { apply sortDesc_In, filter_In. split; [exact Hiny|reflexivity]. }
  destruct (descending_split snd _ _ (sortByKeyDesc_descending snd _) Hsorted)
    as (before & after & Heq & Hb & Ha).
  exists before, after.
  assert (Hsc : scoredComponents toLowerCase components q
                = Ok (before ++ (c, 100) :: after)).
  { unfold scoredComponents. fold f. rewrite Hscored. simpl. now rewrite Heq. }
  repeat split; [exact Hsc| |exact Hb|exact Ha].
  unfold smartSearchComponents. rewrite Hblank. fold q. rewrite Hsc. simpl.
  now rewrite map_app.
Qed.

Lemma exact_match_scores_100_and_rank_witness :
  calculateRelevanceScore Str.toLowerCase Button "button"
    (extractSearchTerms "button") (extractContextualKeywords "button")
  = Ok 100 /\
  exists before after,
    scoredComponents Str.toLowerCase [Button; ButtonPrimary] "button"
      = Ok (before ++ (Button, 100) :: after) /\
    smartSearchComponents Str.toLowerCase [Button; ButtonPrimary] " Button "
      = Ok (map fst before ++ Button :: map fst after) /\
    Forall (fun item => 100 <= snd item) before /\
    Forall (fun item => snd item <= 100) after.
Proof.
  apply (exact_match_scores_100_and_rank Str.toLowerCase
           [Button; ButtonPrimary] " Button " Button).
  - reflexivity.
  - reflexivity.
  - simpl. left. reflexivity.
  - reflexivity.
Defined.

(** *** The name bonus *)

(** The bonus of one term, by cases. *)
Lemma nameMatchBonus_cases name term :
  nameMatchBonus name term =
  if String.eqb name term then 90 + 80 else spec_nameMatchBonus name term.
Proof.
  unfold nameMatchBonus, spec_nameMatchBonus.
  destruct (String.eqb_spec name term) as [->|Hne].
  - now rewrite includes_refl, startsWith_refl.
  - destruct (startsWith name term) eqn:Hs.
    + now rewrite (startsWith_includes _ _ Hs).
    + destruct (endsWith name term) eqn:He.
      * now rewrite (endsWith_includes _ _ He).
      * now destruct (includes name term).
Qed.

(** A loop that adds a bonus per element adds the sum of the bonuses to
    the score it starts from. *)
Lemma fold_bonus_shift {A : Type} (bonus : A -> Z) l a score :
  fold_left (fun score x => score + bonus x) l (a + score)
  = a + fold_left (fun score x => score + bonus x) l score.
Proof.
  revert score. induction l as [|x l IH]; intro score; simpl; [reflexivity|].
  now rewrite <- IH, Z.add_assoc.
Qed.

Lemma fold_bonus_sum bonus terms :
  fold_left (fun score term => score + bonus term) terms 0
  = sumOverTerms bonus terms.
Proof.
  induction terms as [|t terms IH]; simpl; [reflexivity|].
  rewrite <- IH.
  replace (bonus t) with (bonus t + 0) at 1 by lia.
  apply fold_bonus_shift.
Qed.

Lemma sumOverTerms_ext bonus bonus' terms :
  (forall term, bonus term = bonus' term) ->
  sumOverTerms bonus terms = sumOverTerms bonus' terms.
Proof.
  intro H. induction terms as [|t terms IH]; simpl; [reflexivity|].
  now rewrite H, IH.
Qed.

Lemma expansionLoop_shift name description terms a score :
  expansionLoop name description terms (a + score)
  = (expanded <- expansionLoop name description terms score ;;
     Ok (a + expanded)).
Proof.
  revert score. induction terms as [|t terms IH]; intro score; simpl;
    [reflexivity|].
  destruct (mappedTermsOf t) as [mapped|e]; simpl; [|reflexivity].
  now rewrite fold_bonus_shift, IH.
Qed.

(** The score of the accumulating branch splits into the bonuses of the
    first loop and those of the loops that follow. *)
Lemma calculateRelevanceScore_split toLowerCase c q terms kws :
  calculateRelevanceScore toLowerCase c q terms kws
  = if String.eqb (toLowerCase (name c)) q then Ok 100
    else
      (rest <- remainingBonuses toLowerCase c q terms kws ;;
       Ok (sumOverTerms (nameMatchBonus (toLowerCase (name c))) terms + rest)).
Proof.
  unfold calculateRelevanceScore, remainingBonuses.
  destruct (String.eqb _ q); [reflexivity|].
  rewrite fold_bonus_sum.
  set (total := sumOverTerms _ terms).
  replace total with (total + 0) at 1 by lia.
  rewrite expansionLoop_shift.
  destruct (expansionLoop _ _ terms 0) as [expanded|e]; simpl; [|reflexivity].
  now rewrite !fold_bonus_shift, Z.add_assoc.
Qed.

(** The reading of the specification: in the accumulating branch of
    [calculateRelevanceScore] every search term adds one bonus for the name,
    [+90] on equality and otherwise the first of prefix, suffix,
    containment. *)
Definition oneNameBonusPerTerm (toLowerCase : string -> string) : Prop :=
  forall (c : MisticaComponent) (q : string) (terms kws : list string),
    toLowerCase (name c) <> q ->
    calculateRelevanceScore toLowerCase c q terms kws
    = (rest <- remainingBonuses toLowerCase c q terms kws ;;
       Ok (sumOverTerms (spec_nameMatchBonus (toLowerCase (name c))) terms
           + rest)).

Example Button_scores_250 :
  calculateRelevanceScore Str.toLowerCase Button "primary button"
    (extractSearchTerms "primary button")
    (extractContextualKeywords "primary button")
  = Ok 250.
Proof. vm_compute. reflexivity. Qed.

(** C7, as stated, fails, whatever the case mapping does beyond ASCII: for
    the query "primary button" the name of "Button" equals the term
    "button"; the equality test adds 90 and the containment test, which is
    not in an else branch, adds the prefix bonus 80 as well, so the score
    is 250 where one bonus per term gives 170. *)
Lemma name_bonus_fires_twice_on_equality :
  ~ exists toLowerCase,
      agreesOnAscii toLowerCase /\ oneNameBonusPerTerm toLowerCase.
Proof.
  intros (toLowerCase & Hascii & H).
  rewrite (agreesOnAscii_restrict _ Hascii) in H.
  specialize (H Button "primary button" (extractSearchTerms "primary button")
                (extractContextualKeywords "primary button")).
  assert (Hne : (if isAscii (name Button) then Str.toLowerCase (name Button)
                 else toLowerCase (name Button)) <> "primary button")
    by (vm_compute; discriminate).
  specialize (H Hne). vm_compute in H. discriminate H.
Qed.

(** C7, amended: [calculateRelevanceScore] returns 100 at once when the
    lowercased name equals the query; otherwise its score is the sum, over
    the search terms, of the name bonus of each term, plus what the later
    loops add, where the name bonus of a term is 90 + 80 = 170 when the name
    equals the term (the equality bonus and the prefix bonus both fire) and
    otherwise the one the specification words: exactly one of +80 (prefix),
    +70 (suffix), +60 (contained elsewhere) when the name contains the term,
    prefix checked before suffix before containment, and nothing when it
    does not.  It raises where the later loops raise. *)
Theorem name_bonus_per_term :
  forall (toLowerCase : string -> string) (c : MisticaComponent)
         (q : string) (terms kws : list string),
    calculateRelevanceScore toLowerCase c q terms kws
    = if String.eqb (toLowerCase (name c)) q then Ok 100
      else
        (rest <- remainingBonuses toLowerCase c q terms kws ;;
         Ok (sumOverTerms
               (fun term =>
                  if String.eqb (toLowerCase (name c)) term then 90 + 80
                  else spec_nameMatchBonus (toLowerCase (name c)) term)
               terms
             + rest)).
Proof.
  intros toLowerCase c q terms kws.
  rewrite calculateRelevanceScore_split.
  destruct (String.eqb _ q); [reflexivity|].
  now rewrite (sumOverTerms_ext _ _ terms
                 (nameMatchBonus_cases (toLowerCase (name c)))).
Qed.

End SearchProps.
(** ** Properties of the component mapper *)

Section FirstOccurrences.

Context {A : Type}.
Variable same : A -> A -> bool.
Hypothesis same_refl : forall x, same x x = true.

Definition keepFirst (self : list A) (index : nat) (x : A) : bool :=
  match findIndex (fun s => same s x) self with
  | Some first => Nat.eqb index first
  | None => false
  end.

Lemma keepFirst_at prefix x rest :
  keepFirst (prefix ++ x :: rest) (List.length prefix) x
  = negb (existsb (fun s => same s x) prefix).
Proof.
  unfold keepFirst. induction prefix as [|a prefix IH]; simpl.
  - now rewrite same_refl.
  - destruct (same a x); simpl; [reflexivity|].
    destruct (findIndex _ (prefix ++ x :: rest)); simpl in *; exact IH.
Qed.

(** What survives the filter is the first occurrence of its class. *)
Lemma filterIndexed_first prefix suffix s :
  In s (filterIndexed (keepFirst (prefix ++ suffix)) (List.length prefix) suffix) ->
  exists l1 l2, suffix = l1 ++ s :: l2 /\
    Forall (fun s' => same s' s = false) (prefix ++ l1).
Proof.
  revert prefix. induction suffix as [|x rest IH]; intros prefix Hin; [easy|].
  cbn [filterIndexed] in Hin.
  assert (Hrest : In s (filterIndexed (keepFirst (prefix ++ x :: rest))
                          (S (List.length prefix)) rest) ->
                  exists l1 l2, x :: rest = l1 ++ s :: l2 /\
                    Forall (fun s' => same s' s = false) (prefix ++ l1)).
  { intro H.
    replace (prefix ++ x :: rest) with ((prefix ++ [x]) ++ rest) in H
      by now rewrite <- app_assoc.
    replace (S (List.length prefix)) with (List.length (prefix ++ [x])) in H
      by (rewrite length_app; simpl; lia).
    destruct (IH _ H) as (l1 & l2 & -> & Hall).
    exists (x :: l1), l2. split; [reflexivity|].
    now rewrite <- app_assoc in Hall. }
  rewrite keepFirst_at in Hin.
  destruct (existsb (fun s0 => same s0 x) prefix) eqn:Hex; simpl in Hin.
  - now apply Hrest.
  - destruct Hin as [<-|Hin]; [|now apply Hrest].
    exists [], rest. split; [reflexivity|].
    rewrite app_nil_r. apply Forall_forall. intros y Hy.
    destruct (same y x) eqn:Hyx; [|reflexivity].
    assert (existsb (fun s0 => same s0 x) prefix = true)
      by (apply existsb_exists; now exists y).
    congruence.
Qed.

Lemma filterIndexed_In (p : nat -> A -> bool) i l x :
  In x (filterIndexed p i l) -> In x l.
Proof.
  revert i. induction l as [|a l IH]; intros i H; [easy|].
  simpl in H. destruct (p i a).
  - destruct H as [->|H]; [now left|right; eauto].
  - right; eauto.
Qed.

Lemma filterIndexed_NoDup (key : A -> string) prefix suffix :
  (forall x y, same x y = String.eqb (key x) (key y)) ->
  NoDup (map key
    (filterIndexed (keepFirst (prefix ++ suffix)) (List.length prefix) suffix)).
Proof.
  intro Hkey. revert prefix.
  induction suffix as [|x rest IH]; intro prefix; [constructor|].
  cbn [filterIndexed].
  assert (Hshift : filterIndexed (keepFirst (prefix ++ x :: rest))
                     (S (List.length prefix)) rest
                   = filterIndexed (keepFirst ((prefix ++ [x]) ++ rest))
                       (List.length (prefix ++ [x])) rest).
  { rewrite <- app_assoc, length_app. simpl.
    now replace (List.length prefix + 1)%nat with (S (List.length prefix)) by lia. }
  destruct (keepFirst (prefix ++ x :: rest) (List.length prefix) x).
  - simpl. constructor.
    + intro Hin. apply in_map_iff in Hin as (s & Hs & Hin).
      rewrite Hshift in Hin.
      apply filterIndexed_first in Hin as (l1 & l2 & _ & Hall).
      rewrite Forall_forall in Hall.
      assert (Hx : same x s = false)
        by (apply Hall; apply in_or_app; left; apply in_or_app; right; now left).
      rewrite Hkey, Hs, String.eqb_refl in Hx. discriminate.
    + rewrite Hshift. apply IH.
  - rewrite Hshift. apply IH.
Qed.

End FirstOccurrences.

Lemma NoDup_firstn {A : Type} n (l : list A) : NoDup l -> NoDup (firstn n l).
Proof.
  intro H. rewrite <- (firstn_skipn n l) in H.
  now apply NoDup_app_remove_r in H.
Qed.

(** Two comparisons that agree on the elements of a list sort it alike. *)
Lemma insertDesc_ext_in {A : Type} (geb geb' : A -> A -> bool) x l :
  (forall y, In y l -> geb x y = geb' x y) ->
  insertDesc geb x l = insertDesc geb' x l.
Proof.
  induction l as [|y l IH]; intro H; simpl; [reflexivity|].
  rewrite (H y (or_introl eq_refl)).
  destruct (geb' x y); [reflexivity|].
  rewrite IH; [reflexivity|]. intros z Hz. apply H. now right.
Qed.

Lemma sortDesc_ext_in {A : Type} (geb geb' : A -> A -> bool) l :
  (forall x y, In x l -> In y l -> geb x y = geb' x y) ->
  sortDesc geb l = sortDesc geb' l.
Proof.
  induction l as [|x l IH]; intro H; [reflexivity|].
  assert (IH' : sortDesc geb l = sortDesc geb' l)
    by (apply IH; intros a b Ha Hb; apply H; right; assumption).
  change (insertDesc geb x (sortDesc geb l)
          = insertDesc geb' x (sortDesc geb' l)).
  rewrite IH'. apply insertDesc_ext_in. intros y Hy.
  apply H; [now left|]. right. apply sortDesc_In in Hy. exact Hy.
Qed.

Module MapperProps.

Import Str ComponentMapper.

Definition suggestedName (s : ComponentSuggestion) : string :=
  name (component s).

Lemma sameName_refl s : sameName s s = true.
Proof. apply String.eqb_refl. Qed.

Lemma dedupeByName_NoDup suggestions :
  NoDup (map suggestedName (dedupeByName suggestions)).
Proof.
  unfold dedupeByName.
  apply (filterIndexed_NoDup sameName sameName_refl suggestedName [] suggestions).
  reflexivity.
Qed.

Lemma dedupeByName_first suggestions s :
  In s (dedupeByName suggestions) ->
  exists l1 l2, suggestions = l1 ++ s :: l2 /\
    Forall (fun s' => suggestedName s' <> suggestedName s) l1.
Proof.
  intro Hin.
  destruct (filterIndexed_first sameName sameName_refl [] suggestions s Hin)
    as (l1 & l2 & Heq & Hall).
  exists l1, l2. split; [exact Heq|].
  simpl in Hall. eapply Forall_impl; [|exact Hall].
  intros a Ha. unfold sameName in Ha. now apply String.eqb_neq in Ha.
Qed.

Lemma In_firstn {A : Type} n (l : list A) x : In x (firstn n l) -> In x l.
Proof.
  intro H. rewrite <- (firstn_skipn n l). apply in_or_app. now left.
Qed.

(** *** Scores that are numbers *)

Definition numeric (s : ComponentSuggestion) : Prop :=
  exists n, score s = Points n.

Lemma scoreGeb_numeric a b :
  numeric a -> numeric b -> scoreGeb a b = (points b <=? points a).
Proof.
  intros (x & Ha) (y & Hb). unfold scoreGeb, points. now rewrite Ha, Hb.
Qed.

Lemma sortByScore_numeric l :
  Forall numeric l -> sortByScore l = sortByKeyDesc points l.
Proof.
  intro H. rewrite Forall_forall in H. unfold sortByScore, sortByKeyDesc.
  apply sortDesc_ext_in. intros a b Ha Hb.
  apply scoreGeb_numeric; now apply H.
Qed.

Lemma descending_numeric l :
  Forall numeric l -> descending points l -> descendingScores l.
Proof.
  unfold descending, descendingScores.
  induction l as [|a l IH]; intros Hn Hs; [constructor|].
  inversion Hn as [|? ? Ha Hl]; subst.
  inversion Hs as [|? ? Hsl Hall]; subst.
  constructor; [now apply IH|].
  rewrite Forall_forall in *. intros b Hb.
  specialize (Hall b Hb). destruct Ha as (x & Ha).
  destruct (Hl b Hb) as (y & Hy).
  unfold scoreGe, points in *. rewrite Ha, Hy in *. exact Hall.
Qed.

(** A catalog in which no category is a property name inherited from
    [Object.prototype]. *)
Definition plainCategories (components : list MisticaComponent) : Prop :=
  Forall (fun c => inheritedKey (category c) = false) components.

Lemma categoryBoost_plain k :
  inheritedKey k = false -> exists boost, categoryBoost k = Some boost.
Proof.
  intro H. unfold categoryBoost. rewrite H.
  repeat match goal with
         | |- context [if ?b then _ else _] => destruct b
         end; eauto.
Qed.

Lemma concat_mapM_Forall {A B : Type} (P : B -> Prop)
    (f : A -> result (list B)) l found :
  (forall x ys, In x l -> f x = Ok ys -> Forall P ys) ->
  mapM f l = Ok found -> Forall P (List.concat found).
Proof.
  revert found. induction l as [|x l IH]; intros found Hf Hm; simpl in Hm.
  - injection Hm as <-. constructor.
  - destruct (f x) as [ys|e] eqn:Hx; simpl in Hm; [|discriminate].
    destruct (mapM f l) as [yss|e] eqn:Hl; simpl in Hm; [|discriminate].
    injection Hm as <-. simpl. apply Forall_app. split.
    + apply (Hf x); [now left|exact Hx].
    + apply IH; [|reflexivity]. intros x' ys' Hin. apply Hf. now right.
Qed.

Lemma patternBlock_numeric flag names why fixedScore components l :
  patternBlock flag names why fixedScore (Some components) = Ok l ->
  Forall numeric l.
Proof.
  unfold patternBlock.
  destruct flag; [|intro H; injection H as <-; constructor].
  match goal with
  | |- context [mapM ?f ?l] => destruct (mapM f l) as [found|e] eqn:Hm
  end; cbn [bind]; intro H; [|discriminate].
  injection H as <-.
  eapply concat_mapM_Forall; [|exact Hm].
  intros x ys _ Hx. simpl in Hx.
  destruct (find _ components) as [c|]; injection Hx as <-; [|constructor].
  constructor; [|constructor]. now exists fixedScore.
Qed.

Lemma getPatternBasedSuggestions_numeric patterns components l :
  getPatternBasedSuggestions patterns (Some components) = Ok l ->
  Forall numeric l.
Proof.
  unfold getPatternBasedSuggestions.
  repeat match goal with
         | |- context [patternBlock ?f ?n ?w ?s (Some components)] =>
             let H := fresh "Hb" in
             pose proof (patternBlock_numeric f n w s components) as H;
             destruct (patternBlock f n w s (Some components)) as [?l|?e];
             cbn [bind]; [|discriminate];
             specialize (H _ eq_refl)
         end.
  intro H. injection H as <-.
  repeat (apply Forall_app; split); assumption.
Qed.

Section CaseMapping.

Variable toLowerCase : string -> string.

Lemma calculateIntelligentScore_plain elementType c elements mapping :
  inheritedKey (category c) = false ->
  exists n,
    calculateIntelligentScore toLowerCase elementType c elements mapping
    = Points n.
Proof.
  intro H. unfold calculateIntelligentScore.
  destruct (categoryBoost_plain _ H) as (boost & ->). eauto.
Qed.

Lemma footerLayoutSuggestions_numeric elements components l :
  footerLayoutSuggestions toLowerCase elements (Some components) = Ok l ->
  Forall numeric l.
Proof.
  unfold footerLayoutSuggestions, findComponentsByPattern, catalogFilter.
  destruct (_ && _)%bool; cbn [bind]; intro H; injection H as <-;
    [|constructor].
  rewrite Forall_map, Forall_forall. intros c _. now exists 95.
Qed.

Lemma pinFieldSuggestions_numeric elements components l :
  pinFieldSuggestions toLowerCase elements (Some components) = Ok l ->
  Forall numeric l.
Proof.
  unfold pinFieldSuggestions, findComponentsByPattern, catalogFilter.
  destruct (_ || _)%bool; cbn [bind]; intro H; injection H as <-;
    [|constructor].
  rewrite Forall_map, Forall_forall. intros c _. now exists 90.
Qed.

Lemma mappingSuggestions_numeric elements components entry l :
  plainCategories components ->
  mappingSuggestions toLowerCase elements (Some components) entry = Ok l ->
  Forall numeric l.
Proof.
  intro Hplain. destruct entry as [elementType mapping].
  unfold mappingSuggestions.
  destruct (ElementMapping.detected mapping);
    [|intro H; injection H as <-; constructor].
  match goal with
  | |- context [mapM ?f ?l] => destruct (mapM f l) as [found|e] eqn:Hm
  end; cbn [bind]; intro H; [|discriminate].
  injection H as <-.
  eapply concat_mapM_Forall; [|exact Hm].
  intros x ys _ Hx. simpl in Hx.
  destruct (find _ components) as [c|] eqn:Hfind; injection Hx as <-;
    [|constructor].
  constructor; [|constructor]. unfold numeric. cbn [score].
  apply calculateIntelligentScore_plain.
  apply find_some in Hfind as [Hin _].
  unfold plainCategories in Hplain. rewrite Forall_forall in Hplain.
  now apply Hplain.
Qed.

Lemma collectSuggestions_numeric elements structure patterns components l :
  plainCategories components ->
  collectSuggestions toLowerCase elements structure patterns (Some components)
  = Ok l ->
  Forall numeric l.
Proof.
  intro Hplain. unfold collectSuggestions.
  pose proof (footerLayoutSuggestions_numeric elements components) as Hf.
  destruct (footerLayoutSuggestions toLowerCase elements (Some components))
    as [footer|e]; cbn [bind]; [|discriminate].
  pose proof (pinFieldSuggestions_numeric elements components) as Hpin.
  destruct (pinFieldSuggestions toLowerCase elements (Some components))
    as [pin|e]; cbn [bind]; [|discriminate].
  destruct (mapM _ (createElementMappings elements structure patterns))
    as [mapped|e] eqn:Hm; cbn [bind]; [|discriminate].
  pose proof (getPatternBasedSuggestions_numeric patterns components) as Hpat.
  destruct (getPatternBasedSuggestions patterns (Some components)) as [ps|e];
    cbn [bind]; [|discriminate].
  intro H. injection H as <-.
  repeat (apply Forall_app; split); auto.
  eapply concat_mapM_Forall; [|exact Hm].
  intros entry ys _ Hys.
  now apply (mappingSuggestions_numeric elements components entry).
Qed.

(** With a catalog in hand no step of the collection can raise. *)
Lemma patternBlock_total flag names why fixedScore components :
  exists l, patternBlock flag names why fixedScore (Some components) = Ok l.
Proof.
  unfold patternBlock. destruct flag; [|now exists []].
  destruct (mapM_total
    (fun name' =>
       component <- catalogFind (Some components)
                      (fun c => String.eqb (name c) name') ;;
       Ok (match component with
           | Some component =>
               [mkSuggestion component why (Points fixedScore)]
           | None => []
           end)) names) as (l & ->).
  - intros x _. simpl. now eexists.
  - simpl. now eexists.
Qed.

Lemma mappingSuggestions_total elements components entry :
  exists l,
    mappingSuggestions toLowerCase elements (Some components) entry = Ok l.
Proof.
  destruct entry as [elementType mapping]. unfold mappingSuggestions.
  destruct (ElementMapping.detected mapping); [|now exists []].
  match goal with |- context [mapM ?f ?l] =>
    destruct (mapM_total f l) as (found & ->) end.
  - intros x _. simpl. now eexists.
  - simpl. now eexists.
Qed.

Lemma footerLayoutSuggestions_total elements components :
  exists l, footerLayoutSuggestions toLowerCase elements (Some components) = Ok l.
Proof.
  unfold footerLayoutSuggestions. destruct (_ && _)%bool; simpl; now eexists.
Qed.

Lemma pinFieldSuggestions_total elements components :
  exists l, pinFieldSuggestions toLowerCase elements (Some components) = Ok l.
Proof.
  unfold pinFieldSuggestions. destruct (_ || _)%bool; simpl; now eexists.
Qed.

Lemma getPatternBasedSuggestions_total patterns components :
  exists l, getPatternBasedSuggestions patterns (Some components) = Ok l.
Proof.
  unfold getPatternBasedSuggestions.
  repeat (match goal with |- context [patternBlock ?f ?n ?w ?s ?c] =>
     let l := fresh "l" in
     destruct (patternBlock_total f n w s components) as (l & ->);
     cbn [bind] end).
  now eexists.
Qed.

Lemma collectSuggestions_total elements structure patterns components :
  exists suggestions,
    collectSuggestions toLowerCase elements structure patterns (Some components)
    = Ok suggestions.
Proof.
  unfold collectSuggestions.
  destruct (footerLayoutSuggestions_total elements components) as (footer & ->).
  destruct (pinFieldSuggestions_total elements components) as (pin & ->).
  destruct (mapM_total (mappingSuggestions toLowerCase elements (Some components))
              (createElementMappings elements structure patterns))
    as (mapped & ->).
  { intros x _. apply mappingSuggestions_total. }
  destruct (getPatternBasedSuggestions_total patterns components) as (ps & ->).
  cbn [bind]. now eexists.
Qed.

(** For every analysis and every catalog the mapper returns a list of at
    most 10 entries with no component name twice; when no category of the
    catalog is a property name inherited from [Object.prototype] every score
    is a number and the list is in descending order of score. *)
Lemma suggestions_bounded_unique_sorted
    (elements : UIElements) (structure : StructuralAnalysis)
    (patterns : UIPatterns) (components : list MisticaComponent) :
  exists suggestions,
    findMisticaEquivalents toLowerCase elements structure patterns
      (Some components) = Ok suggestions /\
    (List.length suggestions <= 10)%nat /\
    NoDup (map (fun s => name (component s)) suggestions) /\
    (plainCategories components ->
     Forall numeric suggestions /\ descendingScores suggestions).
Proof.
  destruct (collectSuggestions_total elements structure patterns components)
    as (collected & Hc).
  unfold findMisticaEquivalents. rewrite Hc. cbn [bind].
  eexists. split; [reflexivity|]. split; [apply firstn_le_length|]. split.
  - rewrite <- firstn_map. apply NoDup_firstn.
    eapply Permutation_NoDup;
      [apply Permutation_map, sortDesc_perm | apply dedupeByName_NoDup].
  - intro Hplain.
    pose proof (collectSuggestions_numeric _ _ _ _ _ Hplain Hc) as Hnum.
    assert (Hded : Forall numeric (dedupeByName collected)).
    { rewrite Forall_forall in *. intros s Hs. apply Hnum.
      unfold dedupeByName in Hs. now apply filterIndexed_In in Hs. }
    rewrite (sortByScore_numeric _ Hded).
    assert (Hfinal : Forall numeric
                       (firstn 10 (sortByKeyDesc points (dedupeByName collected)))).
    { rewrite Forall_forall in *. intros s Hs. apply Hded.
      apply In_firstn in Hs. now apply sortDesc_In in Hs. }
    split; [exact Hfinal|].
    apply descending_numeric; [exact Hfinal|].
    apply descending_firstn, sortByKeyDesc_descending.
Qed.

(** The reading of the specification: among the collected suggestions of one
    name, the one returned has the highest score. *)
Definition keepsHighestScoringOccurrence : Prop :=
  forall elements structure patterns components collected returned,
    collectSuggestions toLowerCase elements structure patterns
      (Some components) = Ok collected ->
    findMisticaEquivalents toLowerCase elements structure patterns
      (Some components) = Ok returned ->
    forall kept other,
      In kept returned -> In other collected ->
      suggestedName other = suggestedName kept ->
      scoreGe kept other.

(** The reading of the specification: a null catalog is always rejected. *)
Definition nullCatalogFailsFast : Prop :=
  forall elements structure patterns,
    findMisticaEquivalents toLowerCase elements structure patterns None
    = Throw TypeError.

End CaseMapping.

(** *** An inherited property name for a category *)

(** The analysis of a card container: the containers family proposes
    "DataCard" and "MediaCard", and the card pattern proposes them again. *)
Definition cardMarkup : string := "<div class='card'>".

Definition cardElements : UIElements :=
  ElementExtractor.extractUIElements cardMarkup.

Definition cardStructure : StructuralAnalysis :=
  PatternDetector.analyzeStructure cardMarkup.

Definition cardPatterns : UIPatterns :=
  PatternDetector.detectVisualPatterns cardMarkup.






(** *** Deduplication comes before the sort *)

Definition DataCard : MisticaComponent :=
  mkComponent "DataCard" "community" "Data card".

Definition cardCollected : list ComponentSuggestion :=
  [ mkSuggestion DataCard "Para organização e espaçamento de elementos"
      (Points 60);
    mkSuggestion DataCard
      "Detectado padrão de card com container estruturado" (Points 80) ].

Example card_collected :
  collectSuggestions Str.toLowerCase cardElements cardStructure cardPatterns
    (Some [DataCard])
  = Ok cardCollected.
Proof. vm_compute. reflexivity. Qed.

Example card_returned :
  findMisticaEquivalents Str.toLowerCase cardElements cardStructure
    cardPatterns (Some [DataCard])
  = Ok [mkSuggestion DataCard "Para organização e espaçamento de elementos"
          (Points 60)].
Proof. vm_compute. reflexivity. Qed.

Example card_canonical :
  spec_canonicalOrder cardCollected
  = [mkSuggestion DataCard
       "Detectado padrão de card com container estruturado" (Points 80)].
Proof. vm_compute. reflexivity. Qed.

(** C3, as stated, fails, whatever the case mapping does beyond ASCII:
    duplicates are removed before the sort, so the occurrence collected
    first survives.  "DataCard" is collected at 60 by the containers family
    and at 80 by the card pattern; the mapper returns the entry at 60. *)
Lemma first_occurrence_not_highest :
  ~ exists toLowerCase,
      agreesOnAscii toLowerCase /\ keepsHighestScoringOccurrence toLowerCase.
Proof.
  intros (toLowerCase & Hascii & H).
  rewrite (agreesOnAscii_restrict _ Hascii) in H.
  specialize (H cardElements cardStructure cardPatterns [DataCard]
                cardCollected
                [mkSuggestion DataCard
                   "Para organização e espaçamento de elementos" (Points 60)]
                ltac:(vm_compute; reflexivity) ltac:(vm_compute; reflexivity)
                (mkSuggestion DataCard
                   "Para organização e espaçamento de elementos" (Points 60))
                (mkSuggestion DataCard
                   "Detectado padrão de card com container estruturado"
                   (Points 80))).
  assert (Hle : 80 <= 60).
  { apply H; [now left | right; now left | reflexivity]. }
  lia.
Qed.

(** C3, amended: the mapper collects the suggestions of the three tiers in
    order, keeps for every component name the occurrence collected first
    (whatever its score), then sorts descending by score and truncates to
    10: when no category of the catalog is a property name inherited from
    [Object.prototype], every score is a number, the list returned is the
    deduplicated collection sorted and truncated, it is in descending order
    of score, and every returned entry is preceded, in the collected list,
    only by suggestions of other names. *)
Theorem first_collected_occurrence_kept :
  forall (toLowerCase : string -> string)
         (elements : UIElements) (structure : StructuralAnalysis)
         (patterns : UIPatterns) (components : list MisticaComponent),
    plainCategories components ->
    exists collected returned,
      collectSuggestions toLowerCase elements structure patterns
        (Some components) = Ok collected /\
      findMisticaEquivalents toLowerCase elements structure patterns
        (Some components) = Ok returned /\
      returned = firstn 10 (sortByScore (dedupeByName collected)) /\
      Forall numeric collected /\
      descendingScores returned /\
      forall s, In s returned ->
        exists l1 l2, collected = l1 ++ s :: l2 /\
          Forall (fun s' => name (component s') <> name (component s)) l1.
Proof.
  intros toLowerCase elements structure patterns components Hplain.
  destruct (collectSuggestions_total toLowerCase elements structure patterns
              components) as (collected & Hc).
  destruct (suggestions_bounded_unique_sorted toLowerCase elements structure
              patterns components) as (returned & Hr & _ & _ & Hsorted).
  exists collected, returned. split; [exact Hc|]. split; [exact Hr|].
  unfold findMisticaEquivalents in Hr. rewrite Hc in Hr. cbn [bind] in Hr.
  assert (Hret : returned = firstn 10 (sortByScore (dedupeByName collected)))
    by congruence.
  split; [exact Hret|].
  split; [now apply (collectSuggestions_numeric toLowerCase elements structure
                       patterns components)|].
  split; [now apply Hsorted|].
  intros s Hs. rewrite Hret in Hs.
  apply In_firstn in Hs. apply sortDesc_In in Hs.
  now apply dedupeByName_first.
Qed.

Lemma first_collected_occurrence_kept_witness :
  exists collected returned,
    collectSuggestions Str.toLowerCase cardElements cardStructure cardPatterns
      (Some [DataCard]) = Ok collected /\
    findMisticaEquivalents Str.toLowerCase cardElements cardStructure
      cardPatterns (Some [DataCard]) = Ok returned /\
    returned = firstn 10 (sortByScore (dedupeByName collected)) /\
    Forall numeric collected /\
    descendingScores returned /\
    forall s, In s returned ->
      exists l1 l2, collected = l1 ++ s :: l2 /\
        Forall (fun s' => name (component s') <> name (component s)) l1.
Proof.
  apply (first_collected_occurrence_kept Str.toLowerCase cardElements
           cardStructure cardPatterns [DataCard]).
  repeat constructor.
Defined.

(** *** A null catalog *)

Lemma nonEmptyOr_cons components a fallback :
  exists x l, nonEmptyOr components (a :: fallback) = x :: l.
Proof. destruct components; simpl; eauto. Qed.

Lemma getContainerComponents_cons containers structure spacing :
  exists x l, getContainerComponents containers structure spacing = x :: l.
Proof.
  unfold getContainerComponents.
  match goal with |- context [match ?c with [] => _ | _ :: _ => uniq ?c end] =>
    destruct c as [|x l] end; [eauto|].
  unfold uniq. cbn. eauto.
Qed.

Lemma getIconComponents_cons icons :
  exists x l, getIconComponents icons = x :: l.
Proof. unfold getIconComponents. destruct (_ icons); eauto. Qed.

Lemma mappingSuggestions_null toLowerCase elements elementType d x l r p :
  mappingSuggestions toLowerCase elements None
    (elementType, ElementMapping.mk d (x :: l) r p)
  = if d then Throw TypeError else Ok [].
Proof. unfold mappingSuggestions. simpl. now destruct d. Qed.

Lemma patternBlock_null flag x names why fixedScore :
  patternBlock flag (x :: names) why fixedScore None
  = if flag then Throw TypeError else Ok [].
Proof. unfold patternBlock. now destruct flag. Qed.

Lemma mappings_null toLowerCase elements structure patterns :
  mapM (mappingSuggestions toLowerCase elements None)
       (createElementMappings elements structure patterns)
  = if (ButtonElements.found (buttons elements)
        || TextElements.found (texts elements)
        || ListElements.found (lists elements)
        || ContainerElements.found (containers elements)
        || IconElements.found (icons elements)
        || InputElements.found (inputs elements)
        || NavigationElements.found (navigation elements))%bool
    then Throw TypeError
    else Ok [[]; []; []; []; []; []; []].
Proof.
  unfold createElementMappings, getButtonComponents, getTextComponents,
    getListComponents, getInputComponents, getNavigationComponents.
  repeat match goal with |- context [nonEmptyOr ?c (?a :: ?f)] =>
    let x := fresh "x" in let l := fresh "l" in
    destruct (nonEmptyOr_cons c a f) as (x & l & ->) end.
  destruct (getContainerComponents_cons (containers elements) structure
              (spacing elements)) as (xc & lc & ->).
  destruct (getIconComponents_cons (icons elements)) as (xi & li & ->).
  cbn [mapM app]. rewrite !mappingSuggestions_null.
  destruct (ButtonElements.found _), (TextElements.found _),
    (ListElements.found _), (ContainerElements.found _),
    (IconElements.found _), (InputElements.found _),
    (NavigationElements.found _); reflexivity.
Qed.

Example nothing_detected toLowerCase :
  suggestionsForMarkup toLowerCase "hello" None = Ok [].
Proof. vm_compute. reflexivity. Qed.

(** C9, as stated, fails, whatever the case mapping: there is no guard on
    the catalog argument; when the analysis detected nothing (as for the
    markup "hello") no catalog method is called and the mapper returns the
    empty list. *)
Lemma null_catalog_can_return_empty :
  ~ exists toLowerCase, nullCatalogFailsFast toLowerCase.
Proof.
  intros (toLowerCase & H).
  specialize (H (ElementExtractor.extractUIElements "hello")
                (PatternDetector.analyzeStructure "hello")
                (PatternDetector.detectVisualPatterns "hello")).
  fold (suggestionsForMarkup toLowerCase "hello" None) in H.
  rewrite nothing_detected in H. discriminate H.
Qed.

(** C9, amended: with a null or undefined catalog the mapper raises a
    TypeError (its promise is rejected) exactly when the analysis makes it
    consult the catalog, that is when a special case applies, a family is
    detected or a pattern flag of the fallback tier is set; when nothing is
    detected it returns the empty suggestion list. *)
Theorem null_catalog_behaviour :
  forall (toLowerCase : string -> string)
         (elements : UIElements) (structure : StructuralAnalysis)
         (patterns : UIPatterns),
    findMisticaEquivalents toLowerCase elements structure patterns None
    = if consultsCatalog elements patterns then Throw TypeError else Ok [].
Proof.
  intros toLowerCase elements structure patterns.
  unfold findMisticaEquivalents, collectSuggestions, consultsCatalog,
    footerLayoutSuggestions, pinFieldSuggestions, findComponentsByPattern,
    getPatternBasedSuggestions.
  rewrite mappings_null, !patternBlock_null.
  destruct (_ && _)%bool; [reflexivity|].
  destruct (SecurityElements.hasPinField _ || _)%bool; [reflexivity|].
  cbn [bind orb].
  destruct (ButtonElements.found _ || _ || _ || _ || _ || _ || _)%bool;
    [reflexivity|].
  cbn [bind orb].
  destruct (listPattern patterns), (cardPattern patterns),
    (formPattern patterns), (navigationPattern patterns),
    (modalPattern patterns); reflexivity.
Qed.

End MapperProps.
(** ** Properties of the typography analyser *)

Lemma Qle_bool_false_iff a b : Qle_bool a b = false <-> (b < a)%Q.
Proof.
  split; intro H.
  - apply Qnot_le_lt. intro Hle. apply Qle_bool_iff in Hle. congruence.
  - destruct (Qle_bool a b) eqn:E; [|reflexivity].
    apply Qle_bool_iff in E. lra.
Qed.

(** Case analysis on the size comparisons met in the goal; branches whose
    comparisons contradict each other are closed on the way. *)
Ltac split_tests :=
  repeat match goal with
  | |- context [Qle_bool ?a ?b] =>
      let E := fresh "E" in
      destruct (Qle_bool a b) eqn:E;
      [apply Qle_bool_iff in E | apply Qle_bool_false_iff in E];
      cbn [andb orb negb]; try (exfalso; unfold inject_Z in *; lra)
  end.

Module TypographyProps.

Import TypographyAnalyzer.

Lemma determineTextLevel_staircase fontSize :
  determineTextLevel fontSize = fallbackLevel fontSize.
Proof.
  unfold determineTextLevel, fallbackLevel, textLevels.
  cbn [find]. unfold withinRange.
  destruct fontSize as [q| | |];
    cbn [TEXT_SCALE_MAPPING minSize maxSize Num.geZ Num.leZ andb];
    try reflexivity.
  split_tests; reflexivity.
Qed.

Lemma fallbackLevel_monotone s1 s2 :
  Num.leb s1 s2 = true ->
  levelNumber (fallbackLevel s2) <= levelNumber (fallbackLevel s1).
Proof.
  unfold fallbackLevel.
  destruct s1 as [p| | |], s2 as [q| | |]; cbn [Num.leb Num.geZ];
    intro Hle; try discriminate Hle;
    try (apply Qle_bool_iff in Hle);
    split_tests; cbn [levelNumber]; lia.
Qed.

Lemma strictlyInside_level fontSize level :
  strictlyInside fontSize level = true ->
  determineTextLevel fontSize = level /\
  withinRange fontSize (TEXT_SCALE_MAPPING level) = true.
Proof.
  destruct fontSize as [q| | |]; cbn [strictlyInside]; try discriminate.
  intro H. apply andb_true_iff in H as [Hmin Hmax].
  apply negb_true_iff, Qle_bool_false_iff in Hmin.
  apply negb_true_iff, Qle_bool_false_iff in Hmax.
  rewrite determineTextLevel_staircase. unfold fallbackLevel, withinRange.
  destruct level;
    cbn [TEXT_SCALE_MAPPING minSize maxSize Num.geZ Num.leZ] in *;
    split_tests; split; reflexivity.
Qed.

(** C4: the analysis reports the level [determineTextLevel] chooses for the
    resolved size and the weight [determineWeight] resolves, and its
    confidence is the base 0.5, plus 0.3 when the size lies within the range
    of that level, plus 0.2 when that weight is among the weights of that
    level, capped at 1.0 (in doubles: 0.5, 0.7, 0.8 or 1), which is what
    [calculateTypographyConfidence] computes for any level and weight;
    consequently a size strictly inside the range of a level, with a
    resolved weight that this level allows, is assigned that level and the
    confidence 1.0, which is at least 0.8.  The case mapping used to resolve
    the weight is arbitrary: the statement holds of the one of the
    language. *)
Theorem typography_confidence :
  forall (toLowerCase : string -> string) (fontSize : number)
         (fontWeight styleText : string),
    let analysis := analyzeResolved toLowerCase fontSize fontWeight styleText in
    let bonuses (inRange allowed : bool) : float :=
      (match inRange, allowed with
       | true, true => 1.0
       | true, false => 0.8
       | false, true => 0.7
       | false, false => 0.5
       end)%float in
    (textLevel analysis = determineTextLevel fontSize /\
     weight analysis = determineWeight toLowerCase fontWeight styleText /\
     size analysis = fontSize) /\
    confidence analysis
    = bonuses
        (withinRange fontSize (TEXT_SCALE_MAPPING (textLevel analysis)))
        (existsb (Weight_eqb (weight analysis))
                 (weights (TEXT_SCALE_MAPPING (textLevel analysis)))) /\
    (forall (level : TextLevel) (weight : Weight),
        calculateTypographyConfidence fontSize fontWeight level weight
        = bonuses
            (withinRange fontSize (TEXT_SCALE_MAPPING level))
            (existsb (Weight_eqb weight) (weights (TEXT_SCALE_MAPPING level)))) /\
    (forall level : TextLevel,
        strictlyInside fontSize level = true ->
        existsb (Weight_eqb (weight analysis))
                (weights (TEXT_SCALE_MAPPING level)) = true ->
        textLevel analysis = level /\
        confidence analysis = 1.0%float /\
        PrimFloat.leb 0.8 (confidence analysis) = true).
Proof.
  intros toLowerCase fontSize fontWeight styleText analysis bonuses.
  assert (Hcalc : forall level weight,
             calculateTypographyConfidence fontSize fontWeight level weight
             = bonuses
                 (withinRange fontSize (TEXT_SCALE_MAPPING level))
                 (existsb (Weight_eqb weight)
                          (weights (TEXT_SCALE_MAPPING level)))).
  { intros level weight. unfold calculateTypographyConfidence, bonuses.
    destruct (withinRange _ _), (existsb _ _); reflexivity. }
  split; [repeat split|]. split; [apply Hcalc|]. split; [exact Hcalc|].
  intros level Hin Hw.
  destruct (strictlyInside_level _ _ Hin) as [Hlevel Hrange].
  assert (Hl : textLevel analysis = level) by exact Hlevel.
  assert (Hc : confidence analysis = 1.0%float).
  { unfold analysis, analyzeResolved. cbn [confidence].
    rewrite Hcalc, Hlevel, Hrange.
    unfold analysis, analyzeResolved in Hw. cbn [weight] in Hw.
    now rewrite Hw. }
  split; [exact Hl|]. split; [exact Hc|]. now rewrite Hc.
Qed.

Lemma typography_confidence_witness :
  let analysis :=
    analyzeResolved Str.toLowerCase (Finite (36 # 1)) "500"
      "font-size: 36px; font-weight: 500" in
  textLevel analysis = text3 /\
  confidence analysis = 1.0%float /\
  PrimFloat.leb 0.8 (confidence analysis) = true.
Proof.
  apply (proj2 (proj2 (proj2 (typography_confidence Str.toLowerCase
                                (Finite (36 # 1)) "500"
                                "font-size: 36px; font-weight: 500")))
           text3).
  - reflexivity.
  - reflexivity.
Defined.

(** The analysis of a size outside every range: 100px, weight 400. *)
Example out_of_range_confidence :
  confidence (analyzeResolved Str.toLowerCase (Finite (100 # 1)) "400"
                "font-size: 100px; font-weight: 400")
  = 0.7%float.
Proof. reflexivity. Qed.

(** C5: [determineTextLevel] is total: every size, NaN and the infinities
    included, is assigned exactly one of the ten levels, the one the
    staircase >= 56 -> text1, ..., < 14 -> text10 gives; and on sizes outside
    every range of the table a larger size is assigned the same or a
    lower-numbered level. *)
Theorem determineTextLevel_total_monotone :
  (forall s : number,
     In (determineTextLevel s) textLevels /\
     determineTextLevel s = fallbackLevel s) /\
  (forall s : number,
     outsideAllRanges s = true ->
     (Num.geZ s 56 = true -> determineTextLevel s = text1) /\
     (Num.geZ s 14 = false -> determineTextLevel s = text10)) /\
  (forall s1 s2 : number,
     outsideAllRanges s1 = true ->
     outsideAllRanges s2 = true ->
     Num.leb s1 s2 = true ->
     levelNumber (determineTextLevel s2) <= levelNumber (determineTextLevel s1)).
Proof.
  split; [|split].
  - intro s. split.
    + destruct (determineTextLevel s); cbn; tauto.
    + apply determineTextLevel_staircase.
  - intros s _. rewrite determineTextLevel_staircase. unfold fallbackLevel.
    split.
    + now intros ->.
    + destruct s as [q| | |]; cbn [Num.geZ]; try discriminate; try reflexivity.
      intro H. apply Qle_bool_false_iff in H. split_tests. reflexivity.
  - intros s1 s2 _ _ Hle.
    rewrite !determineTextLevel_staircase. now apply fallbackLevel_monotone.
Qed.

Lemma determineTextLevel_total_monotone_witness :
  determineTextLevel (Finite (70 # 1)) = text1 /\
  levelNumber (determineTextLevel (Finite (70 # 1)))
  <= levelNumber (determineTextLevel (Finite (50 # 1))).
Proof.
  split.
  - apply (proj1 (proj2 determineTextLevel_total_monotone) (Finite (70 # 1)));
      reflexivity.
  - apply (proj2 (proj2 determineTextLevel_total_monotone)
             (Finite (50 # 1)) (Finite (70 # 1)));
      reflexivity.
Defined.

End TypographyProps.

(** ** Properties of the element extractor *)

(** *** Insertion-ordered maps *)

Section MapFacts.

Context {V : Type}.

Lemma assoc_In k (m : list (string * V)) v :
  assoc k m = Some v -> In (k, v) m.
Proof.
  induction m as [|[k' v'] m IH]; simpl; [discriminate|].
  destruct (String.eqb_spec k k') as [->|Hne]; intro H.
  - injection H as ->. now left.
  - right. now apply IH.
Qed.

Lemma assoc_None k (m : list (string * V)) :
  assoc k m = None -> ~ In k (map fst m).
Proof.
  induction m as [|[k' v'] m IH]; simpl; [tauto|].
  destruct (String.eqb_spec k k') as [->|Hne]; [discriminate|].
  intros H [Heq|Hin]; [congruence|now apply IH].
Qed.

Lemma assoc_mapSet_same k (x : V) m : assoc k (mapSet k x m) = Some x.
Proof.
  induction m as [|[k' v'] m IH]; simpl.
  - now rewrite String.eqb_refl.
  - destruct (String.eqb_spec k k') as [->|Hne]; simpl.
    + now rewrite String.eqb_refl.
    + destruct (String.eqb_spec k k'); [contradiction|exact IH].
Qed.

Lemma assoc_mapSet_other k k' (x : V) m :
  k' <> k -> assoc k' (mapSet k x m) = assoc k' m.
Proof.
  intro Hne. induction m as [|[k0 v0] m IH]; simpl.
  - destruct (String.eqb_spec k' k); [contradiction|reflexivity].
  - destruct (String.eqb_spec k k0) as [->|Hk]; simpl.
    + destruct (String.eqb_spec k' k0); [contradiction|reflexivity].
    + destruct (String.eqb_spec k' k0); [reflexivity|exact IH].
Qed.

Lemma mapSet_keys k (x : V) m :
  map fst (mapSet k x m)
  = if Str.mem k (map fst m) then map fst m else map fst m ++ [k].
Proof.
  unfold Str.mem. induction m as [|[k' v'] m IH]; simpl; [reflexivity|].
  destruct (String.eqb_spec k k') as [->|Hne]; simpl; [reflexivity|].
  rewrite IH. now destruct (existsb (String.eqb k) (map fst m)).
Qed.

Lemma mem_In k (l : list string) : Str.mem k l = true <-> In k l.
Proof.
  unfold Str.mem. rewrite existsb_exists. split.
  - intros (x & Hx & Heq). apply String.eqb_eq in Heq. now subst.
  - intro H. exists k. split; [exact H|apply String.eqb_refl].
Qed.

Lemma mapSet_NoDup k (x : V) m :
  NoDup (map fst m) -> NoDup (map fst (mapSet k x m)).
Proof.
  intro H. rewrite mapSet_keys.
  destruct (Str.mem k (map fst m)) eqn:Hmem; [exact H|].
  apply NoDup_app; [exact H | repeat constructor; easy |].
  intros y Hy [<-|[]]. apply mem_In in Hy. congruence.
Qed.

Lemma In_mapSet k (x : V) m k' v :
  NoDup (map fst m) ->
  In (k', v) (mapSet k x m) ->
  (k' = k /\ v = x) \/ (k' <> k /\ In (k', v) m).
Proof.
  induction m as [|[k0 v0] m IH]; simpl; intros Hnd Hin.
  - destruct Hin as [Heq|[]]. injection Heq as <- <-. now left.
  - inversion Hnd as [|? ? Hnotin Hnd']; subst.
    destruct (String.eqb_spec k k0) as [->|Hk]; simpl in Hin.
    + destruct Hin as [Heq|Hin].
      * injection Heq as <- <-. now left.
      * right. split; [|now right].
        intros ->. apply Hnotin. apply in_map_iff. now exists (k0, v).
    + destruct Hin as [Heq|Hin].
      * injection Heq as <- <-. right. split; [congruence|now left].
      * destruct (IH Hnd' Hin) as [?|[? ?]]; [now left|right; split; auto].
Qed.

Lemma NoDup_keys_functional (m : list (string * V)) k a b :
  NoDup (map fst m) -> In (k, a) m -> In (k, b) m -> a = b.
Proof.
  induction m as [|[k0 v0] m IH]; [easy|].
  simpl. intros Hnd Ha Hb. inversion Hnd as [|? ? Hnotin Hnd']; subst.
  destruct Ha as [Ea|Ha], Hb as [Eb|Hb].
  - congruence.
  - injection Ea as -> ->. exfalso. apply Hnotin.
    apply in_map_iff. now exists (k, b).
  - injection Eb as -> ->. exfalso. apply Hnotin.
    apply in_map_iff. now exists (k, a).
  - now apply IH.
Qed.

End MapFacts.

Module ExtractorProps.

Import Str ElementExtractor.

(** [firstBest processed p]: [p] occurs in [processed] with every earlier
    preset of its key strictly less confident and every later one at most
    as confident. *)
Definition firstBest (processed : list FigmaTextPreset) (p : FigmaTextPreset)
  : Prop :=
  exists l1 l2,
    processed = l1 ++ p :: l2 /\
    Forall (fun q => presetKey q = presetKey p ->
                     (confidenceScore q < confidenceScore p)%Q) l1 /\
    Forall (fun q => presetKey q = presetKey p ->
                     (confidenceScore q <= confidenceScore p)%Q) l2.

(** The invariant of the consolidation loop. *)
Record consolidated (m : list (string * FigmaTextPreset))
    (processed : list FigmaTextPreset) : Prop := mkConsolidated {
  entries_best :
    forall k p, In (k, p) m -> k = presetKey p /\ firstBest processed p;
  keys_present :
    forall q, In q processed -> assoc (presetKey q) m <> None;
  keys_distinct : NoDup (map fst m);
}.

Lemma Qgtb_true a b : Qgtb a b = true -> (b < a)%Q.
Proof. unfold Qgtb. intro H. apply negb_true_iff in H. now apply Qle_bool_false_iff. Qed.

Lemma Qgtb_false a b : Qgtb a b = false -> (a <= b)%Q.
Proof. unfold Qgtb. intro H. apply negb_false_iff in H. now apply Qle_bool_iff. Qed.

Lemma firstBest_later processed p x :
  firstBest processed p ->
  (presetKey x = presetKey p -> (confidenceScore x <= confidenceScore p)%Q) ->
  firstBest (processed ++ [x]) p.
Proof.
  intros (l1 & l2 & -> & H1 & H2) Hx.
  exists l1, (l2 ++ [x]). split; [now rewrite <- app_assoc|].
  split; [exact H1|]. apply Forall_app. split; [exact H2|].
  constructor; [exact Hx|constructor].
Qed.

Lemma consolidateStep_consolidated m processed x :
  consolidated m processed ->
  consolidated (consolidateStep m x) (processed ++ [x]).
Proof.
  intros [Hbest Hkeys Hnd]. unfold consolidateStep.
  assert (Hnew : forall k p,
            (forall q, In q processed -> presetKey q = presetKey x ->
                       (confidenceScore q < confidenceScore x)%Q) ->
            In (k, p) (mapSet (presetKey x) x m) ->
            k = presetKey p /\ firstBest (processed ++ [x]) p).
  { intros k p Hless Hin.
    destruct (In_mapSet _ _ _ _ _ Hnd Hin) as [[-> ->]|[Hne Hold]].
    - split; [reflexivity|]. exists processed, []. split; [reflexivity|].
      split; [|constructor]. apply Forall_forall. intros q Hq. now apply Hless.
    - destruct (Hbest _ _ Hold) as [-> Hfb]. split; [reflexivity|].
      apply firstBest_later; [exact Hfb|]. intro Heq. congruence. }
  assert (Hpresent : forall q, In q (processed ++ [x]) ->
            assoc (presetKey q) (mapSet (presetKey x) x m) <> None).
  { intros q Hq. destruct (String.eqb_spec (presetKey q) (presetKey x)) as [->|Hne].
    - now rewrite assoc_mapSet_same.
    - rewrite assoc_mapSet_other by exact Hne.
      apply in_app_or in Hq as [Hq|[<-|[]]]; [now apply Hkeys|congruence]. }
  destruct (assoc (presetKey x) m) as [existing|] eqn:Hassoc.
  - apply assoc_In in Hassoc as Hin.
    destruct (Hbest _ _ Hin) as [Hkey (l1 & l2 & Hproc & H1 & H2)].
    destruct (Qgtb (confidenceScore x) (confidenceScore existing)) eqn:Hgt.
    + apply Qgtb_true in Hgt.
      constructor; [|exact Hpresent|now apply mapSet_NoDup].
      intros k p. apply Hnew. intros q Hq Hqx.
      rewrite Forall_forall in H1, H2. subst processed.
      apply in_app_or in Hq as [Hq|[<-|Hq]].
      * specialize (H1 q Hq). assert (confidenceScore q < confidenceScore existing)%Q
          by (apply H1; congruence). lra.
      * exact Hgt.
      * specialize (H2 q Hq). assert (confidenceScore q <= confidenceScore existing)%Q
          by (apply H2; congruence). lra.
    + apply Qgtb_false in Hgt.
      constructor; [| |exact Hnd].
      * intros k p Hkp. destruct (Hbest _ _ Hkp) as [-> Hfb].
        split; [reflexivity|]. apply firstBest_later; [exact Hfb|].
        intro Heq.
        assert (p = existing).
        { apply assoc_In in Hassoc. rewrite Heq in Hassoc.
          exact (NoDup_keys_functional _ _ _ _ Hnd Hkp Hassoc). }
        subst p. exact Hgt.
      * intros q Hq. apply in_app_or in Hq as [Hq|[<-|[]]]; [now apply Hkeys|].
        rewrite Hassoc. discriminate.
  - constructor; [|exact Hpresent|now apply mapSet_NoDup].
    intros k p. apply Hnew. intros q Hq Hqx. exfalso.
    apply (Hkeys q Hq). now rewrite Hqx.
Qed.

Lemma fold_consolidated rest : forall m processed,
  consolidated m processed ->
  consolidated (fold_left consolidateStep rest m) (processed ++ rest).
Proof.
  induction rest as [|x rest IH]; intros m processed H; simpl.
  - now rewrite app_nil_r.
  - replace (processed ++ x :: rest) with ((processed ++ [x]) ++ rest)
      by now rewrite <- app_assoc.
    apply IH. now apply consolidateStep_consolidated.
Qed.

Lemma consolidated_nil : consolidated [] [].
Proof. constructor; simpl; [tauto|tauto|constructor]. Qed.

Definition presetA : FigmaTextPreset :=
  mkFigmaTextPreset "text3" "regular" "text-preset-3/regular" None 1.0.

Definition presetB : FigmaTextPreset :=
  mkFigmaTextPreset "text3" "regular" "text-preset-3-regular" None 1.0.

(** C10: consolidation keeps, for every (preset, variant) key, the first
    of the most confident detected presets: each key that was detected has a
    survivor, and a survivor is preceded only by strictly less confident
    presets of its key and followed only by presets of its key that are at
    most as confident.  An entry of the map is left in place by a preset of
    its key that is not strictly more confident, and the presets are
    consolidated in the order explicit names, CSS properties, semantic
    context, so an entry of an earlier strategy is never displaced by an
    equally confident entry of a later one. *)
Theorem consolidation_keeps_first_best :
  forall presets : list FigmaTextPreset,
    (forall q, In q presets ->
       exists p, In p (consolidatePresets presets) /\
                 presetKey p = presetKey q) /\
    (forall p, In p (consolidatePresets presets) -> firstBest presets p) /\
    (forall uniqueMap p existing,
       assoc (presetKey p) uniqueMap = Some existing ->
       (confidenceScore p <= confidenceScore existing)%Q ->
       consolidateStep uniqueMap p = uniqueMap) /\
    (forall code,
       extractFigmaTextPresets code
       = consolidatePresets (detectPresetsByName code
                             ++ detectPresetsByCSSProperties code
                             ++ detectPresetsBySemanticContext code)).
Proof.
  intro presets.
  destruct (fold_consolidated presets [] [] consolidated_nil)
    as [Hbest Hkeys Hnd].
  simpl in Hbest, Hkeys. unfold consolidatePresets.
  split; [|split; [|split; [|reflexivity]]].
  - intros q Hq. specialize (Hkeys q Hq).
    destruct (assoc (presetKey q) (fold_left consolidateStep presets []))
      as [p|] eqn:Hassoc; [|congruence].
    apply assoc_In in Hassoc. exists p. split.
    + apply sortDesc_In. apply in_map_iff. now exists (presetKey q, p).
    + now destruct (Hbest _ _ Hassoc) as [<- _].
  - intros p Hp. apply sortDesc_In in Hp.
    apply in_map_iff in Hp as ([k p'] & Heq & Hin). simpl in Heq. subst p'.
    now destruct (Hbest _ _ Hin).
  - intros uniqueMap p existing Hassoc Hle. unfold consolidateStep.
    rewrite Hassoc. unfold Qgtb.
    now rewrite (proj2 (Qle_bool_iff _ _) Hle).
Qed.

Lemma consolidation_keeps_first_best_witness :
  consolidatePresets [presetA; presetB] = [presetA] /\
  firstBest [presetA; presetB] presetA.
Proof.
  split; [reflexivity|].
  apply (proj1 (proj2 (consolidation_keeps_first_best [presetA; presetB]))).
  left. reflexivity.
Defined.

(** *** Signals with [found = false] *)

(** The reading of the specification: a family that was not found has its
    counts at 0, its lists empty and its strings empty. *)
Definition notFoundMeansZero (e : UIElements) : Prop :=
  (ButtonElements.found (buttons e) = false ->
   ButtonElements.count (buttons e) = 0 /\
   ButtonElements.variants (buttons e) = [] /\
   ButtonElements.positions (buttons e) = []) /\
  (TextElements.found (texts e) = false ->
   TextElements.count (texts e) = 0 /\
   TextElements.hierarchy (texts e) = [] /\
   TextElements.figmaPresets (texts e) = []) /\
  (ContainerElements.found (containers e) = false ->
   ContainerElements.count (containers e) = 0 /\
   ContainerElements.types (containers e) = []) /\
  (ListElements.found (lists e) = false ->
   ListElements.count (lists e) = 0) /\
  (IconElements.found (icons e) = false ->
   IconElements.count (icons e) = 0 /\ IconElements.types (icons e) = []) /\
  (InputElements.found (inputs e) = false ->
   InputElements.count (inputs e) = 0 /\ InputElements.types (inputs e) = []) /\
  (ImageElements.found (images e) = false ->
   ImageElements.count (images e) = 0) /\
  (LayoutElements.found (layouts e) = false ->
   LayoutElements.layoutType (layouts e) = "") /\
  (SecurityElements.found (security e) = false ->
   SecurityElements.securityLevel (security e) = "") /\
  (FormElements.found (forms e) = false ->
   FormElements.fieldTypes (forms e) = [] /\
   FormElements.structure (forms e) = "") /\
  (SpacingElements.found (spacing e) = false ->
   SpacingElements.spacingTypes (spacing e) = [] /\
   SpacingElements.spacingValues (spacing e) = [] /\
   SpacingElements.spacingPatterns (spacing e) = [] /\
   SpacingElements.detectedUnits (spacing e) = [] /\
   SpacingElements.semanticSpacing (spacing e) = []) /\
  (FeedbackElements.found (feedback e) = false ->
   FeedbackElements.type (feedback e) = "" /\
   FeedbackElements.detectedNames (feedback e) = []) /\
  (FigmaComponentElements.found (figmaComponents e) = false ->
   FigmaComponentElements.detectedComponents (figmaComponents e) = []).

Definition notFoundAlwaysZero : Prop :=
  forall code : string, notFoundMeansZero (extractUIElements code).

Example empty_markup : extractUIElements "" = ComponentMapper.noElements.
Proof. vm_compute. reflexivity. Qed.

Example lone_button :
  extractButtons "button"
  = ButtonElements.mk false 1 false [] ["inline"].
Proof. vm_compute. reflexivity. Qed.

(** C8, as stated, fails already on the empty markup: no button is found,
    yet the positions list holds its default "inline" (and the structure of
    the forms is "simple", the type of the feedback "generic"). *)
Lemma not_found_fields_hold_defaults : ~ notFoundAlwaysZero.
Proof.
  intro H. destruct (H "") as [Hbuttons _].
  rewrite empty_markup in Hbuttons.
  destruct (Hbuttons eq_refl) as (_ & _ & Hpositions).
  discriminate Hpositions.
Qed.

Lemma pushIf_nil cond value : pushIf cond value = [] -> cond = false.
Proof. now destruct cond. Qed.

Lemma nonempty_false {A : Type} (l : list A) :
  match l with [] => false | _ :: _ => true end = false -> l = [].
Proof. now destruct l. Qed.

(** C8, amended: on the empty markup every family has [found = false],
    every count is 0 and every list is empty, except for the fields the
    extractor fills with a default: the positions of the buttons are
    ["inline"], the structure of the forms is "simple", the type of the
    feedback is "generic", the layout type is "standard", the security level
    is "none" and the spacing patterns are ["design-system"].  On every
    markup the positions of the buttons are never empty, and [found = false]
    implies: for the forms, no field types and the structure "simple"; for
    the feedback, no detected names; for the layouts, the type "standard";
    for the security signals, the level "none"; for the spacing, no types,
    values or units and the patterns ["design-system"]; for the Figma
    components, no detected component. *)
Theorem not_found_defaults :
  extractUIElements "" = ComponentMapper.noElements /\
  forall code : string,
    let e := extractUIElements code in
    ButtonElements.positions (buttons e) <> [] /\
    (FormElements.found (forms e) = false ->
     FormElements.fieldTypes (forms e) = [] /\
     FormElements.structure (forms e) = "simple") /\
    (FeedbackElements.found (feedback e) = false ->
     FeedbackElements.detectedNames (feedback e) = []) /\
    (LayoutElements.found (layouts e) = false ->
     LayoutElements.layoutType (layouts e) = "standard") /\
    (SecurityElements.found (security e) = false ->
     SecurityElements.securityLevel (security e) = "none") /\
    (SpacingElements.found (spacing e) = false ->
     SpacingElements.spacingTypes (spacing e) = [] /\
     SpacingElements.spacingValues (spacing e) = [] /\
     SpacingElements.detectedUnits (spacing e) = [] /\
     SpacingElements.spacingPatterns (spacing e) = ["design-system"]) /\
    (FigmaComponentElements.found (figmaComponents e) = false ->
     FigmaComponentElements.detectedComponents (figmaComponents e) = []).
Proof.
  split; [exact empty_markup|].
  intros code e. subst e.
  cbn [extractUIElements buttons forms feedback layouts security spacing
       figmaComponents].
  repeat split.
  - unfold extractButtons, detectButtonPositions.
    cbn [ButtonElements.positions].
    destruct (probe "footer.*button|button.*footer|bottom.*button|fixed.*bottom.*button" code),
      (probe "header.*button|button.*header|top.*button|navigation.*button" code),
      (probe "inline.*button|content.*button" code); discriminate.
  - unfold extractForms in *. cbn [FormElements.found FormElements.fieldTypes] in *.
    destruct (probe "text.*input|textfield" code), (probe "email.*input|email.*field" code),
      (probe "password.*input|password.*field" code),
      (probe "number.*input|numeric.*field" code),
      (probe "phone.*input|phone.*field" code),
      (probe "pin.*input|pin.*field|code.*input" code);
      try reflexivity; discriminate.
  - unfold extractForms in *. cbn [FormElements.found FormElements.structure] in *.
    destruct (probe "text.*input|textfield" code), (probe "email.*input|email.*field" code),
      (probe "password.*input|password.*field" code),
      (probe "number.*input|numeric.*field" code),
      (probe "phone.*input|phone.*field" code),
      (probe "pin.*input|pin.*field|code.*input" code);
      try reflexivity; discriminate.
  - unfold extractFeedback.
    cbn [FeedbackElements.found FeedbackElements.detectedNames].
    intro H. apply orb_false_iff in H as [_ H]. now apply nonempty_false.
  - unfold extractLayouts. cbn [LayoutElements.found LayoutElements.layoutType].
    destruct (probe "fixed.*footer|footer.*fixed|sticky.*bottom|position.*fixed.*bottom" code),
      (probe "fixed.*header|header.*fixed|sticky.*top|position.*fixed.*top" code),
      (probe "modal|dialog|overlay|popup|sheet|bottomsheet" code);
      try reflexivity; discriminate.
  - unfold extractSecurity.
    cbn [SecurityElements.found SecurityElements.securityLevel].
    destruct (probe "pinfield|pin.*field|pin.*input|code.*input" code),
      (probe "code.*input|verification.*code|otp|pin" code),
      (probe "otp|one.*time.*password|verification.*code" code);
      try reflexivity; discriminate.
  - unfold extractSpacing in *.
    cbn [SpacingElements.found SpacingElements.spacingTypes] in *.
    destruct (probe "padding" code), (probe "margin" code), (probe "gap" code),
      (probe "space" code); try reflexivity; discriminate.
  - unfold extractSpacing in *.
    cbn [SpacingElements.found SpacingElements.spacingValues] in *.
    match goal with H : (_ || ?b)%bool = false |- _ =>
      apply orb_false_iff in H as [_ H]; apply nonempty_false in H end.
    now rewrite H.
  - unfold extractSpacing in *.
    cbn [SpacingElements.found SpacingElements.detectedUnits] in *.
    match goal with H : (_ || ?b)%bool = false |- _ =>
      apply orb_false_iff in H as [_ H]; apply nonempty_false in H end.
    now rewrite H.
  - unfold extractSpacing in *.
    cbn [SpacingElements.found SpacingElements.spacingPatterns] in *.
    match goal with H : (_ || ?b)%bool = false |- _ =>
      apply orb_false_iff in H as [_ H]; apply nonempty_false in H end.
    now rewrite H.
  - unfold extractFigmaComponents.
    cbn [FigmaComponentElements.found FigmaComponentElements.detectedComponents].
    apply nonempty_false.
Qed.

Lemma not_found_defaults_witness :
  FormElements.structure (forms (extractUIElements "")) = "simple" /\
  FeedbackElements.detectedNames (feedback (extractUIElements "")) = [] /\
  LayoutElements.layoutType (layouts (extractUIElements "")) = "standard" /\
  SecurityElements.securityLevel (security (extractUIElements "")) = "none" /\
  SpacingElements.spacingPatterns (spacing (extractUIElements ""))
    = ["design-system"] /\
  FigmaComponentElements.detectedComponents
    (figmaComponents (extractUIElements "")) = [].
Proof.
  destruct (proj2 not_found_defaults "")
    as (_ & Hforms & Hfeedback & Hlayouts & Hsecurity & Hspacing & Hfigma).
  split; [apply Hforms; reflexivity|].
  split; [apply Hfeedback; reflexivity|].
  split; [apply Hlayouts; reflexivity|].
  split; [apply Hsecurity; reflexivity|].
  split; [apply Hspacing; reflexivity|].
  apply Hfigma; reflexivity.
Defined.

End ExtractorProps.

(** ** Properties of the colour analyser *)

Module SkinVarsProps.

Import Str SkinVarsAnalyzer.

(** The two confidences a match can have, as the doubles the additions
    produce. *)
Definition plainConfidence : float := (0.7 + 0.1)%float.
Definition contextConfidence : float := (0.7 + 0.2 + 0.1)%float.

Lemma confidence_of_match actualColor skinColor context category :
  colorsMatch actualColor skinColor = true ->
  calculateColorConfidence actualColor skinColor context category
  = if String.eqb context category then contextConfidence else plainConfidence.
Proof.
  unfold colorsMatch, calculateColorConfidence. intros ->.
  destruct (String.eqb context category); reflexivity.
Qed.

Section BestMatch.

Variables normalizedColor context : string.

Let matches (entry : TableEntry) : bool :=
  colorsMatch normalizedColor (normalizeColor (skinColor entry)).

Let inContext (entry : TableEntry) : bool :=
  String.eqb context (te_category entry).

Lemma matchStep_matched state entry :
  matches entry = true ->
  matchStep normalizedColor context state entry
  = let confidence :=
      if inContext entry then contextConfidence else plainConfidence in
    if PrimFloat.ltb (snd state) confidence
    then (Some (matchOf entry confidence), confidence)
    else state.
Proof.
  unfold matches, inContext, matchStep. intro H.
  rewrite H, (confidence_of_match _ _ _ _ H). reflexivity.
Qed.

Lemma matchStep_unmatched state entry :
  matches entry = false ->
  matchStep normalizedColor context state entry = state.
Proof. unfold matches, matchStep. now intros ->. Qed.

(** Once a match in context is held nothing replaces it. *)
Lemma fold_from_context entries best :
  fold_left (matchStep normalizedColor context) entries
    (Some best, contextConfidence)
  = (Some best, contextConfidence).
Proof.
  induction entries as [|entry entries IH]; [reflexivity|].
  cbn [fold_left]. destruct (matches entry) eqn:Hm.
  - rewrite (matchStep_matched _ _ Hm). cbn zeta.
    destruct (inContext entry); cbn [snd];
      (replace (PrimFloat.ltb contextConfidence _) with false by reflexivity);
      exact IH.
  - rewrite (matchStep_unmatched _ _ Hm). exact IH.
Qed.

(** A match out of context is replaced by the first match in context. *)
Lemma fold_from_plain entries best :
  fst (fold_left (matchStep normalizedColor context) entries
         (Some best, plainConfidence))
  = match find inContext (filter matches entries) with
    | Some entry => Some (matchOf entry contextConfidence)
    | None => Some best
    end.
Proof.
  induction entries as [|entry entries IH]; [reflexivity|].
  cbn [fold_left filter]. destruct (matches entry) eqn:Hm.
  - rewrite (matchStep_matched _ _ Hm). cbn zeta. cbn [find].
    destruct (inContext entry); cbn [snd].
    + replace (PrimFloat.ltb plainConfidence contextConfidence) with true
        by reflexivity.
      now rewrite fold_from_context.
    + replace (PrimFloat.ltb plainConfidence plainConfidence) with false
        by reflexivity.
      exact IH.
  - rewrite (matchStep_unmatched _ _ Hm). exact IH.
Qed.

Lemma fold_from_nothing entries :
  fst (fold_left (matchStep normalizedColor context) entries (None, 0%float))
  = match find inContext (filter matches entries) with
    | Some entry => Some (matchOf entry contextConfidence)
    | None =>
        match filter matches entries with
        | entry :: _ => Some (matchOf entry plainConfidence)
        | [] => None
        end
    end.
Proof.
  induction entries as [|entry entries IH]; [reflexivity|].
  cbn [fold_left filter]. destruct (matches entry) eqn:Hm.
  - rewrite (matchStep_matched _ _ Hm). cbn zeta. cbn [find].
    destruct (inContext entry); cbn [snd].
    + replace (PrimFloat.ltb 0 contextConfidence) with true by reflexivity.
      now rewrite fold_from_context.
    + replace (PrimFloat.ltb 0 plainConfidence) with true by reflexivity.
      rewrite fold_from_plain.
      now destruct (find inContext (filter matches entries)).
  - rewrite (matchStep_unmatched _ _ Hm). exact IH.
Qed.

End BestMatch.

(** The reading of the specification: the reported confidence is the one
    the specification's rule gives to a matching entry, with the last bonus
    reserved to a literal identical to the entry as written in the table. *)
Definition exactBonusNeedsIdenticalLiteral : Prop :=
  forall (color property element : string) (m : SkinVarMatch),
    findBestSkinVarMatch color property element = Some m ->
    exists entry,
      In entry (candidates color) /\
      sv_confidence m
      = spec_colorConfidence color entry
          (determineColorContext property element).

Example upper_case_white :
  findBestSkinVarMatch "#FFF" "color" "span"
  = Some (mkSkinVarMatch "skinVars.colors.inverse" "text" contextConfidence).
Proof. vm_compute. reflexivity. Qed.

(** The literal reaches the matcher as written when it comes from a
    bracketed utility class. *)
Example upper_case_white_in_markup :
  analyzeSkinVarsUsage "" "span" (Some "<span class='text-[#FFF]'>")
  = [mkColorMapping "#FFF" "skinVars.colors.inverse" "text" contextConfidence].
Proof. vm_compute. reflexivity. Qed.

(** C6, as stated, fails: the literal "#FFF" is written differently from
    every entry of the table, yet it is reported with the three additions
    0.7 + 0.2 + 0.1; the rule of the specification gives at most
    0.7 + 0.2. *)
Lemma exact_bonus_always_added : ~ exactBonusNeedsIdenticalLiteral.
Proof.
  intro H.
  destruct (H "#FFF" "color" "span" _ upper_case_white)
    as (entry & Hin & Heq).
  apply (f_equal (fun c => PrimFloat.ltb 0.95 c)) in Heq.
  vm_compute in Hin.
  repeat (destruct Hin as [<-|Hin]; [vm_compute in Heq; discriminate Heq|]).
  exact Hin.
Qed.

(** C6, amended: every entry of the table that equals the literal after
    normalization is a candidate with confidence 0.7, plus 0.2 if the
    derived context equals the category of the candidate, plus 0.1 for
    every candidate (the bonus compares the normalized values, which are
    equal for each of them), so the cap 1.0 is never reached.  The candidate
    with the highest confidence is returned, the first in table order among
    equals: the first candidate in context if there is one, otherwise the
    first candidate, and nothing when no entry matches. *)
Theorem skin_var_best_match :
  forall color property element : string,
    let context := determineColorContext property element in
    findBestSkinVarMatch color property element
    = match find (fun entry => String.eqb context (te_category entry))
                 (candidates color) with
      | Some entry => Some (matchOf entry (0.7 + 0.2 + 0.1)%float)
      | None =>
          match candidates color with
          | entry :: _ => Some (matchOf entry (0.7 + 0.1)%float)
          | [] => None
          end
      end.
Proof.
  intros color property element context.
  unfold findBestSkinVarMatch. fold context.
  apply fold_from_nothing.
Qed.

End SkinVarsProps.

